(** * The learning and optimisation engine of the sales agent

    A shallow embedding of [main.py] (outcome classifier, objection/rebuttal
    extractor, routing policy), [optimizer.py] (gated prompt optimiser,
    segment resolution) and of [RedisService.vector_search] from
    [voice-module/app/services/redis_service.py].

    Conventions.
    - A Python [str] is a Rocq [string] holding its UTF-8 bytes, so that
      [s.encode()] is the identity on the representation and equality of
      texts is equality of strings.  A Python [bytes] object is wrapped in
      [Bytes] to keep it apart from [str].
    - A Python float is [pyfloat]: the exact rational value of a finite
      double, or one of the three special values.  Comparisons are the
      IEEE ones.  Arithmetic on floats (numpy's dot product and norm) is
      never computed here; it is taken as a parameter.
    - The Redis server is a record of three key spaces (strings, hashes,
      lists).  In [main.py] and [optimizer.py] the server answers every
      command; a lost connection is modelled for [vector_search] only,
      which is the one place where the code handles it.
    - Library and remote calls that the repository does not implement
      ([json.loads], [hash], the model gateway, [weave]'s evaluation) are
      fields of [runtime] and [gateway]: the statements hold for every
      behaviour of these. *)

From Stdlib Require Import ZArith QArith Qabs String Ascii List Bool Lia.
From Stdlib Require Import Sorting.Sorted.
From stdpp Require Import base option gmap strings list pretty.

Import ListNotations.
Set Warnings "-register-all".
Open Scope Z_scope.

(** ** Python values *)

Inductive pyfloat :=
| Finite (q : Q)
| PosInf
| NegInf
| NaN.

(** [a > b] on floats. *)
Definition fgt (a b : pyfloat) : bool :=
  match a, b with
  | NaN, _ | _, NaN => false
  | Finite x, Finite y => negb (Qle_bool x y)
  | PosInf, PosInf => false
  | PosInf, _ => true
  | _, NegInf => match a with NegInf => false | _ => true end
  | _, _ => false
  end.

(** [a >= b] on floats. *)
Definition fge (a b : pyfloat) : bool :=
  match a, b with
  | NaN, _ | _, NaN => false
  | Finite x, Finite y => Qle_bool y x
  | PosInf, _ => true
  | _, NegInf => true
  | _, _ => false
  end.

(** [a <= b] on floats. *)
Definition fle (a b : pyfloat) : bool := fge b a.

(** [a < b] on floats. *)
Definition flt (a b : pyfloat) : bool := fgt b a.

(** [a == b] on floats. *)
Definition feq (a b : pyfloat) : bool :=
  match a, b with
  | Finite x, Finite y => Qeq_bool x y
  | PosInf, PosInf | NegInf, NegInf => true
  | _, _ => false
  end.

(** The double written [0.8] in the source: 0.8 is not a binary fraction,
    the nearest double is 3602879701896397 / 2^52. *)
Definition float_0_8 : pyfloat := Finite (3602879701896397 # 4503599627370496).

(** [0.5], [1.0] and [0.0] are exact. *)
Definition float_0_5 : pyfloat := Finite (1 # 2).
Definition float_1_0 : pyfloat := Finite (1 # 1).
Definition float_0_0 : pyfloat := Finite (0 # 1).

(** What [json.loads] produces: [None], [bool], numbers, [str], [list],
    [dict].  A [dict] keeps its items in insertion order. *)
Inductive json :=
| JNull
| JBool (b : bool)
| JNum (x : pyfloat)
| JStr (s : string)
| JArr (items : list json)
| JObj (fields : list (string * json)).

Inductive bytes := Bytes (content : string).

Inductive exn :=
| JSONDecodeError
| KeyError
| TypeError
| AttributeError
| ValueError
| StructError
| GatewayError.

(** The result of a Python expression: a value or a raised exception. *)
Inductive res (A : Type) :=
| Ret (a : A)
| Raise (e : exn).
Arguments Ret {A} a.
Arguments Raise {A} e.

Definition res_bind {A B} (r : res A) (k : A -> res B) : res B :=
  match r with
  | Ret a => k a
  | Raise e => Raise e
  end.

(** [try: body except: handler] with a bare [except]. *)
Definition try_except {A} (body : res A) (handler : A) : A :=
  match body with
  | Ret a => a
  | Raise _ => handler
  end.

(** Lookup in a [dict]: when a key was inserted twice the later item
    wins. *)
Fixpoint dict_lookup (k : string) (fields : list (string * json)) : option json :=
  match fields with
  | [] => None
  | (k', v) :: rest =>
      match dict_lookup k rest with
      | Some v' => Some v'
      | None => if String.eqb k k' then Some v else None
      end
  end.

(** [d.get(k, dflt)]: only a [dict] has the method. *)
Definition py_get (d : json) (k : string) (dflt : json) : res json :=
  match d with
  | JObj fields => Ret (default dflt (dict_lookup k fields))
  | _ => Raise AttributeError
  end.

(** [d[k]] with a string key [k]: [KeyError] on a [dict] without the key,
    [TypeError] on every other JSON value (a [list] or [str] wants
    an integer index, the others are not subscriptable). *)
Definition py_subscript (d : json) (k : string) : res json :=
  match d with
  | JObj fields =>
      match dict_lookup k fields with
      | Some v => Ret v
      | None => Raise KeyError
      end
  | _ => Raise TypeError
  end.

(** The numeric value of an [int], [float] or [bool]; the other JSON
    values are not numbers. *)
Definition as_number (v : json) : option pyfloat :=
  match v with
  | JNum x => Some x
  | JBool true => Some float_1_0
  | JBool false => Some float_0_0
  | _ => None
  end.

(** [v > c] and [v >= c] against a float constant: [TypeError] unless [v] is
    a number. *)
Definition py_gt (v : json) (c : pyfloat) : res bool :=
  match as_number v with
  | Some x => Ret (fgt x c)
  | None => Raise TypeError
  end.

Definition py_ge (v : json) (c : pyfloat) : res bool :=
  match as_number v with
  | Some x => Ret (fge x c)
  | None => Raise TypeError
  end.

(** [f"{v:.2f}"]: formatting succeeds on numbers only ([ValueError] on a
    [str], [TypeError] on the rest). *)
Definition py_format_2f (v : json) : res unit :=
  match v with
  | JStr _ => Raise ValueError
  | _ => match as_number v with
         | Some _ => Ret tt
         | None => Raise TypeError
         end
  end.

(** [v == s] for a string literal [s]. *)
Definition py_eq_str (v : json) (s : string) : bool :=
  match v with
  | JStr s' => String.eqb s' s
  | _ => false
  end.

(** [v == known] where [known] is the reply of [hget] on a client with
    [decode_responses=False]: [None] or a [bytes] object.  In Python 3 a
    [bytes] object is equal to no [str], number, [bool], [list], [dict] or
    [None]; [None] is equal to [None] only. *)
Definition py_eq_reply (v : json) (known : option bytes) : bool :=
  match v, known with
  | JNull, None => true
  | _, _ => false
  end.

(** Truthiness of the reply of [get] on a client with
    [decode_responses=True]: [None] and the empty string are falsy. *)
Definition truthy (reply : option string) : bool :=
  match reply with
  | Some s => negb (String.eqb s "")
  | None => false
  end.

(** [reply or dflt]. *)
Definition py_or (reply : option string) (dflt : string) : string :=
  match reply with
  | Some s => if String.eqb s "" then dflt else s
  | None => dflt
  end.

(** ** The Redis server and the effects of a run *)

(** The three key spaces the code uses: plain strings ([get]/[set], the
    prompts), hashes ([hget]/[hset], the skills) and lists
    ([rpush]/[lrange], the test-case corpus). *)
Record redis := {
  strs : gmap string string;
  hashes : gmap string (gmap string string);
  lists : gmap string (list string)
}.

(** What a run does besides computing its result: every write sent to the
    server and every entry into the optimiser. *)
Inductive event :=
| EvOptimize (segment_key : string)
| EvSet (key value : string)
| EvHSet (key : string)
| EvRPush (key value : string).

(** A finished run: its result, the server it leaves and the events it
    produced, in order. *)
Record run (A : Type) := {
  value : res A;
  store : redis;
  events : list event
}.
Arguments value {A} _.
Arguments store {A} _.
Arguments events {A} _.

(** Computations that read and write the server and may raise. *)
Definition M (A : Type) : Type := redis -> run A.

Definition ret {A} (a : A) : M A :=
  fun d => {| value := Ret a; store := d; events := [] |}.

Definition raise {A} (e : exn) : M A :=
  fun d => {| value := Raise e; store := d; events := [] |}.

(** Sequencing: an exception ends the run, what was written stays. *)
Definition bind {A B} (m : M A) (k : A -> M B) : M B :=
  fun d =>
    let r := m d in
    match value r with
    | Ret a =>
        let r' := k a (store r) in
        {| value := value r'; store := store r'; events := events r ++ events r' |}
    | Raise e => {| value := Raise e; store := store r; events := events r |}
    end.

Definition lift {A} (r : res A) : M A :=
  fun d => {| value := r; store := d; events := [] |}.

Declare Scope py_scope.
Delimit Scope py_scope with py.
Notation "x <- m ;; k" := (bind m (fun x => k))
  (at level 100, m at next level, right associativity) : py_scope.
Notation "m ;;; k" := (bind m (fun _ => k))
  (at level 100, right associativity) : py_scope.
Open Scope py_scope.

Definition emit (e : event) : M unit :=
  fun d => {| value := Ret tt; store := d; events := [e] |}.

Definition read {A} (f : redis -> A) : M A :=
  fun d => {| value := Ret (f d); store := d; events := [] |}.

Definition write (f : redis -> redis) : M unit :=
  fun d => {| value := Ret tt; store := f d; events := [] |}.

(** [r.get(key)] *)
Definition r_get (key : string) (d : redis) : option string := strs d !! key.

(** [r.set(key, value)] *)
Definition r_set (key value : string) : M unit :=
  emit (EvSet key value);;;
  write (fun d => {| strs := <[key := value]> (strs d);
                     hashes := hashes d; lists := lists d |}).

(** [r.hget(name, field)] on the raw client: the field's bytes. *)
Definition r_hget (name field : string) (d : redis) : option bytes :=
  match hashes d !! name with
  | Some h => Bytes <$> (h !! field)
  | None => None
  end.

(** [r.hset(name, mapping)]: the fields of [mapping] are written over
    those already in the hash. *)
Definition r_hset (name : string) (mapping : list (string * string)) : M unit :=
  emit (EvHSet name);;;
  write (fun d => {| strs := strs d;
                     hashes := <[name := list_to_map mapping ∪ default ∅ (hashes d !! name)]> (hashes d);
                     lists := lists d |}).

(** [r.lrange(key, 0, -1)]: a missing key reads as the empty list. *)
Definition r_lrange_all (key : string) (d : redis) : list string :=
  default [] (lists d !! key).

(** [r.exists(key)] for a list key: Redis keeps no empty list. *)
Definition r_exists (key : string) (d : redis) : bool :=
  match r_lrange_all key d with
  | [] => false
  | _ :: _ => true
  end.

(** [r.rpush(key, value)] *)
Definition r_rpush (key value : string) : M unit :=
  emit (EvRPush key value);;;
  write (fun d => {| strs := strs d; hashes := hashes d;
                     lists := <[key := r_lrange_all key d ++ [value]]> (lists d) |}).

(** ** What the repository calls but does not implement *)

(** Python's library functions. [json_loads] is [None] where [json.loads]
    raises; [struct_pack] is [None] where [struct.pack] raises. *)
Record runtime := {
  json_loads : string -> option json;
  json_dumps : json -> string;
  py_hash : json -> Z;
  str_strip : string -> string;
  struct_pack : list Q -> option string
}.

(** A reply of [generate_content]: the call raises, or it returns a
    response whose [text] is a string or [None]. *)
Inductive llm_reply :=
| GatewayFailure
| Response (text : option string).

(** A run of [weave.Evaluation.evaluate], which calls
    [PromptSimulator.predict] and [LLMPromptQualityScorer.score] on every
    test case: it raises, or returns the summary dictionary. *)
Inductive eval_reply :=
| EvalFailure
| EvalSummary (results : json).

(** The remote services.  Each model call is given the values that the
    code interpolates into its prompt. *)
Record gateway := {
  classify : string -> llm_reply;
  extract : string -> llm_reply;
  mutate : string -> string -> string -> string -> json -> llm_reply;
  embed : string -> option (list Q);
  evaluate : string -> list json -> eval_reply
}.

(** ** Strings *)

(** [s.split(":")]: the pieces between colons, never an empty list. *)
Fixpoint split_colon (s : string) : list string :=
  match s with
  | EmptyString => [""]
  | String c rest =>
      if Ascii.eqb c ":"%char then "" :: split_colon rest
      else match split_colon rest with
           | p :: ps => String c p :: ps
           | [] => [String c ""]
           end
  end.

(** [text.replace("\n", " ")] *)
Fixpoint replace_newlines (s : string) : string :=
  match s with
  | EmptyString => EmptyString
  | String c rest =>
      String (if Ascii.eqb c "010"%char then " "%char else c) (replace_newlines rest)
  end.

Section Engine.

Context (rt : runtime) (gw : gateway).

(** [json.loads(text)]: a [TypeError] on [None], a decode error on text
    that is not JSON. *)
Definition loads (text : option string) : res json :=
  match text with
  | None => Raise TypeError
  | Some s =>
      match json_loads rt s with
      | Some v => Ret v
      | None => Raise JSONDecodeError
      end
  end.

Definition generate_content (reply : llm_reply) : res (option string) :=
  match reply with
  | GatewayFailure => Raise GatewayError
  | Response text => Ret text
  end.

(** ** optimizer.py *)

Definition default_prompt : string := "You are a helpful sales agent.".

Definition test_cases_key : string := "test_cases:list".

Definition segment_prompt_key (segment_key : string) : string :=
  "prompt:segment:" +:+ segment_key.

Definition test_case (input target : json) : json :=
  JObj [("input", input); ("target", target)].

Definition default_cases : list json :=
  [ test_case (JStr "Hello, who are you?") (JStr "I am a sales representative");
    test_case (JStr "It is too expensive.") (JStr "Value proposition and ROI");
    test_case (JStr "I need to think about it.") (JStr "Address hesitation with urgency") ].

Fixpoint rpush_all (key : string) (values : list string) : M unit :=
  match values with
  | [] => ret tt
  | v :: rest => r_rpush key v;;; rpush_all key rest
  end.

Definition initialize_default_test_cases : M unit :=
  present <- read (r_exists test_cases_key);;
  if present then ret tt
  else rpush_all test_cases_key (map (json_dumps rt) default_cases).

Definition add_test_case_from_lesson (objection rebuttal : json) : M json :=
  let case := test_case objection rebuttal in
  r_rpush test_cases_key (json_dumps rt case);;;
  (* the message prints objection[:50] *)
  match objection with
  | JStr _ | JArr _ => ret case
  | _ => raise TypeError
  end.

Fixpoint loads_all (cases : list string) : res (list json) :=
  match cases with
  | [] => Ret []
  | c :: rest =>
      res_bind (loads (Some c)) (fun v =>
      res_bind (loads_all rest) (fun vs => Ret (v :: vs)))
  end.

Definition get_test_cases_from_redis : M (list json) :=
  cases <- read (r_lrange_all test_cases_key);;
  lift (loads_all cases).

(** Lines 148 to 150 of [optimize_and_verify]: the prompt that is handed
    to the model for mutation. *)
Definition fetch_current_prompt (segment_key : string) (d : redis) : string :=
  let current_prompt := r_get (segment_prompt_key segment_key) d in
  if truthy current_prompt then default "" current_prompt
  else py_or (r_get "prompt:base" d) default_prompt.

(** Lines 205 and 206: the mean is dug out of the summary with [get] and
    defaults. *)
Definition avg_score_of (results : json) : res json :=
  res_bind (py_get results "LLMPromptQualityScorer" (JObj [])) (fun scorer_results =>
  res_bind (py_get scorer_results "overall_score" (JObj [])) (fun overall =>
  py_get overall "mean" (JNum float_0_0))).

(** Lines 147 to 208: mutation of the current prompt and evaluation of the
    candidate on the corpus, up to the message that prints the mean. *)
Definition generate_and_score (segment_key transcript : string) (outcome : json)
  : M (string * json) :=
  current_prompt <- read (fetch_current_prompt segment_key);;
  let parts := split_colon segment_key in
  let country := if 0 <? Z.of_nat (length parts) then nth 0 parts "" else "US" in
  let industry := if 1 <? Z.of_nat (length parts) then nth 1 parts "" else "general" in
  text <- lift (generate_content (mutate gw industry country current_prompt transcript outcome));;
  candidate_prompt <- match text with
                      | Some t => ret (str_strip rt t)
                      | None => raise AttributeError
                      end;;
  test_cases <- get_test_cases_from_redis;;
  test_cases <- match test_cases with
                | [] => initialize_default_test_cases;;; get_test_cases_from_redis
                | _ :: _ => ret test_cases
                end;;
  results <- match evaluate gw candidate_prompt test_cases with
             | EvalFailure => raise GatewayError
             | EvalSummary results => ret results
             end;;
  avg_score <- lift (avg_score_of results);;
  lift (py_format_2f avg_score);;;
  ret (candidate_prompt, avg_score).

(** The whole function: the candidate is stored only behind the gate of
    lines 211 to 215. *)
Definition optimize_and_verify (segment_key transcript : string) (outcome : json)
  : M string :=
  emit (EvOptimize segment_key);;;
  scored <- generate_and_score segment_key transcript outcome;;
  let '(candidate_prompt, avg_score) := scored in
  accepted <- lift (py_ge avg_score float_0_5);;
  (if accepted : bool
   then r_set (segment_prompt_key segment_key) candidate_prompt
   else ret tt);;;
  ret candidate_prompt.

Definition get_prompt_for_segment (country industry : string) (d : redis) : string :=
  let segment_key := country +:+ ":" +:+ industry in
  let prompt := r_get (segment_prompt_key segment_key) d in
  if truthy prompt then default "" prompt
  else
    let prompt := r_get ("prompt:segment:*:" +:+ industry) d in
    if truthy prompt then default "" prompt
    else
      let prompt := r_get "prompt:base" d in
      if truthy prompt then default "" prompt
      else default_prompt.

(** ** main.py *)

Definition determine_call_outcome (transcript : string) : res json :=
  res_bind (generate_content (classify gw transcript)) (fun text =>
  Ret (try_except
         (res_bind (loads text) (fun result =>
          res_bind (py_get result "outcome" (JStr "LOST_DEAL")) (fun outcome =>
          res_bind (py_get result "confidence" (JNum float_0_0)) (fun confidence =>
          res_bind (py_get result "reason" (JStr "")) (fun reason =>
          res_bind (py_format_2f confidence) (fun _ =>
          Ret outcome))))))
         (JStr "LOST_DEAL"))).

Definition get_embedding (text : json) : res (list Q) :=
  match text with
  | JStr s =>
      match embed gw (replace_newlines s) with
      | Some values => Ret values
      | None => Raise GatewayError
      end
  | _ => Raise AttributeError
  end.

(** [f"skill:{hash(objection)}"]: lists and dictionaries are unhashable. *)
Definition skill_key (objection : json) : res string :=
  match objection with
  | JArr _ | JObj _ => Raise TypeError
  | _ => Ret ("skill:" +:+ pretty (py_hash rt objection))
  end.

(** [v.encode()] *)
Definition py_encode (v : json) : res string :=
  match v with
  | JStr s => Ret s
  | _ => Raise AttributeError
  end.

Definition store_lesson_in_redis (analysis : json) : M unit :=
  objection <- lift (py_subscript analysis "objection");;
  vector <- lift (get_embedding objection);;
  vector_bytes <- lift (match struct_pack rt vector with
                        | Some b => Ret b
                        | None => Raise StructError
                        end);;
  name <- lift (skill_key objection);;
  trigger <- lift (py_encode objection);;
  rebuttal <- lift (res_bind (py_subscript analysis "rebuttal") py_encode);;
  r_hset name [("trigger", trigger); ("rebuttal", rebuttal); ("vector", vector_bytes)].

(** Lines 109 to 143 of [process_call_outcome]: the router, run on the
    analysis that the judge extracted. *)
Definition router (transcript speaker_role : string) (outcome : json)
    (segment_key : string) (analysis : json) : M json :=
  (* scenario C and the final return, reached when no branch above returned *)
  let scenario_c : M json :=
    if py_eq_str outcome "LOST_DEAL" then
      optimize_and_verify segment_key transcript outcome;;;
      ret (JObj [("status", JStr "prompt_optimized"); ("segment", JStr segment_key)])
    else ret (JObj [("status", JStr "no_action_needed")]) in
  (* scenario A: the human teacher *)
  if String.eqb speaker_role "HUMAN_MANAGER" && py_eq_str outcome "CLOSED_DEAL" then
    quality_score <- lift (py_subscript analysis "quality_score");;
    high <- lift (py_gt quality_score float_0_8);;
    if high : bool then
      objection <- lift (py_subscript analysis "objection");;
      store_lesson_in_redis analysis;;;
      rebuttal <- lift (py_subscript analysis "rebuttal");;
      add_test_case_from_lesson objection rebuttal;;;
      ret (JObj [("status", JStr "learned_new_skill"); ("data", analysis);
                 ("segment", JStr segment_key)])
    else scenario_c
  (* scenario B: the AI student *)
  else if String.eqb speaker_role "AI_AGENT" then
    objection <- lift (py_subscript analysis "objection");;
    name <- lift (skill_key objection);;
    known_best <- read (r_hget name "rebuttal");;
    rebuttal <- lift (py_subscript analysis "rebuttal");;
    let grading_score := if py_eq_reply rebuttal known_best then float_1_0 else float_0_5 in
    if py_eq_str outcome "LOST_DEAL" then
      optimize_and_verify segment_key transcript outcome;;;
      ret (JObj [("status", JStr "graded_agent"); ("score", JNum grading_score);
                 ("optimized", JBool true); ("segment", JStr segment_key)])
    else ret (JObj [("status", JStr "graded_agent"); ("score", JNum grading_score)])
  else scenario_c.

(** Lines 80 to 83: an outcome that was not given is determined from the
    transcript. *)
Definition resolve_outcome (transcript : string) (outcome : json) : res json :=
  match outcome with
  | JNull => determine_call_outcome transcript
  | _ => Ret outcome
  end.

Definition process_call_outcome (transcript speaker_role : string) (outcome : json)
    (country industry : string) : M json :=
  outcome <- lift (resolve_outcome transcript outcome);;
  let segment_key := country +:+ ":" +:+ industry in
  (* 1. the judge *)
  text <- lift (generate_content (extract gw transcript));;
  analysis <- lift (loads text);;
  (* 2. the router *)
  router transcript speaker_role outcome segment_key analysis.

End Engine.

(** ** optimizer.py: the simulated agent and the scorer *)

(** The two model calls that [weave] makes for every test case: the
    simulated agent is given the candidate prompt and the input, the judge
    is given the input, the simulated answer and the target. *)
Record evaluators := {
  simulate : string -> json -> llm_reply;
  judge : json -> string -> json -> llm_reply
}.

Section Evaluators.

Context (rt : runtime) (ev : evaluators).

(** [PromptSimulator.predict] *)
Definition PromptSimulator_predict (prompt : string) (input : json) : res string :=
  res_bind (generate_content (simulate ev prompt input)) (fun text =>
  match text with
  | Some t => Ret (str_strip rt t)
  | None => Raise AttributeError
  end).

Definition zero_score : json :=
  JObj [("addresses_objection", JBool false);
        ("professional_tone", JBool false);
        ("aligns_with_target", JBool false);
        ("overall_score", JNum float_0_0)].

(** [LLMPromptQualityScorer.score]: the model call is outside the [try],
    decoding and the four [get] are inside. *)
Definition LLMPromptQualityScorer_score (output : string) (input target : json)
  : res json :=
  res_bind (generate_content (judge ev input output target)) (fun text =>
  Ret (try_except
         (res_bind (loads rt text) (fun result =>
          res_bind (py_get result "addresses_objection" (JBool false)) (fun a =>
          res_bind (py_get result "professional_tone" (JBool false)) (fun p =>
          res_bind (py_get result "aligns_with_target" (JBool false)) (fun t =>
          res_bind (py_get result "overall_score" (JNum float_0_0)) (fun o =>
          Ret (JObj [("addresses_objection", a);
                     ("professional_tone", p);
                     ("aligns_with_target", t);
                     ("overall_score", o)])))))))
         zero_score)).

End Evaluators.

(** ** voice-module/app/services/redis_service.py *)

(** The replies of the server to the [SCAN] loop of [vector_search]: a
    page with a non-zero cursor is followed by the next reply, a page with
    cursor 0 ends the iteration, and any call may raise.  Redis ends every
    full iteration, so the replies form a finite sequence. *)
Inductive scan_session :=
| ScanLast (keys : list string)
| ScanMore (keys : list string) (next : scan_session)
| ScanError.

Inductive hgetall_reply :=
| HgetallError
| HgetallData (data : gmap string string).

(** The connection as [vector_search] uses it.  [connect] opens it with
    [decode_responses=True]: field names and values arrive as [str]. *)
Record redis_client := {
  scan : scan_session;
  hgetall : string -> hgetall_reply
}.

Record RedisService := {
  client : option redis_client
}.

(** Float arithmetic of numpy and the decoding of the stored blob
    ([encode('latin-1')] followed by [struct.unpack], [None] when either
    raises).  [np_dot] is [None] when the shapes differ.  Values are
    floats: a blob may hold a NaN or an infinity, and a norm, a product or
    a quotient may be one. *)
Record numpy := {
  unpack_vector : string -> option (list pyfloat);
  np_norm : list pyfloat -> pyfloat;
  np_dot : list pyfloat -> list pyfloat -> option pyfloat;
  np_mul : pyfloat -> pyfloat -> pyfloat;
  np_div : pyfloat -> pyfloat -> pyfloat
}.

Record document := {
  content : string;
  source : string;
  key : string;
  score : pyfloat
}.

(** [list.sort(key=lambda x: x["score"], reverse=True)] of Python.  The
    language promises a stable sort that compares keys with [<] alone;
    what it returns when [<] does not order the keys (a NaN among them)
    is left to the implementation. *)
Record builtins := {
  sort_by_score_reverse : list document -> list document
}.

Section VectorSearch.

Context (np : numpy) (py : builtins).

Definition _is_connected (self : RedisService) : bool :=
  match client self with
  | Some _ => true
  | None => false
  end.

(** The [while True] loop over the cursor: all keys, or [None] when a
    [scan] call raised. *)
Fixpoint scan_all (session : scan_session) (all_keys : list string)
  : option (list string) :=
  match session with
  | ScanError => None
  | ScanLast keys => Some (all_keys ++ keys)
  | ScanMore keys next => scan_all next (all_keys ++ keys)
  end.

(** The body of the [for key in all_keys] loop: the document appended to
    [results], or [None] when the iteration ends in [continue] (also
    through the inner [except]). *)
Definition score_key (c : redis_client) (query_vec : list pyfloat)
    (query_norm : pyfloat) (k : string) : option document :=
  match hgetall c k with
  | HgetallError => None
  | HgetallData data =>
      if decide (data = ∅) then None
      else
        (* field names are [str], so [data.get(b"vector")] is [None] *)
        let vector_bytes := data !! "vector" in
        if negb (truthy vector_bytes) then None
        else
          match unpack_vector np (default "" vector_bytes) with
          | None => None
          | Some stored_vec =>
              let stored_norm := np_norm np stored_vec in
              if feq stored_norm (Finite 0) then None
              else
                match np_dot np query_vec stored_vec with
                | None => None
                | Some d =>
                    let similarity := np_div np d (np_mul np query_norm stored_norm) in
                    let trigger := py_or (data !! "trigger") "" in
                    let rebuttal := py_or (data !! "rebuttal") "" in
                    Some {| content := "Objection: " +:+ trigger +:+
                                       String "010"%char "Rebuttal: " +:+ rebuttal;
                            source := "learned_skill";
                            key := k;
                            score := similarity |}
                end
          end
  end.

(** The stable descending sort by [<]: a document moves behind those of
    a greater score only, documents of equal score keep their order.  On
    scores that [<] orders this is the list that every stable sort
    returns. *)
Fixpoint insert_desc (x : document) (sorted : list document) : list document :=
  match sorted with
  | [] => [x]
  | y :: rest =>
      if flt (score x) (score y) then y :: insert_desc x rest
      else x :: y :: rest
  end.

Definition sort_desc (results : list document) : list document :=
  foldr insert_desc [] results.

(** [results[:k]]: a negative [k] counts from the end. *)
Definition slice_to (k : Z) (results : list document) : list document :=
  if 0 <=? k then take (Z.to_nat k) results
  else take (Z.to_nat (Z.of_nat (length results) + k)) results.

Definition vector_search (self : RedisService) (query_embedding : list pyfloat)
    (k : Z) : list document :=
  if negb (_is_connected self) then []
  else
    match client self with
    | None => []
    | Some c =>
        (* the outer [try]: any failure of the scan gives the empty list *)
        match scan_all (scan c) [] with
        | None => []
        | Some [] => []
        | Some all_keys =>
            let query_norm := np_norm np query_embedding in
            if feq query_norm (Finite 0) then []
            else
              let results := omap (score_key c query_embedding query_norm) all_keys in
              slice_to k (sort_by_score_reverse py results)
        end
    end.

End VectorSearch.

(** ** redis_service.py: call state and interactions *)

(** Truthiness of a JSON value: [None], [False], zero, the empty string,
    the empty list and the empty dictionary are falsy. *)
Definition py_truthy (v : json) : bool :=
  match v with
  | JNull => false
  | JBool b => b
  | JNum (Finite q) => negb (Qeq_bool q 0)
  | JNum _ => true
  | JStr s => negb (String.eqb s "")
  | JArr items => match items with [] => false | _ :: _ => true end
  | JObj fields => match fields with [] => false | _ :: _ => true end
  end.

(** [d[k] = v] on the items of a dictionary: the value of an existing key
    is replaced where it stands, a new key goes to the end. *)
Definition dict_set (k : string) (v : json) (fields : list (string * json))
  : list (string * json) :=
  match dict_lookup k fields with
  | Some _ => map (fun kv => if String.eqb k kv.1 then (kv.1, v) else kv) fields
  | None => fields ++ [(k, v)]
  end.

(** [d[k] = v] with a string key: only a dictionary takes it. *)
Definition py_setitem (d : json) (k : string) (v : json) : res json :=
  match d with
  | JObj fields => Ret (JObj (dict_set k v fields))
  | _ => Raise TypeError
  end.

(** The commands of the asynchronous client.  They are followed through
    the server alone: the event log is that of the learning engine. *)
Definition client_set (key value : string) : M unit :=
  write (fun d => {| strs := <[key := value]> (strs d);
                     hashes := hashes d; lists := lists d |}).

Definition client_delete (key : string) : M unit :=
  write (fun d => {| strs := delete key (strs d);
                     hashes := hashes d; lists := lists d |}).

Definition client_rpush (key value : string) : M unit :=
  write (fun d => {| strs := strs d; hashes := hashes d;
                     lists := <[key := r_lrange_all key d ++ [value]]> (lists d) |}).

Definition call_key (call_id : string) : string := "call:" +:+ call_id.

Definition interactions_key (call_id : string) : string :=
  "call:" +:+ call_id +:+ ":interactions".

Section CallState.

Context (rt : runtime).

(** [set_call_state]: [now] is the reading of the clock,
    [datetime.utcnow().isoformat()]. The dictionary that the caller passed
    is updated in place; the result is that dictionary after the call. *)
Definition set_call_state (self : RedisService) (now call_id : string) (state : json)
  : M json :=
  let key := call_key call_id in
  state <- lift (py_setitem state "updated_at" (JStr now));;
  if _is_connected self then
    client_set key (json_dumps rt state);;; ret state
  else ret state.

(** [get_call_state]: [JNull] stands for [None]. *)
Definition get_call_state (self : RedisService) (call_id : string) : M json :=
  let key := call_key call_id in
  if _is_connected self then
    data <- read (r_get key);;
    if truthy data then lift (loads rt data) else ret JNull
  else ret JNull.

Definition update_call_status (self : RedisService) (now call_id status : string)
  : M unit :=
  state <- get_call_state self call_id;;
  if py_truthy state then
    state <- lift (py_setitem state "status" (JStr status));;
    set_call_state self now call_id state;;;
    ret tt
  else ret tt.

Definition delete_call_state (self : RedisService) (call_id : string) : M unit :=
  let key := call_key call_id in
  if _is_connected self then client_delete key else ret tt.

(** [log_call_interaction]: the result is the caller's dictionary after
    the call, stamped also when there is no connection. *)
Definition log_call_interaction (self : RedisService) (now call_id : string)
    (interaction : json) : M json :=
  let key := interactions_key call_id in
  interaction <- lift (py_setitem interaction "timestamp" (JStr now));;
  if _is_connected self then
    client_rpush key (json_dumps rt interaction);;; ret interaction
  else ret interaction.

Definition get_call_interactions (self : RedisService) (call_id : string)
  : M (list json) :=
  let key := interactions_key call_id in
  if _is_connected self then
    data <- read (r_lrange_all key);;
    lift (loads_all rt data)
  else ret [].

End CallState.

(** ** bot/tools/vector_search.py *)

(** What Python's formatting contributes: [str(v)] of a value that is not
    a string, and the [:.2f] form of a float. *)
Record formatting := {
  py_str : json -> string;
  format_2f : pyfloat -> string
}.

Definition newline : string := String "010"%char "".

Section SearchContext.

Context (np : numpy) (py : builtins) (fmt : formatting).

(** One entry of [context_parts]; [i] counts from 1. *)
Definition context_part (i : nat) (doc : document) : string :=
  "[" +:+ pretty i +:+ "] (score: " +:+ format_2f fmt (score doc)
      +:+ ", source: " +:+ source doc +:+ ")" +:+ newline +:+ content doc.

(** [search_context]: [embed_query] is [get_query_embedding] on the
    cleaned query, [inl message] when it raises an exception whose text is
    [message]; [redis_service] is the injected service. *)
Definition search_context (embed_query : string -> string + list pyfloat)
    (query : string) (k : Z) (redis_service : RedisService) : string :=
  match embed_query (replace_newlines query) with
  | inl message => "Error performing search: " +:+ message
  | inr query_embedding =>
      let results := vector_search np py redis_service query_embedding k in
      match results with
      | [] => "No relevant context found."
      | _ :: _ =>
          String.concat (newline +:+ newline)
            (imap (fun i doc => context_part (S i) doc) results)
      end
  end.

End SearchContext.

(** ** bot/handlers/presence.py *)

(** [a == b] on JSON values: numbers and booleans compare by value, a
    string equals only the same string, lists compare item by item,
    dictionaries as mappings. *)
Fixpoint py_eq (a b : json) {struct a} : bool :=
  match a with
  | JNull => match b with JNull => true | _ => false end
  | JBool x =>
      match as_number b with
      | Some y => feq (if x then float_1_0 else float_0_0) y
      | None => false
      end
  | JNum x =>
      match as_number b with
      | Some y => feq x y
      | None => false
      end
  | JStr s => py_eq_str b s
  | JArr items =>
      match b with
      | JArr items' =>
          (fix all2 (l : list json) (m : list json) : bool :=
             match l, m with
             | [], [] => true
             | x :: l', y :: m' => py_eq x y && all2 l' m'
             | _, _ => false
             end) items items'
      | _ => false
      end
  | JObj fields =>
      match b with
      | JObj fields' =>
          (fix each (f : list (string * json)) : bool :=
             match f with
             | [] => true
             | (k, v) :: f' =>
                 (match dict_lookup k f' with
                  | Some _ => true
                  | None =>
                      match dict_lookup k fields' with
                      | Some w => py_eq v w
                      | None => false
                      end
                  end) && each f'
             end) fields
          && forallb (fun kv => bool_decide (is_Some (dict_lookup kv.1 fields))) fields'
      | _ => false
      end
  end.

(** [s in p] on strings: [s] occurs in [p]. *)
Fixpoint is_substring (s p : string) : bool :=
  String.prefix s p
  || match p with
     | EmptyString => false
     | String _ p' => is_substring s p'
     end.

(** [x in container]: items of a list, substrings of a string, keys of a
    dictionary; anything else is not iterable. *)
Definition py_in (x container : json) : res bool :=
  match container with
  | JArr items => Ret (existsb (py_eq x) items)
  | JStr p =>
      match x with
      | JStr s => Ret (is_substring s p)
      | _ => Raise TypeError
      end
  | JObj fields =>
      match x with
      | JStr s => Ret (bool_decide (is_Some (dict_lookup s fields)))
      | JArr _ | JObj _ => Raise TypeError
      | _ => Ret false
      end
  | _ => Raise TypeError
  end.

(** [len(v) == 0] *)
Definition py_len_is_zero (v : json) : res bool :=
  match v with
  | JArr items => Ret (match items with [] => true | _ :: _ => false end)
  | JStr s => Ret (String.eqb s "")
  | JObj fields => Ret (match fields with [] => true | _ :: _ => false end)
  | _ => Raise TypeError
  end.

(** [l.remove(x)] after [x in l]: the first item equal to [x] goes. *)
Fixpoint remove_first (x : json) (items : list json) : list json :=
  match items with
  | [] => []
  | y :: rest => if py_eq x y then rest else y :: remove_first x rest
  end.

(** [f"{v}"] *)
Definition py_format (fmt : formatting) (v : json) : string :=
  match v with
  | JStr s => s
  | _ => py_str fmt v
  end.

Record PresenceHandler := {
  call_id : string;
  redis_service : RedisService
}.

(** [try: body except Exception: log]: the run ends normally, what was
    written stays. *)
Definition swallow (body : M unit) : M unit :=
  fun d =>
    let r := body d in
    {| value := Ret tt; store := store r; events := events r |}.

Section Presence.

Context (rt : runtime) (gw : gateway) (fmt : formatting).

(** [participant.get("info", {}).get(field, dflt)] *)
Definition participant_info (participant : json) (field : string) (dflt : json)
  : res json :=
  res_bind (py_get participant "info" (JObj [])) (fun info => py_get info field dflt).

Definition on_participant_joined (self : PresenceHandler) (now : string)
    (participant : json) : M unit :=
  participant_id <- lift (py_get participant "id" (JStr "unknown"));;
  user_name <- lift (participant_info participant "userName" (JStr "unknown"));;
  is_local <- lift (participant_info participant "isLocal" (JBool false));;
  if py_truthy is_local then ret tt
  else
    state <- get_call_state rt (redis_service self) (call_id self);;
    if py_truthy state then
      participants <- lift (py_get state "participants" (JArr []));;
      present <- lift (py_in participant_id participants);;
      updated <- (if present : bool then ret (state, participants)
                  else match participants with
                       | JArr items =>
                           let participants := JArr (items ++ [participant_id]) in
                           state <- lift (py_setitem state "participants" participants);;
                           ret (state, participants)
                       | _ => raise AttributeError
                       end);;
      let '(state, participants) := updated in
      status <- lift (py_get state "status" JNull);;
      state <- (if py_eq_str status "pending"
                then lift (py_setitem state "status" (JStr "active"))
                else ret state);;
      state <- set_call_state rt (redis_service self) now (call_id self) state;;
      (* the message prints len(participants) and state['status'] *)
      lift (py_len_is_zero participants);;;
      lift (py_subscript state "status");;;
      ret tt
    else ret tt.

Definition on_participant_left (self : PresenceHandler) (now : string)
    (participant : json) : M unit :=
  participant_id <- lift (py_get participant "id" (JStr "unknown"));;
  user_name <- lift (participant_info participant "userName" (JStr "unknown"));;
  is_local <- lift (participant_info participant "isLocal" (JBool false));;
  if py_truthy is_local then ret tt
  else
    state <- get_call_state rt (redis_service self) (call_id self);;
    if py_truthy state then
      participants <- lift (py_get state "participants" (JArr []));;
      present <- lift (py_in participant_id participants);;
      updated <- (if present : bool
                  then match participants with
                       | JArr items =>
                           let participants := JArr (remove_first participant_id items) in
                           state <- lift (py_setitem state "participants" participants);;
                           ret (state, participants)
                       | _ => raise AttributeError
                       end
                  else ret (state, participants));;
      let '(state, participants) := updated in
      empty <- lift (py_len_is_zero participants);;
      state <- (if empty : bool
                then status <- lift (py_get state "status" JNull);;
                     if py_eq_str status "active"
                     then lift (py_setitem state "status" (JStr "waiting"))
                     else ret state
                else ret state);;
      set_call_state rt (redis_service self) now (call_id self) state;;;
      ret tt
    else ret tt.

(** The lines of the transcript: user speech and assistant speech, in the
    order of the log; other interactions are passed over. *)
Fixpoint transcript_parts (interactions : list json) : res (list string) :=
  match interactions with
  | [] => Ret []
  | interaction :: rest =>
      res_bind (py_get interaction "type" (JStr "")) (fun interaction_type =>
      res_bind (py_get interaction "text" (JStr "")) (fun text =>
      res_bind (transcript_parts rest) (fun parts =>
      if py_eq_str interaction_type "user_speech"
      then Ret (("Customer: " +:+ py_format fmt text) :: parts)
      else if py_eq_str interaction_type "assistant_speech"
      then Ret (("Agent: " +:+ py_format fmt text) :: parts)
      else Ret parts)))
  end.

(** [_process_call_for_learning]: everything happens inside [try], no
    exception leaves the function. *)
Definition _process_call_for_learning (self : PresenceHandler) (now : string)
    (state : json) : M unit :=
  swallow
    (interactions <- get_call_interactions rt (redis_service self) (call_id self);;
     match interactions with
     | [] => ret tt
     | _ :: _ =>
         transcript_parts <- lift (transcript_parts interactions);;
         match transcript_parts with
         | [] => ret tt
         | _ :: _ =>
             let full_transcript := String.concat newline transcript_parts in
             country <- lift (py_get state "country" (JStr "US"));;
             industry <- lift (py_get state "industry" (JStr "general"));;
             result <- process_call_outcome rt gw full_transcript "AI_AGENT" JNull
                         (py_format fmt country) (py_format fmt industry);;
             state <- lift (py_setitem state "learning_result" result);;
             set_call_state rt (redis_service self) now (call_id self) state;;;
             ret tt
         end
     end).

(** [on_call_ended]: the clock is read once when the status is stored and
    once more when the result of the learning pass is. *)
Definition on_call_ended (self : PresenceHandler) (now later : string) : M unit :=
  state <- get_call_state rt (redis_service self) (call_id self);;
  if py_truthy state then
    state <- lift (py_setitem state "status" (JStr "completed"));;
    state <- set_call_state rt (redis_service self) now (call_id self) state;;
    _process_call_for_learning self later state
  else ret tt.

End Presence.

(** ** voice-module/bot/bot.py *)

Definition dq : string := String "034"%char "".

(** The keys of a dictionary in the order of its iteration: each key
    once, where it first stands. *)
Definition dict_keys (fields : list (string * json)) : list string :=
  reverse (remove_dups (reverse fields.*1)).

(** ['- ' + p for p in items]: only a string can follow ['- ']. *)
Fixpoint prefixed_points (items : list json) : res (list string) :=
  match items with
  | [] => Ret []
  | JStr p :: rest =>
      res_bind (prefixed_points rest) (fun lines => Ret (("- " +:+ p) :: lines))
  | _ :: _ => Raise TypeError
  end.

(** ['- ' + p for p in v]: [v] gives its items, a string its characters,
    a dictionary its keys; nothing else can be iterated. *)
Definition talking_point_lines (v : json) : res (list string) :=
  match v with
  | JArr items => prefixed_points items
  | JStr s => Ret (map (fun c => "- " +:+ String c "") (list_ascii_of_string s))
  | JObj fields => Ret (map (fun k => "- " +:+ k) (dict_keys fields))
  | _ => Raise TypeError
  end.

Section Bot.

Context (fmt : formatting).

(** Lines 127 to 129 of [get_system_prompt]. *)
Definition sales_instructions (optimized_prompt : string) : string :=
  if negb (String.eqb optimized_prompt "")
     && negb (String.eqb optimized_prompt "You are a helpful sales agent.")
  then optimized_prompt
  else "You are an expert sales representative. Your goal is to understand customer needs, handle objections professionally, and guide them toward a solution.".

(** Lines 132 to 149: the research block, the prospect block, or
    nothing. *)
Definition research_context (research person_name company_name : json) : res string :=
  res_bind (if py_truthy research
            then res_bind (py_get research "summary" JNull) (fun summary =>
                 Ret (py_truthy summary))
            else Ret false) (fun researched =>
  if researched : bool then
    res_bind (py_get research "summary" (JStr "No research available.")) (fun summary =>
    res_bind (py_get research "talking_points" (JArr [])) (fun points =>
    res_bind (talking_point_lines points) (fun lines =>
    let joined := String.concat newline lines in
    Ret (newline +:+
         String.concat newline
           ["=== PRE-CALL RESEARCH ===";
            py_format fmt summary;
            "";
            "Talking Points:";
            if String.eqb joined "" then "- None available" else joined;
            "========================="] +:+
         newline))))
  else if py_truthy person_name || py_truthy company_name then
    Ret (newline +:+
         String.concat newline
           ["=== PROSPECT INFO ===";
            if py_truthy person_name then "Name: " +:+ py_format fmt person_name else "";
            if py_truthy company_name then "Company: " +:+ py_format fmt company_name
            else "";
            "====================="] +:+
         newline)
  else Ret "").

(** Lines 151 to 168: the text that is returned. *)
Definition system_prompt_text (sales_instructions research_context : string)
    (person_name company_name : json) : string :=
  String.concat newline
    [sales_instructions;
     research_context;
     "You are on a VOICE CALL with " +:+
       (if py_truthy person_name then py_format fmt person_name else "a prospect") +:+
       (if py_truthy company_name then " from " +:+ py_format fmt company_name else "") +:+
       ". Keep responses concise and conversational.";
     "";
     "IMPORTANT - You have access to a knowledge base of lessons learned from successful sales calls. USE the search_context tool:";
     "- When you encounter an objection (e.g., " +:+ dq +:+ "too expensive" +:+ dq +:+ ", " +:+ dq +:+ "need to think about it" +:+ dq +:+ ", " +:+ dq +:+ "not the right time" +:+ dq +:+ ")";
     "- When you need proven rebuttals or techniques that worked before";
     "- When looking up how to handle specific customer concerns";
     "";
     "The search_context tool searches through real objection/rebuttal pairs from closed deals. Always search before responding to difficult objections.";
     "";
     "Guidelines:";
     "- Be confident, friendly, and professional";
     "- Listen carefully to customer concerns";
     "- Use the knowledge base to give battle-tested responses";
     "- Focus on value and solving their problems";
     "- Keep responses SHORT for voice";
     "- Reference the research above to personalize the conversation"].

(** [get_system_prompt]: the arguments are the values that [run_agent]
    reads from the state of the call. The import of [optimizer] is taken
    to succeed and the server to answer, so that the [try] returns what
    [get_prompt_for_segment] does. *)
Definition get_system_prompt (country industry research person_name company_name : json)
    (d : redis) : res string :=
  let optimized_prompt :=
    get_prompt_for_segment (py_format fmt country) (py_format fmt industry) d in
  res_bind (research_context research person_name company_name) (fun context =>
  Ret (system_prompt_text (sales_instructions optimized_prompt) context
         person_name company_name)).

End Bot.

(** *** bot.py: the transcript logger *)

(** The frames of the pipeline as [process_frame] tells them apart: a
    transcription (tested first, itself a text frame), any other text
    frame, the end of a response of the model, and every other frame. *)
Inductive frame :=
  | TranscriptionFrame (text : string)
  | TextFrame (text : string)
  | LLMFullResponseEndFrame
  | OtherFrame.

Module TranscriptLogger.

Record t := {
  call_id : string;
  redis_service : RedisService;
  role : string;
  assistant_buffer : list string
}.

Definition with_buffer (self : t) (buffer : list string) : t :=
  {| call_id := call_id self; redis_service := redis_service self;
     role := role self; assistant_buffer := buffer |}.

Section ProcessFrame.

Context (rt : runtime).

(** [process_frame]: the result is the logger after the call; [now] is
    the reading of the clock if an interaction is logged. Handing the
    frame on to the next processor is left to the pipeline. *)
Definition process_frame (self : t) (now : string) (frame : frame) : M t :=
  match frame with
  | TranscriptionFrame text =>
      let text := str_strip rt text in
      if negb (String.eqb text "") then
        log_call_interaction rt (redis_service self) now (call_id self)
          (JObj [("type", JStr "user_speech"); ("text", JStr text)]);;;
        ret self
      else ret self
  | TextFrame text =>
      if String.eqb (role self) "assistant" then
        if negb (String.eqb text "")
        then ret (with_buffer self (assistant_buffer self ++ [text]))
        else ret self
      else ret self
  | LLMFullResponseEndFrame =>
      if String.eqb (role self) "assistant" then
        match assistant_buffer self with
        | [] => ret self
        | _ :: _ =>
            let complete_response :=
              str_strip rt (String.concat "" (assistant_buffer self)) in
            (if negb (String.eqb complete_response "") then
               log_call_interaction rt (redis_service self) now (call_id self)
                 (JObj [("type", JStr "assistant_speech");
                        ("text", JStr complete_response)]);;;
               ret tt
             else ret tt);;;
            ret (with_buffer self [])
        end
      else ret self
  | OtherFrame => ret self
  end.

End ProcessFrame.

End TranscriptLogger.

(** ** Vocabulary of the statements *)

(** The prompt stored under [key], if a non-empty one is. *)
Definition stored (d : redis) (key : string) : option string :=
  match r_get key d with
  | Some p => if String.eqb p "" then None else Some p
  | None => None
  end.

(** Segment resolution as the specification words it: the exact
    [country:industry] key, then the industry wildcard, then the global
    base, then the literal default. *)
Definition resolve_by_precedence (country industry : string) (d : redis) : string :=
  match stored d (segment_prompt_key (country +:+ ":" +:+ industry)) with
  | Some p => p
  | None =>
      match stored d ("prompt:segment:*:" +:+ industry) with
      | Some p => p
      | None =>
          match stored d "prompt:base" with
          | Some p => p
          | None => default_prompt
          end
      end
  end.

(** Segment resolution in the words of the specification, with the keys
    and the default written out: the prompt under
    [prompt:segment:<country>:<industry>], else the one under
    [prompt:segment:*:<industry>], else the one under [prompt:base], else
    the literal default. *)
Definition resolve_as_worded (country industry : string) (d : redis) : string :=
  match stored d ("prompt:segment:" +:+ country +:+ ":" +:+ industry) with
  | Some p => p
  | None =>
      match stored d ("prompt:segment:*:" +:+ industry) with
      | Some p => p
      | None =>
          match stored d "prompt:base" with
          | Some p => p
          | None => "You are a helpful sales agent."
          end
      end
  end.




(** What mutation and evaluation hand to the decision gate: the candidate
    prompt and the mean [overall_score] as a number. *)
Definition candidate_and_mean (rt : runtime) (gw : gateway)
    (segment_key transcript : string) (outcome : json) (d : redis)
  : res (string * pyfloat) :=
  match value (generate_and_score rt gw segment_key transcript outcome d) with
  | Ret (candidate, avg_score) =>
      match as_number avg_score with
      | Some mean => Ret (candidate, mean)
      | None => Raise TypeError
      end
  | Raise e => Raise e
  end.

Definition no_action_needed : json := JObj [("status", JStr "no_action_needed")].

Definition graded_agent (score : pyfloat) : json :=
  JObj [("status", JStr "graded_agent"); ("score", JNum score)].

Definition learned_new_skill (analysis : json) (segment_key : string) : json :=
  JObj [("status", JStr "learned_new_skill"); ("data", analysis);
        ("segment", JStr segment_key)].

(** Scores never increase along the list. *)
Definition descending (results : list document) : Prop :=
  StronglySorted (fun a b => fge (score a) (score b) = true) results.

(** What Python promises of its sort: the result holds the documents of
    the list, each as often as the list does, and when no score is NaN it
    is the stable descending sort. *)
Definition python_sort (py : builtins) : Prop :=
  (forall results, Permutation (sort_by_score_reverse py results) results)
  /\ (forall results,
        Forall (fun doc => score doc <> NaN) results ->
        sort_by_score_reverse py results = sort_desc results).

(** No similarity that [vector_search] computes for the keys of the scan
    is NaN. *)
Definition comparable_scores (np : numpy) (self : RedisService)
    (query_embedding : list pyfloat) : Prop :=
  forall c keys key doc,
    client self = Some c ->
    scan_all (scan c) [] = Some keys ->
    key ∈ keys ->
    score_key np c query_embedding (np_norm np query_embedding) key = Some doc ->
    score doc <> NaN.

(** The gateway with another evaluation in place of its own. *)
Definition with_evaluate (gw : gateway) (ev : string -> list json -> eval_reply)
  : gateway :=
  {| classify := classify gw; extract := extract gw; mutate := mutate gw;
     embed := embed gw; evaluate := ev |}.

(** The hash that [store_lesson_in_redis] writes for a lesson. *)
Definition skill_fields (objection rebuttal blob : string) : list (string * string) :=
  [("trigger", objection); ("rebuttal", rebuttal); ("vector", blob)].

(** The server after [hset name mapping]. *)
Definition after_hset (name : string) (mapping : list (string * string)) (d : redis)
  : redis :=
  {| strs := strs d;
     hashes := <[name := list_to_map mapping ∪ default ∅ (hashes d !! name)]> (hashes d);
     lists := lists d |}.

(** The server after [rpush key value]. *)
Definition after_rpush (key value : string) (d : redis) : redis :=
  {| strs := strs d; hashes := hashes d;
     lists := <[key := r_lrange_all key d ++ [value]]> (lists d) |}.

(** The server after [set key value]. *)
Definition after_set (key value : string) (d : redis) : redis :=
  {| strs := <[key := value]> (strs d); hashes := hashes d; lists := lists d |}.

(** Nothing is ever taken away: every string key stays, every skill stays
    with all its fields, every list keeps what it held as a prefix. *)
Definition grows (d d' : redis) : Prop :=
  (forall k, is_Some (strs d !! k) -> is_Some (strs d' !! k))
  /\ (forall k h, hashes d !! k = Some h ->
        exists h', hashes d' !! k = Some h' /\ dom h ⊆ dom h')
  /\ (forall k, r_lrange_all k d `prefix_of` r_lrange_all k d').

(** Among the string keys only [key] may differ. *)
Definition only_key (key : string) (d d' : redis) : Prop :=
  (forall k, k <> key -> strs d' !! k = strs d !! k)
  /\ hashes d' = hashes d.

Definition any_event (e : event) : Prop := True.

(** No colon among the characters. *)
Fixpoint no_colon (s : string) : bool :=
  match s with
  | EmptyString => true
  | String c rest => negb (Ascii.eqb c ":"%char) && no_colon rest
  end.

(** The text that [json_dumps] writes for [v] is not empty and decodes
    back to [v]. *)
Definition round_trips (rt : runtime) (v : json) : Prop :=
  json_dumps rt v <> "" /\ json_loads rt (json_dumps rt v) = Some v.

(** The fields of a call after a participant has joined, before the state
    is stamped: the participant is added unless listed, a pending call
    becomes active. *)
Definition joined_fields (participant_id : json) (items : list json) (status : json)
    (fields : list (string * json)) : list (string * json) :=
  let fields := if existsb (py_eq participant_id) items then fields
                else dict_set "participants" (JArr (items ++ [participant_id])) fields in
  if py_eq_str status "pending" then dict_set "status" (JStr "active") fields
  else fields.

(** The fields of a call after a participant has left: the participant is
    taken off the list, an active call with nobody left waits. *)
Definition left_fields (participant_id : json) (items : list json) (status : json)
    (fields : list (string * json)) : list (string * json) :=
  let remaining := if existsb (py_eq participant_id) items
                   then remove_first participant_id items else items in
  let fields := if existsb (py_eq participant_id) items
                then dict_set "participants" (JArr remaining) fields else fields in
  match remaining with
  | [] => if py_eq_str status "active" then dict_set "status" (JStr "waiting") fields
          else fields
  | _ :: _ => fields
  end.

(** A call is stored, as a dictionary that is not empty. *)
Definition stored_call (rt : runtime) (call_id : string) (fields : list (string * json))
    (d : redis) : Prop :=
  exists data,
    r_get (call_key call_id) d = Some data /\ data <> ""
    /\ json_loads rt data = Some (JObj fields) /\ fields <> [].

(** The skills and the states of the calls are untouched. *)
Definition keeps_calls (d d' : redis) : Prop :=
  hashes d' = hashes d
  /\ (forall call_id, strs d' !! call_key call_id = strs d !! call_key call_id).

(** The frames of a pipeline reach a logger one after the other, each
    with the reading of the clock at its arrival. *)
Fixpoint process_frames (rt : runtime) (self : TranscriptLogger.t)
    (arrivals : list (string * frame)) : M TranscriptLogger.t :=
  match arrivals with
  | [] => ret self
  | (now, frame) :: rest =>
      self <- TranscriptLogger.process_frame rt self now frame;;
      process_frames rt self rest
  end.

(** What the log holds for an utterance. *)
Definition utterance (kind text now : string) : json :=
  JObj [("type", JStr kind); ("text", JStr text); ("timestamp", JStr now)].

(** The [set] commands among the events of a run. *)
Definition prompt_writes (events : list event) : list (string * string) :=
  omap (fun e => match e with EvSet k v => Some (k, v) | _ => None end) events.

(** The entries into the optimiser among the events of a run. *)
Definition optimizations (events : list event) : list string :=
  omap (fun e => match e with EvOptimize k => Some k | _ => None end) events.

(** [frames R P m]: every run of [m] takes the server from [d] to some
    [d'] with [R d d'] and produces only events that satisfy [P]. *)
Definition frames {A} (R : redis -> redis -> Prop) (P : event -> Prop) (m : M A) : Prop :=
  forall d, R d (store (m d)) /\ Forall P (events (m d)).

(** Only the list key space may differ. *)
Definition corpus_only (d d' : redis) : Prop :=
  strs d' = strs d /\ hashes d' = hashes d.

Definition is_rpush (e : event) : Prop :=
  match e with
  | EvRPush _ _ => True
  | _ => False
  end.

(** The skills are untouched. *)
Definition same_skills (d d' : redis) : Prop := hashes d' = hashes d.

(** Neither a skill write nor an entry into the optimiser. *)
Definition quiet (e : event) : Prop :=
  match e with
  | EvRPush _ _ | EvSet _ _ => True
  | _ => False
  end.

Definition not_hset (e : event) : Prop :=
  match e with
  | EvHSet _ => False
  | _ => True
  end.

Definition not_optimize (e : event) : Prop :=
  match e with
  | EvOptimize _ => False
  | _ => True
  end.

Definition any_change (d d' : redis) : Prop := True.

(** ** Sample inputs *)


(** A double quote, to write JSON text. *)
Definition quoted (s : string) : string :=
  String "034"%char s +:+ String "034"%char "".

(** A reply of the extractor: a price objection answered weakly. *)
Definition weak_rebuttal_text : string :=
  "{" +:+ quoted "objection" +:+ ": " +:+ quoted "It is too expensive." +:+ ", "
      +:+ quoted "rebuttal" +:+ ": " +:+ quoted "We can offer a discount." +:+ ", "
      +:+ quoted "quality_score" +:+ ": 0.5}".

Definition weak_rebuttal : json :=
  JObj [("objection", JStr "It is too expensive.");
        ("rebuttal", JStr "We can offer a discount.");
        ("quality_score", JNum (Finite (1 # 2)))].

(** A reply of the classifier that names a third outcome. *)
Definition undecided_text : string :=
  "{" +:+ quoted "outcome" +:+ ": " +:+ quoted "IN_PROGRESS" +:+ ", "
      +:+ quoted "confidence" +:+ ": 0.5, "
      +:+ quoted "reason" +:+ ": " +:+ quoted "The prospect asked for time." +:+ "}".

Definition undecided : json :=
  JObj [("outcome", JStr "IN_PROGRESS");
        ("confidence", JNum (Finite (1 # 2)));
        ("reason", JStr "The prospect asked for time.")].

(** A summary of [weave] with mean [overall_score] exactly 0.5. *)
Definition borderline_summary : json :=
  JObj [("LLMPromptQualityScorer",
         JObj [("overall_score", JObj [("mean", JNum (Finite (1 # 2)))])])].

(** Serialisation of a dictionary of strings. *)
Definition dumps_flat (v : json) : string :=
  match v with
  | JObj fields =>
      "{" +:+ String.concat ", "
                (map (fun kv => quoted kv.1 +:+ ": " +:+
                                match kv.2 with
                                | JStr s => quoted s
                                | _ => "null"
                                end) fields) +:+ "}"
  | _ => "null"
  end.

(** A runtime that decodes the two texts above and the default test cases
    as [dumps_flat] writes them, and hashes a string to its length. *)
Definition sample_runtime : runtime :=
  {| json_loads := fun s =>
       if String.eqb s weak_rebuttal_text then Some weak_rebuttal
       else if String.eqb s undecided_text then Some undecided
       else List.find (fun v => String.eqb s (dumps_flat v)) default_cases;
     json_dumps := dumps_flat;
     py_hash := fun v => match v with
                         | JStr s => Z.of_nat (String.length s)
                         | _ => 0
                         end;
     str_strip := fun s => s;
     struct_pack := fun _ => Some "" |}.

Definition sample_gateway : gateway :=
  {| classify := fun _ => Response (Some undecided_text);
     extract := fun _ => Response (Some weak_rebuttal_text);
     mutate := fun _ _ _ _ _ => Response (Some "Answer price objections with ROI.");
     embed := fun _ => Some [];
     evaluate := fun _ _ => EvalSummary borderline_summary |}.

(** The same gateway with a mean [overall_score] just below the gate. *)
Definition strict_gateway : gateway :=
  {| classify := classify sample_gateway;
     extract := extract sample_gateway;
     mutate := mutate sample_gateway;
     embed := embed sample_gateway;
     evaluate := fun _ _ =>
       EvalSummary
         (JObj [("LLMPromptQualityScorer",
                 JObj [("overall_score", JObj [("mean", JNum (Finite (49 # 100)))])])]) |}.


(** A gateway whose extractor answers in prose. *)
Definition prose_gateway : gateway :=
  {| classify := fun _ => Response (Some undecided_text);
     extract := fun _ => Response (Some "I could not find an objection.");
     mutate := fun _ _ _ _ _ => GatewayFailure;
     embed := fun _ => None;
     evaluate := fun _ _ => EvalFailure |}.

Definition empty_redis : redis := {| strs := ∅; hashes := ∅; lists := ∅ |}.

(** A server with a base prompt and a prompt tuned for [US:general]. *)
Definition tuned_redis : redis :=
  {| strs := {[ "prompt:base" := "Sell the value.";
                "prompt:segment:US:general" := "Be brief." ]};
     hashes := ∅;
     lists := ∅ |}.

(** A server that holds the skill for the price objection, with the very
    rebuttal of [weak_rebuttal] (the skill key is [skill:] followed by the
    sample hash, 20). *)
Definition taught_redis : redis :=
  {| strs := ∅;
     hashes := {[ "skill:20" := {[ "trigger" := "It is too expensive.";
                                   "rebuttal" := "We can offer a discount.";
                                   "vector" := "" ]} ]};
     lists := ∅ |}.

(** Sample arithmetic on floats: exact on finite values, NaN as soon as
    an operand is not finite or a divisor is zero. *)
Definition finitely (f : Q -> Q -> Q) (a b : pyfloat) : pyfloat :=
  match a, b with
  | Finite x, Finite y => Finite (f x y)
  | _, _ => NaN
  end.

Definition sample_abs (a : pyfloat) : pyfloat :=
  match a with
  | Finite x => Finite (Qabs x)
  | NaN => NaN
  | _ => PosInf
  end.

(** Sample numpy: one component per byte of the blob (the byte [?] stands
    for a NaN), the sum of absolute values for the norm, exact sums,
    products and quotients. *)
Definition sample_numpy : numpy :=
  {| unpack_vector := fun s =>
       Some (map (fun c => if Ascii.eqb c "?"%char then NaN
                           else Finite (Z.of_nat (nat_of_ascii c) # 1))
               (list_ascii_of_string s));
     np_norm := fun v => foldr (finitely Qplus) (Finite 0) (map sample_abs v);
     np_dot := fun u v =>
       if decide (length u = length v)
       then Some (foldr (finitely Qplus) (Finite 0) (zip_with (finitely Qmult) u v))
       else None;
     np_mul := finitely Qmult;
     np_div := fun a b =>
       if feq b (Finite 0) then NaN else finitely Qdiv a b |}.

(** A sample [sort]: the stable descending sort by [<]. *)
Definition sample_builtins : builtins := {| sort_by_score_reverse := sort_desc |}.

(** A connected service with two skills, listed over two pages of the
    scan. *)
Definition two_skills : RedisService :=
  {| client := Some
       {| scan := ScanMore ["skill:20"] (ScanLast ["skill:24"]);
          hgetall := fun k =>
            if String.eqb k "skill:20" then
              HgetallData {[ "trigger" := "It is too expensive.";
                             "rebuttal" := "Value proposition and ROI";
                             "vector" := "ab" ]}
            else if String.eqb k "skill:24" then
              HgetallData {[ "trigger" := "I need to think about it.";
                             "rebuttal" := "Address hesitation with urgency";
                             "vector" := "ba" ]}
            else HgetallData ∅ |} |}.

(** A connected service with two skills; the stored vector of the second
    holds a NaN. *)
Definition nan_skills : RedisService :=
  {| client := Some
       {| scan := ScanLast ["skill:1"; "skill:2"];
          hgetall := fun k =>
            if String.eqb k "skill:1" then
              HgetallData {[ "trigger" := "It is too expensive.";
                             "rebuttal" := "Value proposition and ROI";
                             "vector" := String "001"%char (String "000"%char "") ]}
            else if String.eqb k "skill:2" then
              HgetallData {[ "trigger" := "I need to think about it.";
                             "rebuttal" := "Address hesitation with urgency";
                             "vector" := String "?"%char (String "000"%char "") ]}
            else HgetallData ∅ |} |}.

(** A reply of the extractor for a call that a human manager won well. *)
Definition strong_rebuttal_text : string :=
  "{" +:+ quoted "objection" +:+ ": " +:+ quoted "We need custom integrations." +:+ ", "
      +:+ quoted "rebuttal" +:+ ": " +:+ quoted "We have an open API." +:+ ", "
      +:+ quoted "quality_score" +:+ ": 0.9}".

Definition strong_rebuttal : json :=
  JObj [("objection", JStr "We need custom integrations.");
        ("rebuttal", JStr "We have an open API.");
        ("quality_score", JNum (Finite (9 # 10)))].

(** The sample runtime, decoding the strong reply as well. *)
Definition teaching_runtime : runtime :=
  {| json_loads := fun s =>
       if String.eqb s strong_rebuttal_text then Some strong_rebuttal
       else json_loads sample_runtime s;
     json_dumps := json_dumps sample_runtime;
     py_hash := py_hash sample_runtime;
     str_strip := str_strip sample_runtime;
     struct_pack := fun v => Some (String.concat "" (map (fun _ => "f") v)) |}.

Definition teaching_gateway : gateway :=
  {| classify := classify sample_gateway;
     extract := fun _ => Response (Some strong_rebuttal_text);
     mutate := mutate sample_gateway;
     embed := fun _ => Some [1 # 2; 1 # 4];
     evaluate := evaluate sample_gateway |}.

(** An evaluation that would fail on an empty corpus. *)
Definition fails_on_empty (candidate : string) (test_cases : list json) : eval_reply :=
  match test_cases with
  | [] => EvalFailure
  | _ :: _ => evaluate sample_gateway candidate test_cases
  end.

(** A service whose connection is open, and one whose [connect] failed. *)
Definition connected_service : RedisService :=
  {| client := Some {| scan := ScanLast []; hgetall := fun _ => HgetallData ∅ |} |}.

Definition disconnected_service : RedisService := {| client := None |}.

(** The state of a call that waits for its first participant. *)
Definition pending_call : list (string * json) :=
  [("call_id", JStr "c1"); ("status", JStr "pending"); ("participants", JArr [])].

(** A runtime that writes every value as one fixed text and decodes that
    text to the stamped state of [pending_call]. *)
Definition stamping_runtime : runtime :=
  {| json_loads := fun s =>
       if String.eqb s "{...}"
       then Some (JObj (dict_set "updated_at" (JStr "2026-01-01T00:00:00") pending_call))
       else None;
     json_dumps := fun _ => "{...}";
     py_hash := fun _ => 0;
     str_strip := fun s => s;
     struct_pack := fun _ => None |}.

(** A runtime for the log of interactions: one text, decoded to a stamped
    utterance. *)
Definition logging_runtime : runtime :=
  {| json_loads := fun s =>
       if String.eqb s "{speech}"
       then Some (JObj (dict_set "timestamp" (JStr "2026-01-01T00:00:05")
                          [("type", JStr "user_speech");
                           ("text", JStr "It is too expensive.")]))
       else None;
     json_dumps := fun _ => "{speech}";
     py_hash := fun _ => 0;
     str_strip := fun s => s;
     struct_pack := fun _ => None |}.

Definition sample_formatting : formatting :=
  {| py_str := fun _ => "?"; format_2f := fun _ => "0.50" |}.

(** The call of [pending_call] once [p1] has joined, and once [p1] has
    left again. *)
Definition active_call : list (string * json) :=
  dict_set "updated_at" (JStr "2026-01-01T00:00:01")
    (joined_fields (JStr "p1") [] (JStr "pending") pending_call).

Definition waiting_call : list (string * json) :=
  dict_set "updated_at" (JStr "2026-01-01T00:00:02")
    (left_fields (JStr "p1") [JStr "p1"] (JStr "active") active_call).

(** A runtime that writes a call as its status between braces and decodes
    the three texts of the calls above. *)
Definition presence_runtime : runtime :=
  {| json_loads := fun s =>
       if String.eqb s "{pending}" then Some (JObj pending_call)
       else if String.eqb s "{active}" then Some (JObj active_call)
       else if String.eqb s "{waiting}" then Some (JObj waiting_call)
       else None;
     json_dumps := fun v =>
       match py_subscript v "status" with
       | Ret (JStr s) => "{" +:+ s +:+ "}"
       | _ => "null"
       end;
     py_hash := fun _ => 0;
     str_strip := fun s => s;
     struct_pack := fun _ => None |}.

(** A server with the pending call [c1], and one where [c1] is active. *)
Definition pending_redis : redis :=
  {| strs := {[ "call:c1" := "{pending}" ]}; hashes := ∅; lists := ∅ |}.

Definition active_redis : redis :=
  {| strs := {[ "call:c1" := "{active}" ]}; hashes := ∅; lists := ∅ |}.

Definition sample_handler : PresenceHandler :=
  {| call_id := "c1"; redis_service := connected_service |}.

Definition remote_participant : list (string * json) :=
  [("id", JStr "p1"); ("info", JObj [("userName", JStr "Ada")])].

(** The logger on the agent's side of the pipeline of call [c1]. *)
Definition assistant_logger : TranscriptLogger.t :=
  {| TranscriptLogger.call_id := "c1";
     TranscriptLogger.redis_service := connected_service;
     TranscriptLogger.role := "assistant";
     TranscriptLogger.assistant_buffer := [] |}.

(** The state of [pending_call] once the call is completed, and a runtime
    that writes a call as its status between braces and decodes the
    pending and the completed call. *)
Definition completed_call : list (string * json) :=
  dict_set "updated_at" (JStr "2026-01-01T00:10:00")
    (dict_set "status" (JStr "completed") pending_call).

Definition status_runtime : runtime :=
  {| json_loads := fun s =>
       if String.eqb s "{pending}" then Some (JObj pending_call)
       else if String.eqb s "{completed}" then Some (JObj completed_call)
       else None;
     json_dumps := fun v =>
       match py_subscript v "status" with
       | Ret (JStr s) => "{" +:+ s +:+ "}"
       | _ => "null"
       end;
     py_hash := fun _ => 0;
     str_strip := fun s => s;
     struct_pack := fun _ => None |}.

(** * Properties *)

(** ** Equations of the monad *)

Lemma run_eta {A} (r : run A) :
  {| value := value r; store := store r; events := events r |} = r.
Proof. by destruct r. Qed.

Lemma bind_lift_Ret {A B} (a : A) (k : A -> M B) d : bind (lift (Ret a)) k d = k a d.
Proof. unfold bind, lift. cbn. apply run_eta. Qed.

Lemma bind_lift_Raise {A B} (e : exn) (k : A -> M B) d :
  bind (lift (Raise e)) k d = raise e d.
Proof. reflexivity. Qed.

Lemma bind_read {A B} (f : redis -> A) (k : A -> M B) d : bind (read f) k d = k (f d) d.
Proof. unfold bind, read. cbn. apply run_eta. Qed.

Lemma bind_ret_inv {A B} (m : M A) (k : A -> M B) d b :
  value (bind m k d) = Ret b ->
  exists a, value (m d) = Ret a /\ value (k a (store (m d))) = Ret b.
Proof.
  unfold bind. destruct (value (m d)) as [a | e]; simpl; [| done].
  intros H. by exists a.
Qed.

Lemma bind_Ret {A B} (m : M A) (k : A -> M B) d a :
  value (m d) = Ret a ->
  bind m k d = {| value := value (k a (store (m d)));
                  store := store (k a (store (m d)));
                  events := events (m d) ++ events (k a (store (m d))) |}.
Proof. unfold bind. by intros ->. Qed.

Lemma bind_Raise {A B} (m : M A) (k : A -> M B) d e :
  value (m d) = Raise e ->
  bind m k d = {| value := Raise e; store := store (m d); events := events (m d) |}.
Proof. unfold bind. by intros ->. Qed.

(** ** Framing of runs *)

Section Frames.

Context {R : redis -> redis -> Prop} {P : event -> Prop} `{!PreOrder R}.

Lemma frames_ret {A} (a : A) : frames R P (ret a).
Proof. intros d; simpl; split; [reflexivity | constructor]. Qed.

Lemma frames_raise {A} (e : exn) : frames R P (@raise A e).
Proof. intros d; simpl; split; [reflexivity | constructor]. Qed.

Lemma frames_lift {A} (r : res A) : frames R P (lift r).
Proof. intros d; simpl; split; [reflexivity | constructor]. Qed.

Lemma frames_read {A} (f : redis -> A) : frames R P (read f).
Proof. intros d; simpl; split; [reflexivity | constructor]. Qed.

Lemma frames_emit (e : event) : P e -> frames R P (emit e).
Proof. intros He d; simpl; split; [reflexivity | auto]. Qed.

Lemma frames_write (f : redis -> redis) : (forall d, R d (f d)) -> frames R P (write f).
Proof. intros Hf d; simpl; split; [apply Hf | constructor]. Qed.

Lemma frames_bind {A B} (m : M A) (k : A -> M B) :
  frames R P m -> (forall a, frames R P (k a)) -> frames R P (bind m k).
Proof.
  intros Hm Hk d. unfold bind.
  destruct (Hm d) as [HR HP].
  destruct (value (m d)) as [a | e]; simpl; [| done].
  destruct (Hk a (store (m d))) as [HR2 HP2]. split.
  - by transitivity (store (m d)).
  - by apply Forall_app.
Qed.

Lemma frames_bind_lift {A B} (r : res A) (k : A -> M B) :
  (forall a, r = Ret a -> frames R P (k a)) -> frames R P (bind (lift r) k).
Proof.
  intros Hk. destruct r as [a | e].
  - intros d. rewrite bind_lift_Ret. exact (Hk a eq_refl d).
  - intros d. rewrite bind_lift_Raise. apply frames_raise.
Qed.

Lemma frames_rpush key value :
  P (EvRPush key value) ->
  (forall d, R d {| strs := strs d; hashes := hashes d;
                    lists := <[key := r_lrange_all key d ++ [value]]> (lists d) |}) ->
  frames R P (r_rpush key value).
Proof.
  intros He Hw. unfold r_rpush. apply frames_bind; [by apply frames_emit |].
  intros _. by apply frames_write.
Qed.

Lemma frames_set key value :
  P (EvSet key value) ->
  (forall d, R d {| strs := <[key := value]> (strs d);
                    hashes := hashes d; lists := lists d |}) ->
  frames R P (r_set key value).
Proof.
  intros He Hw. unfold r_set. apply frames_bind; [by apply frames_emit |].
  intros _. by apply frames_write.
Qed.

Lemma frames_hset name mapping :
  P (EvHSet name) ->
  (forall d, R d {| strs := strs d;
                    hashes := <[name := list_to_map mapping ∪ default ∅ (hashes d !! name)]>
                                (hashes d);
                    lists := lists d |}) ->
  frames R P (r_hset name mapping).
Proof.
  intros He Hw. unfold r_hset. apply frames_bind; [by apply frames_emit |].
  intros _. by apply frames_write.
Qed.

End Frames.

Lemma frames_weaken {A} (R R' : redis -> redis -> Prop) (P P' : event -> Prop) (m : M A) :
  (forall d d', R d d' -> R' d d') -> (forall e, P e -> P' e) ->
  frames R P m -> frames R' P' m.
Proof.
  intros HR HP Hm d. destruct (Hm d) as [H1 H2]. split; [by apply HR |].
  eapply Forall_impl; eauto.
Qed.

#[local] Instance corpus_only_preorder : PreOrder corpus_only.
Proof.
  split; [done |]. intros d1 d2 d3 [H1 H2] [H3 H4]. split; congruence.
Qed.

#[local] Instance same_skills_preorder : PreOrder same_skills.
Proof. split; [done | intros d1 d2 d3; unfold same_skills; congruence]. Qed.

#[local] Instance any_change_preorder : PreOrder any_change.
Proof. by split. Qed.

Ltac frames_step :=
  first
    [ apply frames_ret
    | apply frames_raise
    | apply frames_lift
    | apply frames_read
    | apply frames_emit; exact I
    | apply frames_rpush; [exact I | first [done | exact I]]
    | apply frames_set; [exact I | first [done | exact I]]
    | apply frames_hset; [exact I | first [done | exact I]]
    | apply frames_bind; [| intros ?]
    | match goal with
      | |- frames _ _ (match ?x with _ => _ end) => destruct x
      | |- frames _ _ (let '(_, _) := ?x in _) => destruct x
      end ].

(** ** optimizer.py: segment resolution *)

Lemma stored_truthy d key :
  stored d key = if truthy (r_get key d) then r_get key d else None.
Proof.
  unfold stored, truthy. destruct (r_get key d) as [p|]; [| done].
  by destruct (String.eqb p "").
Qed.

Lemma stored_nonempty d key p : stored d key = Some p -> p <> "".
Proof.
  unfold stored. destruct (r_get key d) as [q|]; [| done].
  destruct (String.eqb_spec q ""); [done |]. by intros [= <-].
Qed.

(** The code and the worded precedence agree. *)
Lemma get_prompt_for_segment_chain (country industry : string) (d : redis) :
  get_prompt_for_segment country industry d = resolve_by_precedence country industry d.
Proof.
  unfold get_prompt_for_segment, resolve_by_precedence.
  rewrite !stored_truthy.
  repeat match goal with
         | |- context [truthy ?r] =>
             let H := fresh in
             destruct (truthy r) eqn:H;
             [destruct r; [done | discriminate H] |]
         end.
  done.
Qed.

(** C8. For every country, industry and store, [get_prompt_for_segment]
    is the first non-empty prompt found in the order: exact
    [country:industry] key, industry wildcard key, global base key, and
    the hardcoded default when none is stored; the result is never the
    empty string. *)
Theorem get_prompt_for_segment_precedence (country industry : string) (d : redis) :
  get_prompt_for_segment country industry d = resolve_as_worded country industry d
  /\ get_prompt_for_segment country industry d <> "".
Proof.
  assert (Hworded : get_prompt_for_segment country industry d
                    = resolve_as_worded country industry d).
  { unfold get_prompt_for_segment, resolve_as_worded, segment_prompt_key, default_prompt.
    rewrite !stored_truthy.
    repeat match goal with
           | |- context [truthy ?r] =>
               let H := fresh in
               destruct (truthy r) eqn:H;
               [destruct r; [done | discriminate H] |]
           end.
    done. }
  split; [exact Hworded |].
  rewrite Hworded. unfold resolve_as_worded.
  repeat match goal with
         | |- context [stored d ?k] =>
             let H := fresh in
             destruct (stored d k) eqn:H; [by eapply stored_nonempty |]
         end.
  done.
Qed.

(** With prompts set at the base level only, [DE:fintech] resolves to the
    base prompt; a prompt set for the segment is preferred. *)
Example get_prompt_for_segment_base_then_segment :
  get_prompt_for_segment "DE" "fintech" tuned_redis = "Sell the value."
  /\ get_prompt_for_segment "US" "general" tuned_redis = "Be brief."
  /\ get_prompt_for_segment "DE" "fintech" empty_redis = "You are a helpful sales agent.".
Proof. vm_compute. repeat split. Qed.

(** ** optimizer.py: the prompt the optimiser mutates *)

(** The optimiser's own chain has three levels: exact key, global base,
    literal default. *)
Lemma fetch_current_prompt_chain (segment_key : string) (d : redis) :
  fetch_current_prompt segment_key d =
    match stored d (segment_prompt_key segment_key) with
    | Some p => p
    | None => default default_prompt (stored d "prompt:base")
    end.
Proof.
  unfold fetch_current_prompt. rewrite stored_truthy.
  destruct (truthy (r_get (segment_prompt_key segment_key) d)) eqn:Ht.
  - destruct (r_get (segment_prompt_key segment_key) d); [done | discriminate Ht].
  - unfold stored, py_or. destruct (r_get "prompt:base" d) as [b|]; [| done].
    by destruct (String.eqb b "").
Qed.




(** ** optimizer.py: the decision gate *)


Lemma rpush_all_frames key values : frames corpus_only is_rpush (rpush_all key values).
Proof. induction values; simpl; repeat frames_step; done. Qed.

(** Mutation and evaluation may seed the corpus; they touch neither a
    prompt nor a skill. *)
Lemma generate_and_score_frames rt gw segment_key transcript outcome :
  frames corpus_only is_rpush (generate_and_score rt gw segment_key transcript outcome).
Proof.
  unfold generate_and_score, get_test_cases_from_redis, initialize_default_test_cases.
  repeat first [apply rpush_all_frames | frames_step].
Qed.



Lemma generate_and_score_mutation_failure rt gw segment_key transcript outcome d :
  (forall industry country current_prompt,
      mutate gw industry country current_prompt transcript outcome = GatewayFailure) ->
  value (generate_and_score rt gw segment_key transcript outcome d) = Raise GatewayError.
Proof.
  intros Hdown. unfold generate_and_score, bind. simpl. by rewrite Hdown.
Qed.

Lemma generate_and_score_evaluation_failure rt gw segment_key transcript outcome d :
  (forall candidate_prompt test_cases,
      evaluate gw candidate_prompt test_cases = EvalFailure) ->
  exists e, value (generate_and_score rt gw segment_key transcript outcome d) = Raise e.
Proof.
  intros Hdown.
  destruct (value (generate_and_score rt gw segment_key transcript outcome d))
    as [[c avg] | e] eqn:H; [| by exists e].
  exfalso. unfold generate_and_score in H.
  do 6 (apply bind_ret_inv in H as (? & ? & H)).
  match goal with
  | He : value (match evaluate _ _ _ with _ => _ end _) = Ret _ |- _ =>
      rewrite Hdown in He; discriminate He
  end.
Qed.







(** A mean of exactly 0.5 replaces the tuned prompt; a mean of 0.49
    leaves it as it was, the candidate being returned all the same. *)
Example optimize_and_verify_at_the_gate :
  let accepted := optimize_and_verify sample_runtime sample_gateway "US:general"
                    "Customer: It is too expensive." (JStr "LOST_DEAL") tuned_redis in
  let rejected := optimize_and_verify sample_runtime strict_gateway "US:general"
                    "Customer: It is too expensive." (JStr "LOST_DEAL") tuned_redis in
  value accepted = Ret "Answer price objections with ROI."
  /\ strs (store accepted) !! "prompt:segment:US:general"
     = Some "Answer price objections with ROI."
  /\ value rejected = Ret "Answer price objections with ROI."
  /\ strs (store rejected) = strs tuned_redis
  /\ prompt_writes (events rejected) = [].
Proof. vm_compute. repeat split. Qed.

(** ** main.py: running the judge and the router *)

(** Once the outcome is resolved and the extractor's reply is decoded,
    the run is the run of the router. *)
Lemma process_call_outcome_judged rt gw transcript speaker_role outcome country industry
    d o text analysis :
  resolve_outcome rt gw transcript outcome = Ret o ->
  extract gw transcript = Response text ->
  loads rt text = Ret analysis ->
  process_call_outcome rt gw transcript speaker_role outcome country industry d
  = router rt gw transcript speaker_role o (country +:+ ":" +:+ industry) analysis d.
Proof.
  intros Ho Ht Ha. unfold process_call_outcome.
  rewrite Ho, bind_lift_Ret, Ht. cbn [generate_content].
  by rewrite bind_lift_Ret, Ha, bind_lift_Ret.
Qed.

Lemma fle_not_fgt (x c : pyfloat) : fle x c = true -> fgt x c = false.
Proof.
  unfold fle, fge, fgt. destruct x, c; try done.
  intros ->. done.
Qed.

(** A human win whose quality is not above 0.8 falls through both
    scenario A and scenario C. *)
Lemma router_human_win_not_high rt gw transcript segment_key analysis d q x :
  py_subscript analysis "quality_score" = Ret q ->
  as_number q = Some x ->
  fgt x float_0_8 = false ->
  router rt gw transcript "HUMAN_MANAGER" (JStr "CLOSED_DEAL") segment_key analysis d
  = {| value := Ret no_action_needed; store := d; events := [] |}.
Proof.
  intros Hq Hx Hgt. unfold router, py_eq_str.
  rewrite !String.eqb_refl.
  change (String.eqb "CLOSED_DEAL" "LOST_DEAL") with false.
  cbn [andb]. rewrite Hq, bind_lift_Ret. unfold py_gt. rewrite Hx, bind_lift_Ret.
  by rewrite Hgt.
Qed.

Lemma router_human_win_low_quality rt gw transcript segment_key analysis d q x :
  py_subscript analysis "quality_score" = Ret q ->
  as_number q = Some x ->
  fle x float_0_8 = true ->
  router rt gw transcript "HUMAN_MANAGER" (JStr "CLOSED_DEAL") segment_key analysis d
  = {| value := Ret no_action_needed; store := d; events := [] |}.
Proof.
  intros Hq Hx Hle. eapply router_human_win_not_high; eauto using fle_not_fgt.
Qed.

(** C6. When the reply of the extractor does not decode as JSON,
    [process_call_outcome] raises: no result is returned, no default
    analysis is substituted, the server is the one the run started from
    and the run produced no event (no skill, test-case or prompt write,
    no optimisation). *)
Theorem extraction_failure_aborts (rt : runtime) (gw : gateway)
    (transcript speaker_role : string) (outcome : json) (country industry : string)
    (d : redis) (text : option string) (e : exn) :
  extract gw transcript = Response text ->
  loads rt text = Raise e ->
  exists e',
    process_call_outcome rt gw transcript speaker_role outcome country industry d
    = {| value := Raise e'; store := d; events := [] |}.
Proof.
  intros Ht Hl. unfold process_call_outcome.
  destruct (resolve_outcome rt gw transcript outcome) as [o | e0].
  - rewrite bind_lift_Ret, Ht. cbn [generate_content].
    rewrite bind_lift_Ret, Hl, bind_lift_Raise. by exists e.
  - rewrite bind_lift_Raise. by exists e0.
Qed.

Lemma extraction_failure_aborts_witness :
  exists e',
    process_call_outcome sample_runtime prose_gateway
      "Customer: Yeah, maybe." "HUMAN_MANAGER" (JStr "CLOSED_DEAL") "US" "general"
      taught_redis
    = {| value := Raise e'; store := taught_redis; events := [] |}.
Proof.
  apply (extraction_failure_aborts sample_runtime prose_gateway
           "Customer: Yeah, maybe." "HUMAN_MANAGER" (JStr "CLOSED_DEAL") "US" "general"
           taught_redis (Some "I could not find an objection.") JSONDecodeError);
    reflexivity.
Defined.

(** C4. For every call with [speaker_role = HUMAN_MANAGER], outcome
    [CLOSED_DEAL] (given or determined) and an extracted [quality_score]
    that is at most 0.8, the run returns [{"status": "no_action_needed"}],
    leaves the server as it was and produces no event: no skill write and
    no optimisation. *)
Theorem human_win_low_quality_no_action (rt : runtime) (gw : gateway)
    (transcript : string) (outcome : json) (country industry : string) (d : redis)
    (text : option string) (analysis q : json) (x : pyfloat) :
  resolve_outcome rt gw transcript outcome = Ret (JStr "CLOSED_DEAL") ->
  extract gw transcript = Response text ->
  loads rt text = Ret analysis ->
  py_subscript analysis "quality_score" = Ret q ->
  as_number q = Some x ->
  fle x float_0_8 = true ->
  process_call_outcome rt gw transcript "HUMAN_MANAGER" outcome country industry d
  = {| value := Ret (JObj [("status", JStr "no_action_needed")]);
       store := d; events := [] |}.
Proof.
  intros Ho Ht Ha Hq Hx Hle.
  rewrite (process_call_outcome_judged _ _ _ _ _ _ _ _ _ _ _ Ho Ht Ha).
  by apply (router_human_win_low_quality _ _ _ _ _ _ q x).
Qed.

Lemma human_win_low_quality_no_action_witness :
  process_call_outcome sample_runtime sample_gateway
    "Manager: Okay, well, let me know." "HUMAN_MANAGER" (JStr "CLOSED_DEAL") "US" "general"
    taught_redis
  = {| value := Ret (JObj [("status", JStr "no_action_needed")]);
       store := taught_redis; events := [] |}.
Proof.
  apply (human_win_low_quality_no_action sample_runtime sample_gateway
           "Manager: Okay, well, let me know." (JStr "CLOSED_DEAL") "US" "general"
           taught_redis (Some weak_rebuttal_text) weak_rebuttal
           (JNum (Finite (1 # 2))) (Finite (1 # 2)));
    reflexivity.
Defined.

(** ** main.py: scenario C *)

Lemma optimizations_quiet (l : list event) : Forall quiet l -> optimizations l = [].
Proof.
  induction 1 as [| e l He _ IH]; [done |].
  destruct e; simpl in *; done.
Qed.

(** A run of the optimiser enters it once, writes no skill, and apart from
    the corpus and the segment's prompt leaves the server alone. *)
Lemma optimize_and_verify_effects rt gw segment_key transcript outcome d :
  let o := optimize_and_verify rt gw segment_key transcript outcome d in
  hashes (store o) = hashes d
  /\ optimizations (events o) = [segment_key]
  /\ Forall not_hset (events o).
Proof.
  intros o. subst o. unfold optimize_and_verify.
  rewrite (bind_Ret (emit _) _ d tt eq_refl). cbn [value store events emit].
  match goal with
  | |- context [bind ?m ?k d] =>
      assert (Hf : frames same_skills quiet (bind m k))
  end.
  { apply frames_bind.
    - eapply frames_weaken; [| | apply generate_and_score_frames].
      + by intros ? ? [_ ?].
      + by intros [].
    - intros [c avg]. apply frames_bind; [apply frames_lift |].
      intros [|]; repeat frames_step. }
  destruct (Hf d) as [Hh Hq]. split; [exact Hh |]. split.
  - pose proof (optimizations_quiet _ Hq) as Hopt.
    unfold optimizations in *. rewrite omap_app, Hopt. done.
  - constructor; [exact I |]. eapply Forall_impl; [exact Hq |]. by intros [].
Qed.

(** C3, as the code has it. Whenever the speaker is not the AI agent and
    the outcome is [LOST_DEAL] (a human manager's loss included), the run
    is one run of the optimiser for the call's segment, with no skill
    write, and it reports [prompt_optimized] when the optimiser returns.
    A human manager's win with [quality_score] at most 0.8 is not such a
    case: it enters the optimiser not once and reports
    [no_action_needed]. *)
Theorem optimize_only_on_lost_deal (rt : runtime) (gw : gateway)
    (transcript : string) (country industry : string) (d : redis)
    (text : option string) (analysis : json) :
  extract gw transcript = Response text ->
  loads rt text = Ret analysis ->
  let segment_key := country +:+ ":" +:+ industry in
  (forall speaker_role outcome,
      speaker_role <> "AI_AGENT" ->
      resolve_outcome rt gw transcript outcome = Ret (JStr "LOST_DEAL") ->
      let r := process_call_outcome rt gw transcript speaker_role outcome
                 country industry d in
      let o := optimize_and_verify rt gw segment_key transcript (JStr "LOST_DEAL") d in
      value r = res_bind (value o) (fun _ =>
                  Ret (JObj [("status", JStr "prompt_optimized");
                             ("segment", JStr segment_key)]))
      /\ store r = store o
      /\ events r = events o
      /\ optimizations (events r) = [segment_key]
      /\ hashes (store r) = hashes d
      /\ Forall not_hset (events r))
  /\ (forall outcome q x,
      resolve_outcome rt gw transcript outcome = Ret (JStr "CLOSED_DEAL") ->
      py_subscript analysis "quality_score" = Ret q ->
      as_number q = Some x ->
      fle x float_0_8 = true ->
      let r := process_call_outcome rt gw transcript "HUMAN_MANAGER" outcome
                 country industry d in
      value r = Ret (JObj [("status", JStr "no_action_needed")])
      /\ optimizations (events r) = []).
Proof.
  intros Ht Ha segment_key. split.
  - intros speaker_role outcome Hrole Ho r o. subst r.
    rewrite (process_call_outcome_judged _ _ _ _ _ _ _ _ _ _ _ Ho Ht Ha).
    fold segment_key. unfold router, py_eq_str.
    change (String.eqb "LOST_DEAL" "CLOSED_DEAL") with false.
    rewrite andb_false_r, String.eqb_refl.
    apply String.eqb_neq in Hrole. rewrite Hrole.
    fold o.
    destruct (optimize_and_verify_effects rt gw segment_key transcript
                (JStr "LOST_DEAL") d) as (Hh & Hopt & Hq). fold o in Hh, Hopt, Hq.
    assert (Hrun :
      bind (optimize_and_verify rt gw segment_key transcript (JStr "LOST_DEAL"))
        (fun _ => ret (JObj [("status", JStr "prompt_optimized");
                             ("segment", JStr segment_key)])) d
      = {| value := res_bind (value o) (fun _ =>
                      Ret (JObj [("status", JStr "prompt_optimized");
                                 ("segment", JStr segment_key)]));
           store := store o; events := events o |}).
    { unfold bind. fold o. destruct (value o); cbn; [by rewrite app_nil_r | done]. }
    rewrite Hrun. cbn [value store events]. done.
  - intros outcome q x Ho Hq Hx Hle r. subst r.
    rewrite (process_call_outcome_judged _ _ _ _ _ _ _ _ _ _ _ Ho Ht Ha).
    by rewrite (router_human_win_low_quality _ _ _ _ _ _ q x Hq Hx Hle).
Qed.

Lemma optimize_only_on_lost_deal_witness :
  let r := process_call_outcome sample_runtime sample_gateway
             "Customer: I think we will go with another vendor."
             "HUMAN_MANAGER" (JStr "LOST_DEAL") "US" "general" empty_redis in
  value r = Ret (JObj [("status", JStr "prompt_optimized");
                       ("segment", JStr "US:general")])
  /\ optimizations (events r) = ["US:general"]
  /\ hashes (store r) = ∅.
Proof.
  pose proof (proj1 (optimize_only_on_lost_deal sample_runtime sample_gateway
                       "Customer: I think we will go with another vendor."
                       "US" "general" empty_redis
                       (Some weak_rebuttal_text) weak_rebuttal eq_refl eq_refl)
                "HUMAN_MANAGER" (JStr "LOST_DEAL")) as H.
  destruct H as (Hv & _ & _ & Hopt & Hh & _); [discriminate | reflexivity |].
  cbv zeta. rewrite Hv. split; [| split]; [vm_compute; reflexivity | exact Hopt | exact Hh].
Defined.

(** A human manager closes a deal with a rebuttal of quality 0.5: the run
    reports [no_action_needed], not [prompt_optimized], and the optimiser
    is not entered. *)
Lemma human_win_low_quality_not_optimized :
  let r := process_call_outcome sample_runtime sample_gateway
             "Manager: Okay, well, let me know." "HUMAN_MANAGER" (JStr "CLOSED_DEAL")
             "US" "general" empty_redis in
  value r = Ret (JObj [("status", JStr "no_action_needed")])
  /\ optimizations (events r) = []
  /\ fle (Finite (1 # 2)) float_0_8 = true
  /\ py_subscript weak_rebuttal "quality_score" = Ret (JNum (Finite (1 # 2))).
Proof. vm_compute. repeat split. Qed.

(** ** main.py: the outcome classifier *)

(** Whatever fails inside the [try], the classifier answers [LOST_DEAL]:
    a missing text, text that is not JSON, JSON that is not a dictionary,
    a confidence that cannot be formatted. *)
Lemma determine_call_outcome_fail_soft rt gw transcript text e :
  classify gw transcript = Response text ->
  loads rt text = Raise e ->
  determine_call_outcome rt gw transcript = Ret (JStr "LOST_DEAL").
Proof.
  intros Hc Hl. unfold determine_call_outcome. rewrite Hc. cbn. by rewrite Hl.
Qed.

Lemma determine_call_outcome_missing_field rt gw transcript s fields :
  classify gw transcript = Response (Some s) ->
  json_loads rt s = Some (JObj fields) ->
  dict_lookup "outcome" fields = None ->
  determine_call_outcome rt gw transcript = Ret (JStr "LOST_DEAL").
Proof.
  intros Hc Hl Ho. unfold determine_call_outcome. rewrite Hc. cbn. rewrite Hl. cbn.
  rewrite Ho. cbn.
  by destruct (py_format_2f _).
Qed.

(** C2. The classifier does not check the outcome it returns: when the
    reply decodes to a dictionary with an [outcome] field and a confidence
    that formats, [determine_call_outcome] returns that field as it is,
    whatever it holds, a third value included. *)
Theorem determine_call_outcome_unvalidated (rt : runtime) (gw : gateway)
    (transcript s : string) (fields : list (string * json)) (v : json) :
  classify gw transcript = Response (Some s) ->
  json_loads rt s = Some (JObj fields) ->
  dict_lookup "outcome" fields = Some v ->
  py_format_2f (default (JNum float_0_0) (dict_lookup "confidence" fields)) = Ret tt ->
  determine_call_outcome rt gw transcript = Ret v.
Proof.
  intros Hc Hl Ho Hf. unfold determine_call_outcome. rewrite Hc. cbn. rewrite Hl. cbn.
  rewrite Ho. cbn. by rewrite Hf.
Qed.

Lemma determine_call_outcome_unvalidated_witness :
  determine_call_outcome sample_runtime sample_gateway
    "Customer: Hmm, I see. Tell me more about those savings."
  = Ret (JStr "IN_PROGRESS").
Proof.
  apply (determine_call_outcome_unvalidated sample_runtime sample_gateway
           "Customer: Hmm, I see. Tell me more about those savings."
           undecided_text
           [("outcome", JStr "IN_PROGRESS");
            ("confidence", JNum (Finite (1 # 2)));
            ("reason", JStr "The prospect asked for time.")]
           (JStr "IN_PROGRESS"));
    reflexivity.
Defined.

(** ** main.py: scenario B *)

(** C5. The grading never finds a match: for a call of the AI agent whose
    extracted rebuttal is a string, every result that the run returns
    carries the score 0.5, whatever the Skill Store holds under the
    objection's key, because the stored rebuttal comes back as [bytes] and
    is compared with a [str]. *)
Theorem agent_grade_ignores_stored_rebuttal (rt : runtime) (gw : gateway)
    (transcript : string) (outcome : json) (country industry : string) (d : redis)
    (o : json) (text : option string) (analysis : json) (rebuttal : string) :
  resolve_outcome rt gw transcript outcome = Ret o ->
  extract gw transcript = Response text ->
  loads rt text = Ret analysis ->
  py_subscript analysis "rebuttal" = Ret (JStr rebuttal) ->
  let r := process_call_outcome rt gw transcript "AI_AGENT" outcome country industry d in
  (forall v, value r = Ret v -> py_subscript v "score" = Ret (JNum float_0_5))
  /\ (forall objection name,
        py_eq_str o "LOST_DEAL" = false ->
        py_subscript analysis "objection" = Ret objection ->
        skill_key rt objection = Ret name ->
        r = {| value := Ret (JObj [("status", JStr "graded_agent");
                                   ("score", JNum float_0_5)]);
               store := d; events := [] |}).
Proof.
  intros Ho Ht Ha Hr r. subst r.
  rewrite (process_call_outcome_judged _ _ _ _ _ _ _ _ _ _ _ Ho Ht Ha).
  unfold router.
  change (String.eqb "AI_AGENT" "HUMAN_MANAGER") with false.
  rewrite String.eqb_refl. cbn [andb].
  split.
  - intros v.
    destruct (py_subscript analysis "objection") as [objection | e];
      [rewrite bind_lift_Ret | by rewrite bind_lift_Raise].
    destruct (skill_key rt objection) as [name | e];
      [rewrite bind_lift_Ret | by rewrite bind_lift_Raise].
    rewrite bind_read, Hr, bind_lift_Ret. cbn [py_eq_reply].
    destruct (py_eq_str o "LOST_DEAL").
    + intros Hv. apply bind_ret_inv in Hv as (c & _ & Hv). cbn in Hv.
      by injection Hv as <-.
    + cbn. by intros [= <-].
  - intros objection name Hlost Hobj Hname.
    rewrite Hobj, bind_lift_Ret, Hname, bind_lift_Ret, bind_read, Hr, bind_lift_Ret.
    cbn [py_eq_reply]. by rewrite Hlost.
Qed.

Lemma agent_grade_ignores_stored_rebuttal_witness :
  r_hget "skill:20" "rebuttal" taught_redis = Some (Bytes "We can offer a discount.")
  /\ py_subscript weak_rebuttal "rebuttal" = Ret (JStr "We can offer a discount.")
  /\ process_call_outcome sample_runtime sample_gateway
       "AI Agent: We can offer a discount." "AI_AGENT" (JStr "CLOSED_DEAL")
       "US" "general" taught_redis
     = {| value := Ret (JObj [("status", JStr "graded_agent");
                              ("score", JNum float_0_5)]);
          store := taught_redis; events := [] |}.
Proof.
  split; [reflexivity |]. split; [reflexivity |].
  apply (proj2 (agent_grade_ignores_stored_rebuttal sample_runtime sample_gateway
                  "AI Agent: We can offer a discount." (JStr "CLOSED_DEAL")
                  "US" "general" taught_redis (JStr "CLOSED_DEAL")
                  (Some weak_rebuttal_text) weak_rebuttal "We can offer a discount."
                  eq_refl eq_refl eq_refl eq_refl)
           (JStr "It is too expensive.") "skill:20");
    reflexivity.
Defined.

(** ** main.py: outcomes other than LOST_DEAL *)

Lemma optimizations_not_optimize (l : list event) :
  Forall not_optimize l -> optimizations l = [].
Proof.
  induction 1 as [| e l He _ IH]; [done |].
  destruct e; simpl in *; done.
Qed.

(** With an outcome that is not [LOST_DEAL] no branch of the router
    reaches [optimize_and_verify]. *)
Lemma router_frames_no_optimize rt gw transcript speaker_role o segment_key analysis :
  py_eq_str o "LOST_DEAL" = false ->
  frames any_change not_optimize
    (router rt gw transcript speaker_role o segment_key analysis).
Proof.
  intros Hlost. unfold router, store_lesson_in_redis, add_test_case_from_lesson.
  rewrite Hlost.
  repeat frames_step.
Qed.

Lemma process_call_outcome_frames_no_optimize rt gw transcript speaker_role s
    country industry :
  s <> "LOST_DEAL" ->
  frames any_change not_optimize
    (process_call_outcome rt gw transcript speaker_role (JStr s) country industry).
Proof.
  intros Hs. unfold process_call_outcome. cbn [resolve_outcome].
  apply frames_bind_lift. intros o [= <-].
  repeat first
    [ apply router_frames_no_optimize; cbn; by apply String.eqb_neq
    | frames_step ].
Qed.

(** A run that returns has resolved the outcome, decoded the analysis and
    returned from the router. *)
Lemma process_call_outcome_ret_inv rt gw transcript speaker_role outcome country industry
    d v :
  value (process_call_outcome rt gw transcript speaker_role outcome country industry d)
  = Ret v ->
  exists o text analysis,
    resolve_outcome rt gw transcript outcome = Ret o
    /\ extract gw transcript = Response text
    /\ loads rt text = Ret analysis
    /\ value (router rt gw transcript speaker_role o (country +:+ ":" +:+ industry)
                analysis d) = Ret v.
Proof.
  unfold process_call_outcome. intros H.
  destruct (resolve_outcome rt gw transcript outcome) as [o | e] eqn:Ho;
    [rewrite bind_lift_Ret in H | by rewrite bind_lift_Raise in H].
  destruct (extract gw transcript) as [| text] eqn:Ht; cbn [generate_content] in H;
    [by rewrite bind_lift_Raise in H | rewrite bind_lift_Ret in H].
  destruct (loads rt text) as [analysis | e] eqn:Ha;
    [rewrite bind_lift_Ret in H | by rewrite bind_lift_Raise in H].
  by exists o, text, analysis.
Qed.

(** What scenario B returns when the outcome is not [LOST_DEAL]. *)
Lemma router_agent_graded rt gw transcript o segment_key analysis d v :
  py_eq_str o "LOST_DEAL" = false ->
  value (router rt gw transcript "AI_AGENT" o segment_key analysis d) = Ret v ->
  exists g, v = graded_agent g.
Proof.
  intros Hlost. unfold router.
  change (String.eqb "AI_AGENT" "HUMAN_MANAGER") with false.
  rewrite String.eqb_refl, Hlost. cbn [andb]. intros H.
  do 4 (apply bind_ret_inv in H as (? & _ & H)).
  cbn in H. injection H as <-. by eexists.
Qed.

(** What the other scenarios return when the outcome is not [LOST_DEAL]:
    nothing to do, or a lesson learnt from a human win of quality above
    0.8. *)
Lemma router_other_roles rt gw transcript speaker_role o segment_key analysis d v :
  speaker_role <> "AI_AGENT" ->
  py_eq_str o "LOST_DEAL" = false ->
  value (router rt gw transcript speaker_role o segment_key analysis d) = Ret v ->
  v = no_action_needed
  \/ (speaker_role = "HUMAN_MANAGER" /\ o = JStr "CLOSED_DEAL"
      /\ v = learned_new_skill analysis segment_key
      /\ exists q x, py_subscript analysis "quality_score" = Ret q
                     /\ as_number q = Some x /\ fgt x float_0_8 = true).
Proof.
  intros Hrole Hlost. unfold router. rewrite Hlost.
  apply String.eqb_neq in Hrole. rewrite Hrole.
  destruct (String.eqb_spec speaker_role "HUMAN_MANAGER") as [-> | _]; cbn [andb];
    [| intros [= <-]; by left].
  destruct (py_eq_str o "CLOSED_DEAL") eqn:Hclosed; [| intros [= <-]; by left].
  assert (o = JStr "CLOSED_DEAL") as ->.
  { destruct o; try discriminate Hclosed. cbn in Hclosed.
    by apply String.eqb_eq in Hclosed as ->. }
  intros H.
  apply bind_ret_inv in H as (q & Hq & H). cbn in Hq.
  apply bind_ret_inv in H as (high & Hhigh & H). cbn in Hhigh.
  unfold py_gt in Hhigh. destruct (as_number q) as [x |] eqn:Hx; [| done].
  injection Hhigh as <-.
  destruct (fgt x float_0_8) eqn:Hgt.
  - right. do 4 (apply bind_ret_inv in H as (? & _ & H)).
    cbn in H. injection H as <-. repeat split. by exists q, x.
  - cbn in H. injection H as <-. by left.
Qed.

(** C10. When the [outcome] argument is a string other than [LOST_DEAL]
    (as [IN_PROGRESS] in [test.py]), [process_call_outcome] never enters
    the optimiser. What it returns for the AI agent is
    [{"status": "graded_agent", "score": ...}] with no [optimized] field;
    what it returns for any other speaker, unless a lesson is learnt from
    a human win of quality above 0.8, is [{"status": "no_action_needed"}].
    It does return these, and writes nothing, once the analysis decodes
    (for the agent: with a hashable objection and a rebuttal). *)
Theorem no_optimization_unless_lost_deal (rt : runtime) (gw : gateway)
    (transcript speaker_role s country industry : string) (d : redis) :
  s <> "LOST_DEAL" ->
  let r := process_call_outcome rt gw transcript speaker_role (JStr s)
             country industry d in
  let segment_key := country +:+ ":" +:+ industry in
  optimizations (events r) = []
  /\ (forall v, value r = Ret v ->
        (speaker_role = "AI_AGENT" ->
           (exists g, v = graded_agent g)
           /\ py_subscript v "optimized" = Raise KeyError)
        /\ (speaker_role <> "AI_AGENT" ->
              v = no_action_needed
              \/ (speaker_role = "HUMAN_MANAGER" /\ s = "CLOSED_DEAL"
                  /\ exists analysis q x,
                       v = learned_new_skill analysis segment_key
                       /\ py_subscript analysis "quality_score" = Ret q
                       /\ as_number q = Some x /\ fgt x float_0_8 = true)))
  /\ (forall text analysis,
        extract gw transcript = Response text ->
        loads rt text = Ret analysis ->
        (speaker_role = "AI_AGENT" ->
           forall objection name rebuttal,
             py_subscript analysis "objection" = Ret objection ->
             skill_key rt objection = Ret name ->
             py_subscript analysis "rebuttal" = Ret rebuttal ->
             exists g, r = {| value := Ret (graded_agent g); store := d; events := [] |})
        /\ (speaker_role <> "AI_AGENT" ->
            ~ (speaker_role = "HUMAN_MANAGER" /\ s = "CLOSED_DEAL") ->
            r = {| value := Ret no_action_needed; store := d; events := [] |})
        /\ (speaker_role = "HUMAN_MANAGER" -> s = "CLOSED_DEAL" ->
            forall q x,
              py_subscript analysis "quality_score" = Ret q ->
              as_number q = Some x ->
              fgt x float_0_8 = false ->
              r = {| value := Ret no_action_needed; store := d; events := [] |})).
Proof.
  intros Hs r segment_key.
  assert (Hlost : py_eq_str (JStr s) "LOST_DEAL" = false)
    by (cbn; by apply String.eqb_neq).
  split; [| split].
  - apply optimizations_not_optimize.
    by apply (process_call_outcome_frames_no_optimize rt gw transcript speaker_role s
                country industry Hs d).
  - intros v Hv. subst r.
    apply process_call_outcome_ret_inv in Hv as (o & text & analysis & Ho & _ & _ & Hv).
    cbn in Ho. injection Ho as <-. split.
    + intros ->. apply router_agent_graded in Hv as [g ->]; [| done].
      split; [by exists g | done].
    + intros Hrole.
      apply router_other_roles in Hv as [-> | (-> & Hc & -> & q & x & Hq)]; [by left | | done..].
      right. injection Hc as ->. repeat split. by exists analysis, q, x.
  - intros text analysis Ht Ha. subst r.
    rewrite (process_call_outcome_judged rt gw transcript speaker_role (JStr s)
               country industry d (JStr s) text analysis eq_refl Ht Ha).
    fold segment_key. split; [| split].
    + intros -> objection name rebuttal Hobj Hname Hreb.
      unfold router.
      change (String.eqb "AI_AGENT" "HUMAN_MANAGER") with false.
      rewrite String.eqb_refl, Hlost. cbn [andb].
      rewrite Hobj, bind_lift_Ret, Hname, bind_lift_Ret, bind_read, Hreb, bind_lift_Ret.
      by eexists.
    + intros Hrole Hnot. unfold router. rewrite Hlost.
      apply String.eqb_neq in Hrole. rewrite Hrole.
      destruct (String.eqb_spec speaker_role "HUMAN_MANAGER") as [-> | _];
        cbn [andb]; [| done].
      cbn [py_eq_str]. destruct (String.eqb_spec s "CLOSED_DEAL") as [-> | _]; [| done].
      by destruct Hnot.
    + intros -> -> q x Hq Hx Hgt.
      by apply (router_human_win_not_high _ _ _ _ _ _ q x).
Qed.

Lemma no_optimization_unless_lost_deal_witness :
  let r := process_call_outcome sample_runtime sample_gateway
             "Customer: Hmm, I see. Tell me more about those savings."
             "AI_AGENT" (JStr "IN_PROGRESS") "US" "general" taught_redis in
  optimizations (events r) = []
  /\ exists g, r = {| value := Ret (graded_agent g); store := taught_redis; events := [] |}.
Proof.
  pose proof (no_optimization_unless_lost_deal sample_runtime sample_gateway
                "Customer: Hmm, I see. Tell me more about those savings."
                "AI_AGENT" "IN_PROGRESS" "US" "general" taught_redis) as H.
  destruct H as (Hopt & _ & Hret); [discriminate |].
  split; [exact Hopt |].
  destruct (Hret (Some weak_rebuttal_text) weak_rebuttal eq_refl eq_refl) as (Hagent & _).
  apply (Hagent eq_refl (JStr "It is too expensive.") "skill:20"
           (JStr "We can offer a discount.")); reflexivity.
Defined.

(** ** redis_service.py: vector search *)

(** The order of the floats that are not NaN. *)
Lemma flt_false_fge (a b : pyfloat) :
  a <> NaN -> b <> NaN -> flt a b = false -> fge a b = true.
Proof.
  unfold flt. destruct a as [x | | |], b as [y | | |]; cbn; try done.
  intros _ _ H. apply negb_false_iff in H. apply Qle_bool_iff in H.
  by apply Qle_bool_iff.
Qed.

Lemma flt_true_fge (a b : pyfloat) : flt a b = true -> fge b a = true.
Proof.
  unfold flt. destruct a as [x | | |], b as [y | | |]; cbn; try done.
  intros H. apply negb_true_iff in H. apply Qle_bool_iff.
  destruct (Qlt_le_dec x y) as [Hlt | Hle]; [by apply Qlt_le_weak |].
  apply Qle_bool_iff in Hle. congruence.
Qed.

Lemma fge_trans (a b c : pyfloat) :
  fge a b = true -> fge b c = true -> fge a c = true.
Proof.
  destruct a as [x | | |], b as [y | | |], c as [z | | |]; cbn; try done.
  rewrite !Qle_bool_iff. intros H1 H2. by apply Qle_trans with y.
Qed.

Section VectorSearchFacts.

Context (np : numpy).

Lemma insert_desc_elem_of (x y : document) (l : list document) :
  y ∈ insert_desc x l <-> y = x \/ y ∈ l.
Proof.
  induction l as [| z l IH]; simpl.
  - rewrite list_elem_of_singleton, elem_of_nil. tauto.
  - destruct (flt (score x) (score z)).
    + rewrite !elem_of_cons, IH. tauto.
    + rewrite !elem_of_cons. tauto.
Qed.

Lemma insert_desc_permutation (x : document) (l : list document) :
  Permutation (insert_desc x l) (x :: l).
Proof.
  induction l as [| z l IH]; simpl; [done |].
  destruct (flt (score x) (score z)); [| done].
  rewrite IH. apply perm_swap.
Qed.

Lemma sort_desc_permutation (l : list document) : Permutation (sort_desc l) l.
Proof.
  induction l as [| x l IH]; simpl; [done |].
  by rewrite insert_desc_permutation, IH.
Qed.

Lemma insert_desc_descending (x : document) (l : list document) :
  score x <> NaN ->
  Forall (fun doc => score doc <> NaN) l ->
  descending l -> descending (insert_desc x l).
Proof.
  unfold descending. intros Hx Hl Hsorted.
  induction Hsorted as [| z l Hsorted IH Hz]; simpl.
  - repeat constructor.
  - apply Forall_cons in Hl as [Hzn Hl].
    destruct (flt (score x) (score z)) eqn:Hlt.
    + constructor; [by apply IH |].
      apply Forall_forall. intros w Hw. apply insert_desc_elem_of in Hw as [-> | Hw].
      * by apply flt_true_fge.
      * rewrite Forall_forall in Hz. by apply Hz.
    + assert (Hge : fge (score x) (score z) = true) by by apply flt_false_fge.
      constructor; [by constructor |].
      constructor; [done |].
      eapply Forall_impl; [exact Hz |]. intros w Hw. cbn in Hw.
      by apply fge_trans with (score z).
Qed.

Lemma sort_desc_comparable (l : list document) :
  Forall (fun doc => score doc <> NaN) l ->
  Forall (fun doc => score doc <> NaN) (sort_desc l).
Proof.
  intros Hl. apply Forall_forall. intros doc Hdoc.
  rewrite Forall_forall in Hl. apply Hl.
  by rewrite <- (sort_desc_permutation l).
Qed.

Lemma sort_desc_descending (l : list document) :
  Forall (fun doc => score doc <> NaN) l -> descending (sort_desc l).
Proof.
  induction l as [| x l IH]; simpl; [constructor |].
  intros Hl. apply Forall_cons in Hl as [Hx Hl].
  apply insert_desc_descending; [done | by apply sort_desc_comparable | by apply IH].
Qed.

Lemma take_descending (n : nat) (l : list document) : descending l -> descending (take n l).
Proof.
  unfold descending. intros H. revert n.
  induction H as [| z l Hl IH Hz]; intros [| n]; simpl; try constructor; auto.
  by apply Forall_take.
Qed.

Lemma slice_to_descending (k : Z) (l : list document) :
  descending l -> descending (slice_to k l).
Proof. unfold slice_to. destruct (0 <=? k); apply take_descending. Qed.

Lemma slice_to_elem_of (k : Z) (l : list document) (y : document) :
  y ∈ slice_to k l -> y ∈ l.
Proof. unfold slice_to. destruct (0 <=? k); apply subseteq_take. Qed.

Lemma slice_to_length (k : Z) (l : list document) :
  0 <= k -> Z.of_nat (length (slice_to k l)) <= k.
Proof.
  intros Hk. unfold slice_to. destruct (Z.leb_spec 0 k); [| lia].
  rewrite length_take. lia.
Qed.

(** A negative [k] leaves out the last [-k] documents. *)
Lemma slice_to_negative (k : Z) (l : list document) :
  k < 0 -> length (slice_to k l) = (length l - Z.to_nat (- k))%nat.
Proof.
  intros Hk. unfold slice_to. destruct (Z.leb_spec 0 k); [lia |].
  rewrite length_take. lia.
Qed.

(** A document is appended only for a key whose hash holds a vector that
    decodes and whose norm is not zero; its score is the dot product with
    the query over the product of the two norms. *)
Lemma score_key_Some (c : redis_client) (q : list pyfloat) (qn : pyfloat) (k : string)
    (doc : document) :
  score_key np c q qn k = Some doc ->
  key doc = k
  /\ source doc = "learned_skill"
  /\ exists data blob v dot,
       hgetall c k = HgetallData data
       /\ data !! "vector" = Some blob
       /\ unpack_vector np blob = Some v
       /\ feq (np_norm np v) (Finite 0) = false
       /\ np_dot np q v = Some dot
       /\ score doc = np_div np dot (np_mul np qn (np_norm np v)).
Proof.
  unfold score_key. destruct (hgetall c k) as [| data]; [done |].
  destruct (decide (data = ∅)); [done |].
  destruct (data !! "vector") as [blob |] eqn:Hblob; [| done].
  destruct (truthy (Some blob)); [| done]. cbn [negb default from_option id].
  destruct (unpack_vector np blob) as [v |] eqn:Hv; [| done].
  destruct (feq (np_norm np v) (Finite 0)) eqn:Hn; [done |].
  destruct (np_dot np q v) as [dot |] eqn:Hdot; [| done].
  intros [= <-]. cbn. repeat split. by exists data, blob, v, dot.
Qed.

End VectorSearchFacts.

(** C7, as the code has it. With a sort that keeps Python's promise, the
    result of [vector_search] has at most [k] documents for every [k] that
    is not negative, and it is in descending order of score whenever no
    similarity computed for the scanned keys is NaN. With no connection,
    with a scan that raises and with a scan that finds no skill key the
    result is empty, and so it is when the norm of the query is zero.
    Every document returned comes from a scanned key whose stored vector
    decodes and has a norm other than zero, and its score is the cosine
    similarity: the dot product of the query and the stored vector over
    the product of their norms. *)
Theorem vector_search_descending_top_k (np : numpy) (py : builtins)
    (self : RedisService) (query_embedding : list pyfloat) (k : Z) :
  python_sort py ->
  let results := vector_search np py self query_embedding k in
  (comparable_scores np self query_embedding -> descending results)
  /\ (0 <= k -> Z.of_nat (length results) <= k)
  /\ (client self = None -> results = [])
  /\ (forall c, client self = Some c -> scan_all (scan c) [] = None -> results = [])
  /\ (forall c, client self = Some c -> scan_all (scan c) [] = Some [] -> results = [])
  /\ (feq (np_norm np query_embedding) (Finite 0) = true -> results = [])
  /\ (forall doc, doc ∈ results ->
        exists c keys data blob v dot,
          client self = Some c
          /\ scan_all (scan c) [] = Some keys
          /\ key doc ∈ keys
          /\ hgetall c (key doc) = HgetallData data
          /\ data !! "vector" = Some blob
          /\ unpack_vector np blob = Some v
          /\ feq (np_norm np v) (Finite 0) = false
          /\ np_dot np query_embedding v = Some dot
          /\ score doc = np_div np dot
                           (np_mul np (np_norm np query_embedding) (np_norm np v))).
Proof.
  intros [Hperm Hsort] results.
  assert (Hempty : results = [] ->
            (comparable_scores np self query_embedding -> descending results)
            /\ (0 <= k -> Z.of_nat (length results) <= k)
            /\ (forall doc, doc ∈ results ->
                  exists c keys data blob v dot,
                    client self = Some c
                    /\ scan_all (scan c) [] = Some keys
                    /\ key doc ∈ keys
                    /\ hgetall c (key doc) = HgetallData data
                    /\ data !! "vector" = Some blob
                    /\ unpack_vector np blob = Some v
                    /\ feq (np_norm np v) (Finite 0) = false
                    /\ np_dot np query_embedding v = Some dot
                    /\ score doc = np_div np dot
                                     (np_mul np (np_norm np query_embedding)
                                        (np_norm np v)))).
  { intros ->. split; [intros _; constructor |]. split; [cbn; lia |].
    intros doc Hdoc. by apply elem_of_nil in Hdoc. }
  assert (Hcases :
    (client self = None /\ results = [])
    \/ (exists c, client self = Some c /\ scan_all (scan c) [] = None /\ results = [])
    \/ (exists c, client self = Some c /\ scan_all (scan c) [] = Some [] /\ results = [])
    \/ (feq (np_norm np query_embedding) (Finite 0) = true /\ results = [])
    \/ (exists c k0 keys,
          client self = Some c /\ scan_all (scan c) [] = Some (k0 :: keys)
          /\ feq (np_norm np query_embedding) (Finite 0) = false
          /\ results = slice_to k (sort_by_score_reverse py
                          (omap (score_key np c query_embedding
                                   (np_norm np query_embedding)) (k0 :: keys))))).
  { subst results. unfold vector_search, _is_connected.
    destruct (client self) as [c |]; cbn [negb]; [| by left].
    destruct (scan_all (scan c) []) as [[| k0 keys] |] eqn:Hscan.
    - right; right; left. by exists c.
    - destruct (feq (np_norm np query_embedding) (Finite 0)) eqn:Hq.
      + right; right; right; left. done.
      + right; right; right; right. by exists c, k0, keys.
    - right; left. by exists c. }
  destruct Hcases as [[Hc Hr] | [(c & Hc & Hs & Hr) | [(c & Hc & Hs & Hr)
                     | [[Hq Hr] | (c & k0 & keys & Hc & Hs & Hq & Hr)]]]].
  - destruct (Hempty Hr) as (H1 & H2 & H3). repeat split; try done.
  - destruct (Hempty Hr) as (H1 & H2 & H3). repeat split; try done.
  - destruct (Hempty Hr) as (H1 & H2 & H3). repeat split; try done.
  - destruct (Hempty Hr) as (H1 & H2 & H3). repeat split; try done.
  - clear Hempty. split; [| split; [| split; [| split; [| split; [| split]]]]].
    + intros Hcomparable. rewrite Hr. apply slice_to_descending.
      assert (Hscores : Forall (fun doc => score doc <> NaN)
                          (omap (score_key np c query_embedding
                                   (np_norm np query_embedding)) (k0 :: keys))).
      { apply Forall_forall. intros doc Hdoc.
        apply list_elem_of_omap in Hdoc as (k1 & Hk1 & Hdoc).
        by apply (Hcomparable c (k0 :: keys) k1 doc). }
      rewrite (Hsort _ Hscores). by apply sort_desc_descending.
    + rewrite Hr. apply slice_to_length.
    + intros Hn. congruence.
    + intros c' Hc' Hs'. congruence.
    + intros c' Hc' Hs'. congruence.
    + intros Hq'. congruence.
    + intros doc Hdoc. rewrite Hr in Hdoc.
      apply slice_to_elem_of in Hdoc. rewrite (Hperm _) in Hdoc.
      apply list_elem_of_omap in Hdoc as (k1 & Hin & Hk1).
      apply score_key_Some in Hk1 as (<- & _ & data & blob & v & dot & H).
      by exists c, (k0 :: keys), data, blob, v, dot.
Qed.

Lemma sample_builtins_python_sort : python_sort sample_builtins.
Proof. split; [apply sort_desc_permutation | done]. Qed.

Lemma vector_search_descending_top_k_witness :
  descending (vector_search sample_numpy sample_builtins two_skills
                [Finite 1; Finite 0] 1)
  /\ Z.of_nat (length (vector_search sample_numpy sample_builtins two_skills
                         [Finite 1; Finite 0] 1)) <= 1
  /\ map score (vector_search sample_numpy sample_builtins two_skills
                  [Finite 1; Finite 0] 5)
     = [Finite (98 # 195); Finite (97 # 195)].
Proof.
  pose proof (vector_search_descending_top_k sample_numpy sample_builtins two_skills
                [Finite 1; Finite 0] 1 sample_builtins_python_sort)
    as (Hdescending & Hlength & _).
  split; [| split; [apply Hlength; lia | reflexivity]].
  apply Hdescending.
  intros c keys key doc [= <-] [= <-] Hkey Hdoc.
  apply elem_of_cons in Hkey as [-> | Hkey];
    [| apply list_elem_of_singleton in Hkey as ->];
    vm_compute in Hdoc; injection Hdoc as <-; discriminate.
Defined.

(** The claim fails twice. The score of the second skill of [nan_skills]
    is NaN, and the list that comes back is not in descending order: 1.0
    is followed by a score that it is not greater than or equal to. And
    with the two matching skills of [two_skills], [k = -1] returns one
    document: more than [k]. *)
Lemma vector_search_nan_score_negative_k :
  map score (vector_search sample_numpy sample_builtins nan_skills
               [Finite 1; Finite 0] 5) = [Finite 1; NaN]
  /\ fge (Finite 1) NaN = false
  /\ length (vector_search sample_numpy sample_builtins two_skills
               [Finite 1; Finite 0] 5) = 2%nat
  /\ length (vector_search sample_numpy sample_builtins two_skills
               [Finite 1; Finite 0] (-1)) = 1%nat
  /\ (Z.of_nat (length (vector_search sample_numpy sample_builtins two_skills
                          [Finite 1; Finite 0] (-1)))
      <=? -1) = false.
Proof. vm_compute. repeat split. Qed.

(** * Further properties of the engine *)

(** ** The writes, run by run *)

Lemma r_hset_run name mapping d :
  r_hset name mapping d
  = {| value := Ret tt; store := after_hset name mapping d; events := [EvHSet name] |}.
Proof. reflexivity. Qed.

Lemma r_rpush_run key v d :
  r_rpush key v d
  = {| value := Ret tt; store := after_rpush key v d; events := [EvRPush key v] |}.
Proof. reflexivity. Qed.

Lemma r_set_run key v d :
  r_set key v d
  = {| value := Ret tt; store := after_set key v d; events := [EvSet key v] |}.
Proof. reflexivity. Qed.

Lemma r_lrange_all_after_rpush key v d :
  r_lrange_all key (after_rpush key v d) = r_lrange_all key d ++ [v].
Proof. unfold r_lrange_all at 1, after_rpush. cbn. by rewrite lookup_insert_eq. Qed.

Lemma r_lrange_all_after_rpush_ne key key' v d :
  key <> key' -> r_lrange_all key' (after_rpush key v d) = r_lrange_all key' d.
Proof.
  intros Hne. unfold r_lrange_all, after_rpush. cbn. by rewrite lookup_insert_ne.
Qed.

Lemma r_hget_after_hset name mapping d field :
  r_hget name field (after_hset name mapping d)
  = Bytes <$> ((list_to_map mapping ∪ default ∅ (hashes d !! name)) !! field).
Proof. unfold r_hget, after_hset. cbn. by rewrite lookup_insert_eq. Qed.

Lemma r_hget_after_hset_ne name name' mapping d field :
  name <> name' ->
  r_hget name' field (after_hset name mapping d) = r_hget name' field d.
Proof. intros Hne. unfold r_hget, after_hset. cbn. by rewrite lookup_insert_ne. Qed.

(** ** main.py: storing a lesson *)

(** What [store_lesson_in_redis] does when every step before the write
    succeeds. *)
Lemma store_lesson_in_redis_run rt gw analysis d objection rebuttal vector blob :
  py_subscript analysis "objection" = Ret (JStr objection) ->
  py_subscript analysis "rebuttal" = Ret (JStr rebuttal) ->
  embed gw (replace_newlines objection) = Some vector ->
  struct_pack rt vector = Some blob ->
  store_lesson_in_redis rt gw analysis d
  = {| value := Ret tt;
       store := after_hset ("skill:" +:+ pretty (py_hash rt (JStr objection)))
                  (skill_fields objection rebuttal blob) d;
       events := [EvHSet ("skill:" +:+ pretty (py_hash rt (JStr objection)))] |}.
Proof.
  intros Ho Hr He Hp. unfold store_lesson_in_redis.
  rewrite Ho, bind_lift_Ret. cbn [get_embedding]. rewrite He, bind_lift_Ret.
  rewrite Hp, bind_lift_Ret. cbn [skill_key py_encode].
  rewrite !bind_lift_Ret, Hr. cbn [res_bind py_encode].
  by rewrite bind_lift_Ret, r_hset_run.
Qed.

(** The steps of [store_lesson_in_redis] that can fail come before its
    one write. *)
Lemma store_lesson_in_redis_cases rt gw analysis d :
  (exists e, store_lesson_in_redis rt gw analysis d
             = {| value := Raise e; store := d; events := [] |})
  \/ (exists objection rebuttal vector blob,
        py_subscript analysis "objection" = Ret (JStr objection)
        /\ py_subscript analysis "rebuttal" = Ret (JStr rebuttal)
        /\ embed gw (replace_newlines objection) = Some vector
        /\ struct_pack rt vector = Some blob).
Proof.
  unfold store_lesson_in_redis.
  destruct (py_subscript analysis "objection") as [o | e] eqn:Ho;
    [rewrite bind_lift_Ret | left; by exists e].
  destruct o as [| | | objection | |];
    try (left; cbn [get_embedding]; rewrite bind_lift_Raise; by eexists).
  cbn [get_embedding].
  destruct (embed gw (replace_newlines objection)) as [vector |] eqn:He;
    [rewrite bind_lift_Ret | left; rewrite bind_lift_Raise; by eexists].
  destruct (struct_pack rt vector) as [blob |] eqn:Hp;
    [rewrite bind_lift_Ret | left; rewrite bind_lift_Raise; by eexists].
  cbn [skill_key py_encode]. rewrite !bind_lift_Ret.
  destruct (py_subscript analysis "rebuttal") as [rb | e] eqn:Hr;
    [| left; cbn [res_bind]; rewrite bind_lift_Raise; by eexists].
  destruct rb as [| | | rebuttal | |];
    try (left; cbn [res_bind py_encode]; rewrite bind_lift_Raise; by eexists).
  right. by exists objection, rebuttal, vector, blob.
Qed.

(** [store_lesson_in_redis] is all or nothing. When it raises (an
    objection or rebuttal that is missing or not a string, a failed
    embedding, a vector that does not pack) the server is untouched and
    nothing was sent; when it returns it has sent exactly one [hset], of
    the three fields, under the key of the objection's hash. *)
Theorem store_lesson_in_redis_all_or_nothing (rt : runtime) (gw : gateway)
    (analysis : json) (d : redis) :
  let r := store_lesson_in_redis rt gw analysis d in
  match value r with
  | Raise _ => store r = d /\ events r = []
  | Ret _ =>
      exists objection rebuttal vector blob,
        py_subscript analysis "objection" = Ret (JStr objection)
        /\ py_subscript analysis "rebuttal" = Ret (JStr rebuttal)
        /\ embed gw (replace_newlines objection) = Some vector
        /\ struct_pack rt vector = Some blob
        /\ store r = after_hset ("skill:" +:+ pretty (py_hash rt (JStr objection)))
                       (skill_fields objection rebuttal blob) d
        /\ events r = [EvHSet ("skill:" +:+ pretty (py_hash rt (JStr objection)))]
  end.
Proof.
  intros r. subst r.
  destruct (store_lesson_in_redis_cases rt gw analysis d)
    as [[e ->] | (objection & rebuttal & vector & blob & Ho & Hr & He & Hp)];
    [done |].
  rewrite (store_lesson_in_redis_run _ _ _ _ _ _ _ _ Ho Hr He Hp). cbn.
  by exists objection, rebuttal, vector, blob.
Qed.

(** A stored lesson reads back, field by field, under the key that the
    grading of scenario B computes for the same objection, whatever that
    key held before (the last write wins); no other skill is touched. *)
Theorem store_lesson_in_redis_reads_back (rt : runtime) (gw : gateway)
    (analysis : json) (d : redis) (objection rebuttal : string) (vector : list Q)
    (blob : string) :
  py_subscript analysis "objection" = Ret (JStr objection) ->
  py_subscript analysis "rebuttal" = Ret (JStr rebuttal) ->
  embed gw (replace_newlines objection) = Some vector ->
  struct_pack rt vector = Some blob ->
  let r := store_lesson_in_redis rt gw analysis d in
  exists name,
    skill_key rt (JStr objection) = Ret name
    /\ value r = Ret tt
    /\ r_hget name "trigger" (store r) = Some (Bytes objection)
    /\ r_hget name "rebuttal" (store r) = Some (Bytes rebuttal)
    /\ r_hget name "vector" (store r) = Some (Bytes blob)
    /\ (forall name' field, name' <> name ->
          r_hget name' field (store r) = r_hget name' field d)
    /\ strs (store r) = strs d
    /\ lists (store r) = lists d.
Proof.
  intros Ho Hr He Hp r. subst r.
  rewrite (store_lesson_in_redis_run _ _ _ _ _ _ _ _ Ho Hr He Hp).
  cbn [value store events]. eexists. split; [reflexivity |].
  split; [done |].
  rewrite !r_hget_after_hset.
  assert (Hfield : forall field v,
            (list_to_map (skill_fields objection rebuttal blob) : gmap string string)
              !! field = Some v ->
            Bytes <$> ((list_to_map (skill_fields objection rebuttal blob)
                          ∪ default ∅ (hashes d !! ("skill:" +:+
                                pretty (py_hash rt (JStr objection))))) !! field)
            = Some (Bytes v)).
  { intros field v Hv. by rewrite (lookup_union_Some_l _ _ _ _ Hv). }
  repeat split; try done.
  - by apply Hfield.
  - by apply Hfield.
  - by apply Hfield.
  - intros name' field Hne. by apply r_hget_after_hset_ne.
Qed.

Lemma store_lesson_in_redis_reads_back_witness :
  exists name,
    skill_key teaching_runtime (JStr "We need custom integrations.") = Ret name
    /\ r_hget name "rebuttal"
         (store (store_lesson_in_redis teaching_runtime teaching_gateway
                   strong_rebuttal taught_redis))
       = Some (Bytes "We have an open API.").
Proof.
  destruct (store_lesson_in_redis_reads_back teaching_runtime teaching_gateway
              strong_rebuttal taught_redis "We need custom integrations."
              "We have an open API." [1 # 2; 1 # 4] "ff"
              eq_refl eq_refl eq_refl eq_refl)
    as (name & Hname & _ & _ & Hreb & _).
  by exists name.
Defined.

(** ** main.py: scenario A *)

(** A human manager's win of quality above 0.8, with an objection and a
    rebuttal that are strings and an embedding that packs, returns
    [learned_new_skill] with the analysis and the segment, after exactly
    two writes: the skill under the key of the objection's hash, then the
    pair as a test case at the end of the corpus. No prompt is touched and
    the optimiser is not entered. *)
Theorem human_win_high_quality_learns (rt : runtime) (gw : gateway)
    (transcript : string) (outcome : json) (country industry : string) (d : redis)
    (text : option string) (analysis q : json) (x : pyfloat)
    (objection rebuttal : string) (vector : list Q) (blob : string) :
  resolve_outcome rt gw transcript outcome = Ret (JStr "CLOSED_DEAL") ->
  extract gw transcript = Response text ->
  loads rt text = Ret analysis ->
  py_subscript analysis "quality_score" = Ret q ->
  as_number q = Some x ->
  fgt x float_0_8 = true ->
  py_subscript analysis "objection" = Ret (JStr objection) ->
  py_subscript analysis "rebuttal" = Ret (JStr rebuttal) ->
  embed gw (replace_newlines objection) = Some vector ->
  struct_pack rt vector = Some blob ->
  let name := "skill:" +:+ pretty (py_hash rt (JStr objection)) in
  let case := json_dumps rt (test_case (JStr objection) (JStr rebuttal)) in
  process_call_outcome rt gw transcript "HUMAN_MANAGER" outcome country industry d
  = {| value := Ret (learned_new_skill analysis (country +:+ ":" +:+ industry));
       store := after_rpush test_cases_key case
                  (after_hset name (skill_fields objection rebuttal blob) d);
       events := [EvHSet name; EvRPush test_cases_key case] |}.
Proof.
  intros Hres Ht Ha Hq Hx Hgt Ho Hr He Hp name case.
  rewrite (process_call_outcome_judged _ _ _ _ _ _ _ _ _ _ _ Hres Ht Ha).
  unfold router, py_eq_str. rewrite !String.eqb_refl. cbn [andb].
  rewrite Hq, bind_lift_Ret. unfold py_gt. rewrite Hx, bind_lift_Ret, Hgt.
  rewrite Ho, bind_lift_Ret.
  rewrite (bind_Ret (store_lesson_in_redis rt gw analysis) _ d tt);
    rewrite (store_lesson_in_redis_run _ _ _ _ _ _ _ _ Ho Hr He Hp); [| done].
  cbn [value store events]. rewrite Hr, bind_lift_Ret.
  unfold add_test_case_from_lesson.
  rewrite (bind_Ret (bind (r_rpush _ _) _) _ _ (test_case (JStr objection) (JStr rebuttal)));
    [| reflexivity].
  reflexivity.
Qed.

Lemma human_win_high_quality_learns_witness :
  value (process_call_outcome teaching_runtime teaching_gateway
           "Customer: That would be helpful. Okay, let us move forward."
           "HUMAN_MANAGER" (JStr "CLOSED_DEAL") "US" "general" empty_redis)
  = Ret (learned_new_skill strong_rebuttal "US:general").
Proof.
  rewrite (human_win_high_quality_learns teaching_runtime teaching_gateway
             "Customer: That would be helpful. Okay, let us move forward."
             (JStr "CLOSED_DEAL") "US" "general" empty_redis
             (Some strong_rebuttal_text) strong_rebuttal
             (JNum (Finite (9 # 10))) (Finite (9 # 10))
             "We need custom integrations." "We have an open API."
             [1 # 2; 1 # 4] "ff");
    reflexivity.
Defined.

(** ** optimizer.py: the test-case corpus *)

(** The corpus is an append log: a lesson is added at the end, whatever the
    corpus holds, so the same lesson added twice is there twice. The rest
    of the server is untouched. *)
Theorem add_test_case_from_lesson_appends (rt : runtime) (objection : string)
    (rebuttal : json) (d : redis) :
  let case := test_case (JStr objection) rebuttal in
  let once := add_test_case_from_lesson rt (JStr objection) rebuttal d in
  let twice := add_test_case_from_lesson rt (JStr objection) rebuttal (store once) in
  value once = Ret case
  /\ r_lrange_all test_cases_key (store once)
     = r_lrange_all test_cases_key d ++ [json_dumps rt case]
  /\ r_lrange_all test_cases_key (store twice)
     = r_lrange_all test_cases_key d ++ [json_dumps rt case; json_dumps rt case]
  /\ strs (store twice) = strs d
  /\ hashes (store twice) = hashes d.
Proof.
  intros case once twice. subst once twice. unfold add_test_case_from_lesson.
  fold case.
  assert (Hrun : forall d0,
    bind (r_rpush test_cases_key (json_dumps rt case)) (fun _ => ret case) d0
    = {| value := Ret case; store := after_rpush test_cases_key (json_dumps rt case) d0;
         events := [EvRPush test_cases_key (json_dumps rt case)] |}) by done.
  rewrite !Hrun. cbn [value store].
  rewrite !r_lrange_all_after_rpush, <- app_assoc. done.
Qed.

Lemma rpush_all_run key values d :
  store (rpush_all key values d)
  = {| strs := strs d; hashes := hashes d;
       lists := match values with
                | [] => lists d
                | _ :: _ => <[key := r_lrange_all key d ++ values]> (lists d)
                end |}
  /\ value (rpush_all key values d) = Ret tt.
Proof.
  revert d. induction values as [| v values IH]; intros d.
  - split; [by destruct d | done].
  - cbn [rpush_all].
    rewrite (bind_Ret (r_rpush key v) _ d tt eq_refl), r_rpush_run.
    cbn [value store events].
    destruct (IH (after_rpush key v d)) as [-> ->]. split; [| done].
    rewrite r_lrange_all_after_rpush. unfold after_rpush. cbn [strs hashes lists].
    f_equal. destruct values as [| w values]; [done |].
    by rewrite insert_insert_eq, <- app_assoc.
Qed.

Lemma initialize_default_test_cases_cases (rt : runtime) (d : redis) :
  let r := initialize_default_test_cases rt d in
  (r_lrange_all test_cases_key d <> [] -> store r = d /\ events r = [])
  /\ (r_lrange_all test_cases_key d = [] ->
      r_lrange_all test_cases_key (store r) = map (json_dumps rt) default_cases)
  /\ store (initialize_default_test_cases rt (store r)) = store r
  /\ strs (store r) = strs d
  /\ hashes (store r) = hashes d.
Proof.
  intros r. subst r. unfold initialize_default_test_cases.
  rewrite !bind_read. unfold r_exists.
  destruct (r_lrange_all test_cases_key d) as [| c0 cs] eqn:Hl.
  - destruct (rpush_all_run test_cases_key (map (json_dumps rt) default_cases) d)
      as [Hs _].
    rewrite Hs, Hl. cbn [map default_cases app].
    assert (Hafter : r_lrange_all test_cases_key
              {| strs := strs d; hashes := hashes d;
                 lists := <[test_cases_key :=
                   [json_dumps rt (test_case (JStr "Hello, who are you?")
                                     (JStr "I am a sales representative"));
                    json_dumps rt (test_case (JStr "It is too expensive.")
                                     (JStr "Value proposition and ROI"));
                    json_dumps rt (test_case (JStr "I need to think about it.")
                                     (JStr "Address hesitation with urgency"))]]>
                   (lists d) |}
            = map (json_dumps rt) default_cases).
    { unfold r_lrange_all. cbn [lists]. by rewrite lookup_insert_eq. }
    split; [done |]. split; [by intros _ |].
    split; [| done]. by rewrite Hafter.
  - split; [done |]. split; [done |]. cbn [store ret]. by rewrite Hl.
Qed.

(** Seeding happens only on an empty corpus: a corpus that holds anything
    is left as it is, an empty one receives the three default cases in
    their order, and seeding twice is seeding once. Prompts and skills are
    never touched. *)
Theorem initialize_default_test_cases_seeds_once (rt : runtime) (d : redis) :
  let r := initialize_default_test_cases rt d in
  (r_lrange_all test_cases_key d <> [] -> store r = d /\ events r = [])
  /\ (r_lrange_all test_cases_key d = [] ->
      r_lrange_all test_cases_key (store r) = map (json_dumps rt) default_cases)
  /\ store (initialize_default_test_cases rt (store r)) = store r
  /\ strs (store r) = strs d
  /\ hashes (store r) = hashes d.
Proof. apply initialize_default_test_cases_cases. Qed.

(** ** optimizer.py: a run of the optimiser, step by step *)

Lemma bind_ext {A B} (m : M A) (k k' : A -> M B) d :
  (forall a, value (m d) = Ret a -> k a (store (m d)) = k' a (store (m d))) ->
  bind m k d = bind m k' d.
Proof.
  intros H. unfold bind. destruct (value (m d)) as [a | e]; [| done].
  by rewrite (H a eq_refl).
Qed.

(** The run of [optimize_and_verify] in terms of the run of its first
    phase. *)
Lemma optimize_and_verify_run rt gw segment_key transcript outcome d :
  let gs := generate_and_score rt gw segment_key transcript outcome d in
  let pkey := segment_prompt_key segment_key in
  optimize_and_verify rt gw segment_key transcript outcome d
  = match value gs with
    | Raise e =>
        {| value := Raise e; store := store gs;
           events := EvOptimize segment_key :: events gs |}
    | Ret (c, avg) =>
        match as_number avg with
        | Some mean =>
            if fge mean float_0_5
            then {| value := Ret c; store := after_set pkey c (store gs);
                    events := EvOptimize segment_key :: events gs ++ [EvSet pkey c] |}
            else {| value := Ret c; store := store gs;
                    events := EvOptimize segment_key :: events gs |}
        | None =>
            {| value := Raise TypeError; store := store gs;
               events := EvOptimize segment_key :: events gs |}
        end
    end.
Proof.
  intros gs pkey. subst gs pkey. unfold optimize_and_verify.
  remember (generate_and_score rt gw segment_key transcript outcome) as gs eqn:Egs.
  clear Egs.
  rewrite (bind_Ret (emit _) _ d tt eq_refl). cbn [value store events emit].
  destruct (value (gs d)) as [[c avg] | e] eqn:Hgs.
  - rewrite (bind_Ret _ _ d (c, avg) Hgs). cbn [value store events].
    unfold py_ge. destruct (as_number avg) as [mean |].
    + rewrite bind_lift_Ret.
      destruct (fge mean float_0_5).
      * rewrite (bind_Ret (r_set _ _) _ _ tt eq_refl), r_set_run.
        cbn. by rewrite ?app_nil_r.
      * rewrite (bind_Ret (ret tt) _ _ tt eq_refl). cbn. by rewrite ?app_nil_r.
    + rewrite bind_lift_Raise. cbn. by rewrite ?app_nil_r.
  - rewrite (bind_Raise _ _ d e Hgs). done.
Qed.

Lemma loads_all_length rt cases vs :
  loads_all rt cases = Ret vs -> length vs = length cases.
Proof.
  revert vs. induction cases as [| c cases IH]; intros vs; cbn [loads_all].
  - by intros [= <-].
  - destruct (loads rt (Some c)) as [v | e]; cbn [res_bind]; [| done].
    destruct (loads_all rt cases) as [vs' | e]; cbn [res_bind]; [| done].
    intros [= <-]. cbn. by rewrite (IH vs' eq_refl).
Qed.

(** The corpus that reaches the evaluation is never empty: an empty one
    has been seeded just before. *)
Lemma materialized_corpus_nonempty rt d test_cases test_cases' :
  value (get_test_cases_from_redis rt d) = Ret test_cases ->
  value (match test_cases with
         | [] => initialize_default_test_cases rt;;; get_test_cases_from_redis rt
         | _ :: _ => ret test_cases
         end d) = Ret test_cases' ->
  test_cases' <> [].
Proof.
  unfold get_test_cases_from_redis. rewrite bind_read. cbn [lift value].
  intros Hfirst. destruct test_cases as [| t ts].
  - apply loads_all_length in Hfirst. destruct (r_lrange_all test_cases_key d) eqn:Hl;
      [| done].
    intros H. apply bind_ret_inv in H as ([] & _ & H).
    destruct (initialize_default_test_cases_cases rt d) as (_ & Hseed & _).
    specialize (Hseed Hl).
    rewrite bind_read in H. cbn [lift value] in H. rewrite Hseed in H.
    apply loads_all_length in H. by destruct test_cases'.
  - cbn. by intros [= <-].
Qed.

(** [optimize_and_verify] never evaluates a candidate on an empty corpus:
    what the evaluation would answer on the empty list of test cases has
    no bearing on the run. *)
Theorem optimize_and_verify_never_evaluates_empty (rt : runtime) (gw : gateway)
    (ev : string -> list json -> eval_reply)
    (segment_key transcript : string) (outcome : json) (d : redis) :
  (forall candidate test_cases,
      test_cases <> [] -> ev candidate test_cases = evaluate gw candidate test_cases) ->
  optimize_and_verify rt (with_evaluate gw ev) segment_key transcript outcome d
  = optimize_and_verify rt gw segment_key transcript outcome d.
Proof.
  intros Hev. unfold optimize_and_verify.
  apply bind_ext. intros [] _.
  assert (Hgs : forall d0,
    generate_and_score rt (with_evaluate gw ev) segment_key transcript outcome d0
    = generate_and_score rt gw segment_key transcript outcome d0);
    [| unfold bind; by rewrite !Hgs].
  intros d0. unfold generate_and_score. cbn [with_evaluate mutate evaluate].
  apply bind_ext. intros current_prompt _.
  apply bind_ext. intros text _.
  apply bind_ext. intros candidate _.
  apply bind_ext. intros test_cases Hfirst.
  apply bind_ext. intros test_cases' Hsecond.
  rewrite Hev; [done |].
  eapply materialized_corpus_nonempty; [exact Hfirst | exact Hsecond].
Qed.

Lemma optimize_and_verify_never_evaluates_empty_witness :
  optimize_and_verify sample_runtime (with_evaluate sample_gateway fails_on_empty)
    "US:general" "Customer: It is too expensive." (JStr "LOST_DEAL") empty_redis
  = optimize_and_verify sample_runtime sample_gateway
      "US:general" "Customer: It is too expensive." (JStr "LOST_DEAL") empty_redis.
Proof.
  apply (optimize_and_verify_never_evaluates_empty sample_runtime sample_gateway
           fails_on_empty).
  intros candidate [| t ts] Hne; [done | reflexivity].
Defined.

(** ** Nothing is taken away *)

#[local] Instance grows_preorder : PreOrder grows.
Proof.
  split.
  - intros d. split; [done |]. split; [| done]. intros k h Hk. by exists h.
  - intros d1 d2 d3 (Hs1 & Hh1 & Hl1) (Hs2 & Hh2 & Hl2). split; [| split].
    + intros k Hk. by apply Hs2, Hs1.
    + intros k h Hk. destruct (Hh1 k h Hk) as (h' & Hk' & Hsub).
      destruct (Hh2 k h' Hk') as (h'' & Hk'' & Hsub'). exists h''. split; [done |].
      set_solver.
    + intros k. by transitivity (r_lrange_all k d2).
Qed.

Lemma grows_after_set key v d : grows d (after_set key v d).
Proof.
  split; [| split].
  - intros k Hk. unfold after_set. cbn [strs].
    destruct (decide (key = k)) as [-> | Hne];
      [rewrite lookup_insert_eq; by eexists | by rewrite lookup_insert_ne].
  - intros k h Hk. by exists h.
  - done.
Qed.

Lemma grows_after_hset name mapping d : grows d (after_hset name mapping d).
Proof.
  split; [done |]. split; [| done].
  intros k h Hk. unfold after_hset. cbn [hashes].
  destruct (decide (name = k)) as [-> | Hne].
  - rewrite lookup_insert_eq, Hk. cbn. eexists. split; [done |].
    rewrite dom_union. set_solver.
  - rewrite lookup_insert_ne; [| done]. by exists h.
Qed.

Lemma grows_after_rpush key v d : grows d (after_rpush key v d).
Proof.
  split; [done |]. split; [intros k h Hk; by exists h |].
  intros k. destruct (decide (key = k)) as [<- | Hne].
  - rewrite r_lrange_all_after_rpush. by apply prefix_app_r.
  - by rewrite r_lrange_all_after_rpush_ne.
Qed.

Ltac grows_step :=
  first
    [ apply frames_rpush; [exact I | intros ?; apply grows_after_rpush]
    | apply frames_set; [exact I | intros ?; apply grows_after_set]
    | apply frames_hset; [exact I | intros ?; apply grows_after_hset]
    | apply frames_emit; exact I
    | frames_step ].

Lemma rpush_all_grows key values : frames grows any_event (rpush_all key values).
Proof. induction values; cbn [rpush_all]; repeat grows_step; done. Qed.

Lemma generate_and_score_grows rt gw segment_key transcript outcome :
  frames grows any_event (generate_and_score rt gw segment_key transcript outcome).
Proof.
  unfold generate_and_score, get_test_cases_from_redis, initialize_default_test_cases.
  repeat first [apply rpush_all_grows | grows_step].
Qed.

Lemma optimize_and_verify_grows rt gw segment_key transcript outcome :
  frames grows any_event (optimize_and_verify rt gw segment_key transcript outcome).
Proof.
  unfold optimize_and_verify.
  repeat first [apply generate_and_score_grows | grows_step].
Qed.

(** ** optimizer.py: what a run of the optimiser changes *)

Lemma after_set_lookup key v d : strs (after_set key v d) !! key = Some v.
Proof. unfold after_set. cbn. apply lookup_insert_eq. Qed.

(** An accepted candidate that is not the empty string is the prompt that
    the agent is given for the segment from then on, and the prompt that
    the next optimisation of the segment starts from. *)
Theorem accepted_candidate_is_served (rt : runtime) (gw : gateway)
    (transcript country industry : string) (outcome : json) (d : redis)
    (candidate : string) (mean : pyfloat) :
  candidate_and_mean rt gw (country +:+ ":" +:+ industry) transcript outcome d
  = Ret (candidate, mean) ->
  fge mean float_0_5 = true ->
  candidate <> "" ->
  let r := optimize_and_verify rt gw (country +:+ ":" +:+ industry) transcript outcome d in
  get_prompt_for_segment country industry (store r) = candidate
  /\ fetch_current_prompt (country +:+ ":" +:+ industry) (store r) = candidate.
Proof.
  intros Hcm Hge Hne r. subst r.
  rewrite optimize_and_verify_run. cbv zeta.
  unfold candidate_and_mean in Hcm.
  destruct (value (generate_and_score rt gw (country +:+ ":" +:+ industry)
                     transcript outcome d)) as [[c avg] | e]; [| done].
  destruct (as_number avg) as [m |]; [| done]. injection Hcm as -> ->.
  rewrite Hge. cbn [store].
  assert (Hstored : stored (after_set (segment_prompt_key (country +:+ ":" +:+ industry))
                              candidate
                              (store (generate_and_score rt gw
                                        (country +:+ ":" +:+ industry) transcript outcome d)))
                      (segment_prompt_key (country +:+ ":" +:+ industry))
                    = Some candidate).
  { unfold stored, r_get. rewrite after_set_lookup.
    by destruct (String.eqb_spec candidate ""). }
  split.
  - rewrite get_prompt_for_segment_chain. unfold resolve_by_precedence. by rewrite Hstored.
  - rewrite fetch_current_prompt_chain. by rewrite Hstored.
Qed.

Lemma accepted_candidate_is_served_witness :
  get_prompt_for_segment "US" "general"
    (store (optimize_and_verify sample_runtime sample_gateway ("US" +:+ ":" +:+ "general")
              "Customer: It is too expensive." (JStr "LOST_DEAL") tuned_redis))
  = "Answer price objections with ROI.".
Proof.
  apply (accepted_candidate_is_served sample_runtime sample_gateway
           "Customer: It is too expensive." "US" "general" (JStr "LOST_DEAL") tuned_redis
           "Answer price objections with ROI." (Finite (1 # 2)));
    [reflexivity | reflexivity | discriminate].
Defined.

(** A run of the optimiser for one segment, however it ends, leaves every
    other string key (the base prompt, the prompts of the other segments)
    and every skill as they were, and can only lengthen the corpus. *)
Theorem optimize_and_verify_touches_one_prompt (rt : runtime) (gw : gateway)
    (segment_key transcript : string) (outcome : json) (d : redis) :
  let r := optimize_and_verify rt gw segment_key transcript outcome d in
  (forall key, key <> segment_prompt_key segment_key ->
     r_get key (store r) = r_get key d)
  /\ hashes (store r) = hashes d
  /\ (forall key, r_lrange_all key d `prefix_of` r_lrange_all key (store r)).
Proof.
  intros r. subst r. rewrite optimize_and_verify_run. cbv zeta.
  destruct (generate_and_score_frames rt gw segment_key transcript outcome d)
    as [[Hstrs Hhashes] _].
  assert (Hprefix : forall key,
            r_lrange_all key d `prefix_of`
              r_lrange_all key (store (generate_and_score rt gw segment_key
                                         transcript outcome d))).
  { by destruct (generate_and_score_grows rt gw segment_key transcript outcome d)
      as [(_ & _ & H) _]. }
  assert (Hsame : forall key,
            r_get key (store (generate_and_score rt gw segment_key transcript outcome d))
            = r_get key d)
    by (intros key; unfold r_get; by rewrite Hstrs).
  destruct (value (generate_and_score rt gw segment_key transcript outcome d))
    as [[c avg] | e]; [| done].
  destruct (as_number avg) as [mean |]; [| done].
  destruct (fge mean float_0_5); cbn [store]; [| done].
  repeat split; try done.
  intros key Hne. rewrite <- Hsame. unfold r_get, after_set. cbn [strs].
  by rewrite lookup_insert_ne.
Qed.

(** ** main.py: what a run of the refinery never does *)

Lemma process_call_outcome_grows rt gw transcript speaker_role outcome country industry :
  frames grows any_event
    (process_call_outcome rt gw transcript speaker_role outcome country industry).
Proof.
  unfold process_call_outcome, router, store_lesson_in_redis, add_test_case_from_lesson.
  cbv zeta.
  repeat first [apply optimize_and_verify_grows | grows_step].
Qed.

(** No run of [process_call_outcome], whatever its inputs and however it
    ends, deletes anything: every string key that was set is still set,
    every skill is still there with all the fields it had, and every list
    still begins with what it held. *)
Theorem process_call_outcome_never_deletes (rt : runtime) (gw : gateway)
    (transcript speaker_role : string) (outcome : json) (country industry : string)
    (d : redis) :
  let r := process_call_outcome rt gw transcript speaker_role outcome country industry d in
  (forall k, is_Some (r_get k d) -> is_Some (r_get k (store r)))
  /\ (forall name field, is_Some (r_hget name field d) ->
        is_Some (r_hget name field (store r)))
  /\ (forall k, r_lrange_all k d `prefix_of` r_lrange_all k (store r)).
Proof.
  intros r. subst r.
  destruct (process_call_outcome_grows rt gw transcript speaker_role outcome
              country industry d) as [(Hs & Hh & Hl) _].
  split; [exact Hs |]. split; [| exact Hl].
  intros name field. unfold r_hget.
  destruct (hashes d !! name) as [h |] eqn:Hname; [| by intros [? ?]].
  destruct (Hh name h Hname) as (h' & -> & Hsub).
  rewrite !fmap_is_Some. intros Hf.
  apply elem_of_dom. apply Hsub. by apply elem_of_dom.
Qed.

(** ** main.py: scenario B on a lost deal *)

(** When the AI agent lost the deal, the run grades the rebuttal against
    the store as it was, then is one run of the optimiser for the call's
    segment; if that returns, the report is [graded_agent] with the
    score, [optimized] true and the segment. *)
Theorem agent_loss_is_graded_then_optimized (rt : runtime) (gw : gateway)
    (transcript : string) (outcome : json) (country industry : string) (d : redis)
    (text : option string) (analysis objection rebuttal : json) (name : string) :
  resolve_outcome rt gw transcript outcome = Ret (JStr "LOST_DEAL") ->
  extract gw transcript = Response text ->
  loads rt text = Ret analysis ->
  py_subscript analysis "objection" = Ret objection ->
  skill_key rt objection = Ret name ->
  py_subscript analysis "rebuttal" = Ret rebuttal ->
  let segment_key := country +:+ ":" +:+ industry in
  let grade := if py_eq_reply rebuttal (r_hget name "rebuttal" d)
               then float_1_0 else float_0_5 in
  let o := optimize_and_verify rt gw segment_key transcript (JStr "LOST_DEAL") d in
  let r := process_call_outcome rt gw transcript "AI_AGENT" outcome country industry d in
  value r = res_bind (value o) (fun _ =>
              Ret (JObj [("status", JStr "graded_agent"); ("score", JNum grade);
                         ("optimized", JBool true); ("segment", JStr segment_key)]))
  /\ store r = store o
  /\ events r = events o.
Proof.
  intros Hres Ht Ha Hobj Hname Hreb segment_key grade o r. subst r.
  rewrite (process_call_outcome_judged _ _ _ _ _ _ _ _ _ _ _ Hres Ht Ha).
  fold segment_key. unfold router, py_eq_str.
  change (String.eqb "AI_AGENT" "HUMAN_MANAGER") with false.
  rewrite !String.eqb_refl. cbn [andb].
  rewrite Hobj, bind_lift_Ret, Hname, bind_lift_Ret, bind_read, Hreb, bind_lift_Ret.
  fold grade. unfold bind. fold o.
  destruct (value o); cbn; [by rewrite app_nil_r | done].
Qed.

Lemma agent_loss_is_graded_then_optimized_witness :
  value (process_call_outcome sample_runtime sample_gateway
           "Customer: I think we will go with another vendor."
           "AI_AGENT" (JStr "LOST_DEAL") "US" "general" taught_redis)
  = Ret (JObj [("status", JStr "graded_agent"); ("score", JNum float_0_5);
               ("optimized", JBool true); ("segment", JStr "US:general")]).
Proof.
  destruct (agent_loss_is_graded_then_optimized sample_runtime sample_gateway
              "Customer: I think we will go with another vendor."
              (JStr "LOST_DEAL") "US" "general" taught_redis
              (Some weak_rebuttal_text) weak_rebuttal
              (JStr "It is too expensive.") (JStr "We can offer a discount.") "skill:20"
              eq_refl eq_refl eq_refl eq_refl eq_refl eq_refl) as (Hv & _).
  rewrite Hv. vm_compute. reflexivity.
Defined.

(** ** main.py: the classifier never fails on a reply *)

(** [determine_call_outcome] raises only when the call to the model
    raises. On every reply it returns: [LOST_DEAL], or the [outcome] field
    of the dictionary that the reply decodes to. *)
Theorem determine_call_outcome_answers (rt : runtime) (gw : gateway)
    (transcript : string) :
  match classify gw transcript with
  | GatewayFailure => determine_call_outcome rt gw transcript = Raise GatewayError
  | Response text =>
      exists v,
        determine_call_outcome rt gw transcript = Ret v
        /\ (v = JStr "LOST_DEAL"
            \/ exists s fields,
                 text = Some s /\ json_loads rt s = Some (JObj fields)
                 /\ dict_lookup "outcome" fields = Some v)
  end.
Proof.
  unfold determine_call_outcome.
  destruct (classify gw transcript) as [| text]; [done |]. cbn [generate_content res_bind].
  eexists. split; [reflexivity |].
  destruct text as [s |]; [| by left]. cbn [loads].
  destruct (json_loads rt s) as [result |] eqn:Hl; [| by left].
  destruct result as [| | | | | fields]; try by left.
  cbn [res_bind py_get].
  destruct (py_format_2f _); cbn [res_bind try_except]; [| by left].
  destruct (dict_lookup "outcome" fields) as [v |] eqn:Hv; cbn [default from_option id];
    [| by left].
  right. by exists s, fields.
Qed.

(** ** optimizer.py: the segment key, parsed back *)

Lemma split_colon_no_colon (s : string) : no_colon s = true -> split_colon s = [s].
Proof.
  induction s as [| c s IH]; cbn [no_colon split_colon]; [done |].
  destruct (Ascii.eqb c ":"%char); [done |]. cbn [negb andb]. intros H.
  by rewrite (IH H).
Qed.

(** The key that [process_call_outcome] builds from a country and an
    industry without colons splits, in [optimize_and_verify], into that
    country and that industry. *)
Theorem split_colon_segment_key (country industry : string) :
  no_colon country = true ->
  no_colon industry = true ->
  split_colon (country +:+ ":" +:+ industry) = [country; industry].
Proof.
  intros Hc Hi. induction country as [| c country IH].
  - change (split_colon ("" +:+ ":" +:+ industry)) with ("" :: split_colon industry).
    by rewrite (split_colon_no_colon industry Hi).
  - cbn [no_colon] in Hc.
    change (String c country +:+ ":" +:+ industry)
      with (String c (country +:+ ":" +:+ industry)).
    cbn [split_colon].
    destruct (Ascii.eqb c ":"%char); [done |]. cbn [negb andb] in Hc.
    by rewrite (IH Hc).
Qed.

Lemma split_colon_segment_key_witness :
  split_colon ("DE" +:+ ":" +:+ "fintech") = ["DE"; "fintech"].
Proof. apply split_colon_segment_key; reflexivity. Defined.

(** ** optimizer.py: the scorer *)

(** [LLMPromptQualityScorer.score] raises only when the call to the model
    raises. On every reply it returns a dictionary of exactly the four
    fields; when the reply does not decode to a dictionary the three
    verdicts are false and the score is 0.0, and a field that the
    dictionary lacks takes that default. *)
Theorem LLMPromptQualityScorer_score_fails_soft (rt : runtime) (ev : evaluators)
    (output : string) (input target : json) :
  match judge ev input output target with
  | GatewayFailure =>
      LLMPromptQualityScorer_score rt ev output input target = Raise GatewayError
  | Response text =>
      exists a p t o,
        LLMPromptQualityScorer_score rt ev output input target
        = Ret (JObj [("addresses_objection", a); ("professional_tone", p);
                     ("aligns_with_target", t); ("overall_score", o)])
        /\ match loads rt text with
           | Ret (JObj fields) =>
               a = default (JBool false) (dict_lookup "addresses_objection" fields)
               /\ p = default (JBool false) (dict_lookup "professional_tone" fields)
               /\ t = default (JBool false) (dict_lookup "aligns_with_target" fields)
               /\ o = default (JNum float_0_0) (dict_lookup "overall_score" fields)
           | _ => a = JBool false /\ p = JBool false /\ t = JBool false
                  /\ o = JNum float_0_0
           end
  end.
Proof.
  unfold LLMPromptQualityScorer_score.
  destruct (judge ev input output target) as [| text]; [done |].
  cbn [generate_content res_bind].
  destruct (loads rt text) as [result | e]; cbn [res_bind try_except];
    [| by eexists _, _, _, _].
  destruct result; cbn [py_get res_bind try_except]; by eexists _, _, _, _.
Qed.

(** * Properties of the call state *)

(** ** Dictionaries *)

Lemma dict_lookup_map_set k v k' fields :
  dict_lookup k' (map (fun kv => if String.eqb k kv.1 then (kv.1, v) else kv) fields)
  = if String.eqb k k'
    then match dict_lookup k' fields with Some _ => Some v | None => None end
    else dict_lookup k' fields.
Proof.
  induction fields as [| [k0 v0] fields IH]; cbn [map dict_lookup fst].
  - by destruct (String.eqb k k').
  - destruct (String.eqb_spec k k0) as [<- | Hne0]; cbn [fst snd]; rewrite IH.
    + destruct (String.eqb_spec k k') as [<- | Hne].
      * rewrite String.eqb_refl. by destruct (dict_lookup k fields).
      * destruct (dict_lookup k' fields); [done |].
        by destruct (String.eqb_spec k' k).
    + destruct (String.eqb_spec k k') as [<- | Hne]; [| done].
      destruct (dict_lookup k fields); [done |].
      by destruct (String.eqb_spec k k0).
Qed.

Lemma dict_lookup_app k fields k0 v0 :
  dict_lookup k (fields ++ [(k0, v0)])
  = if String.eqb k k0 then Some v0 else dict_lookup k fields.
Proof.
  induction fields as [| [k1 v1] fields IH]; cbn [app dict_lookup]; [done |].
  rewrite IH. by destruct (String.eqb k k0).
Qed.

Lemma dict_lookup_set_eq k v fields : dict_lookup k (dict_set k v fields) = Some v.
Proof.
  unfold dict_set. destruct (dict_lookup k fields) eqn:Hk.
  - by rewrite dict_lookup_map_set, String.eqb_refl, Hk.
  - by rewrite dict_lookup_app, String.eqb_refl.
Qed.

Lemma dict_lookup_set_ne k k' v fields :
  k <> k' -> dict_lookup k' (dict_set k v fields) = dict_lookup k' fields.
Proof.
  intros Hne. unfold dict_set. destruct (dict_lookup k fields).
  - rewrite dict_lookup_map_set. by destruct (String.eqb_spec k k').
  - rewrite dict_lookup_app. by destruct (String.eqb_spec k' k).
Qed.

Lemma call_key_inj a b : call_key a = call_key b -> a = b.
Proof. unfold call_key. intros H. by simplify_eq. Qed.

(** ** redis_service.py: storing and reading a call *)

Lemma set_call_state_run rt self now call_id fields d c :
  client self = Some c ->
  set_call_state rt self now call_id (JObj fields) d
  = {| value := Ret (JObj (dict_set "updated_at" (JStr now) fields));
       store := {| strs := <[call_key call_id :=
                               json_dumps rt (JObj (dict_set "updated_at" (JStr now) fields))]>
                             (strs d);
                   hashes := hashes d; lists := lists d |};
       events := [] |}.
Proof.
  intros Hc. unfold set_call_state, _is_connected. rewrite Hc.
  cbn [py_setitem]. by rewrite bind_lift_Ret.
Qed.

Lemma get_call_state_run rt self call_id d c :
  client self = Some c ->
  get_call_state rt self call_id d
  = {| value := if truthy (r_get (call_key call_id) d)
                then loads rt (r_get (call_key call_id) d) else Ret JNull;
       store := d; events := [] |}.
Proof.
  intros Hc. unfold get_call_state, _is_connected. rewrite Hc, bind_read.
  by destruct (truthy (r_get (call_key call_id) d)).
Qed.

(** What [set_call_state] stores is what [get_call_state] returns: the
    caller's dictionary with [updated_at] set to the reading of the clock
    and every other field as given. The states of other calls are not
    touched. *)
Theorem call_state_round_trip (rt : runtime) (self : RedisService) (c : redis_client)
    (now call_id : string) (fields : list (string * json)) (d : redis) :
  client self = Some c ->
  round_trips rt (JObj (dict_set "updated_at" (JStr now) fields)) ->
  let d' := store (set_call_state rt self now call_id (JObj fields) d) in
  exists stamped,
    value (get_call_state rt self call_id d') = Ret (JObj stamped)
    /\ dict_lookup "updated_at" stamped = Some (JStr now)
    /\ (forall k, k <> "updated_at" -> dict_lookup k stamped = dict_lookup k fields)
    /\ (forall other, other <> call_id ->
          value (get_call_state rt self other d')
          = value (get_call_state rt self other d)).
Proof.
  intros Hc [Hne Hrt] d'. subst d'.
  rewrite (set_call_state_run _ _ _ _ _ _ _ Hc). cbn [store].
  exists (dict_set "updated_at" (JStr now) fields).
  rewrite !(get_call_state_run _ _ _ _ _ Hc). cbn [value].
  unfold r_get. cbn [strs]. rewrite lookup_insert_eq. cbn [truthy loads].
  destruct (String.eqb_spec
              (json_dumps rt (JObj (dict_set "updated_at" (JStr now) fields))) "");
    [done |].
  cbn [negb]. rewrite Hrt. split; [done |].
  split; [apply dict_lookup_set_eq |].
  split; [intros k Hk; by apply dict_lookup_set_ne |].
  intros other Hother. rewrite !(get_call_state_run _ _ _ _ _ Hc). cbn [value].
  unfold r_get. cbn [strs]. rewrite lookup_insert_ne; [done |].
  intros Heq. by apply call_key_inj in Heq.
Qed.

Lemma call_state_round_trip_witness :
  exists stamped,
    value (get_call_state stamping_runtime connected_service "c1"
             (store (set_call_state stamping_runtime connected_service
                       "2026-01-01T00:00:00" "c1" (JObj pending_call) empty_redis)))
    = Ret (JObj stamped)
    /\ dict_lookup "status" stamped = Some (JStr "pending").
Proof.
  destruct (call_state_round_trip stamping_runtime connected_service
              {| scan := ScanLast []; hgetall := fun _ => HgetallData ∅ |}
              "2026-01-01T00:00:00" "c1" pending_call empty_redis eq_refl)
    as (stamped & Hget & _ & Hother & _).
  { split; [discriminate | reflexivity]. }
  exists stamped. split; [exact Hget |].
  rewrite Hother; [reflexivity | discriminate].
Defined.

(** ** redis_service.py: without a connection *)

(** With no connection nothing reaches the server and nothing is read
    from it: the five commands leave it as it is, [get_call_state]
    answers [None] and [get_call_interactions] the empty list. *)
Theorem disconnected_service_is_inert (rt : runtime) (self : RedisService)
    (now call_id status : string) (state interaction : json) (d : redis) :
  client self = None ->
  store (set_call_state rt self now call_id state d) = d
  /\ get_call_state rt self call_id d = {| value := Ret JNull; store := d; events := [] |}
  /\ update_call_status rt self now call_id status d
     = {| value := Ret tt; store := d; events := [] |}
  /\ delete_call_state self call_id d = {| value := Ret tt; store := d; events := [] |}
  /\ store (log_call_interaction rt self now call_id interaction d) = d
  /\ get_call_interactions rt self call_id d
     = {| value := Ret []; store := d; events := [] |}.
Proof.
  intros Hc.
  unfold set_call_state, get_call_state, update_call_status, delete_call_state,
    log_call_interaction, get_call_interactions, get_call_state, _is_connected.
  rewrite Hc. repeat split.
  - destruct (py_setitem state "updated_at" (JStr now));
      [by rewrite bind_lift_Ret | by rewrite bind_lift_Raise].
  - destruct (py_setitem interaction "timestamp" (JStr now));
      [by rewrite bind_lift_Ret | by rewrite bind_lift_Raise].
Qed.

Lemma disconnected_service_is_inert_witness :
  store (set_call_state stamping_runtime disconnected_service
           "2026-01-01T00:00:00" "c1" (JObj pending_call) tuned_redis) = tuned_redis.
Proof.
  apply (disconnected_service_is_inert stamping_runtime disconnected_service
           "2026-01-01T00:00:00" "c1" "active" (JObj pending_call) JNull tuned_redis).
  reflexivity.
Defined.

(** ** redis_service.py: changing the status *)

(** [update_call_status] on a call that is not stored does nothing. On a
    stored call it rewrites the state with the new status and a fresh
    [updated_at], every other field as it was stored. *)
Theorem update_call_status_keeps_the_rest (rt : runtime) (self : RedisService)
    (c : redis_client) (now call_id status : string) (d : redis) :
  client self = Some c ->
  (r_get (call_key call_id) d = None ->
   update_call_status rt self now call_id status d
   = {| value := Ret tt; store := d; events := [] |})
  /\ (forall data fields,
        r_get (call_key call_id) d = Some data ->
        data <> "" ->
        json_loads rt data = Some (JObj fields) ->
        fields <> [] ->
        round_trips rt
          (JObj (dict_set "updated_at" (JStr now)
                   (dict_set "status" (JStr status) fields))) ->
        let r := update_call_status rt self now call_id status d in
        exists updated,
          value r = Ret tt
          /\ value (get_call_state rt self call_id (store r)) = Ret (JObj updated)
          /\ dict_lookup "status" updated = Some (JStr status)
          /\ dict_lookup "updated_at" updated = Some (JStr now)
          /\ (forall k, k <> "status" -> k <> "updated_at" ->
                dict_lookup k updated = dict_lookup k fields)).
Proof.
  intros Hc. split.
  - intros Hnone. unfold update_call_status.
    rewrite (bind_Ret (get_call_state rt self call_id) _ d JNull);
      rewrite (get_call_state_run _ _ _ _ _ Hc), Hnone; done.
  - intros data fields Hdata Hne Hloads Hfields Hrt r. subst r.
    unfold update_call_status.
    assert (Hget : get_call_state rt self call_id d
                   = {| value := Ret (JObj fields); store := d; events := [] |}).
    { rewrite (get_call_state_run _ _ _ _ _ Hc), Hdata. cbn [truthy loads].
      destruct (String.eqb_spec data ""); [done |]. cbn [negb]. by rewrite Hloads. }
    rewrite (bind_Ret (get_call_state rt self call_id) _ d (JObj fields));
      rewrite Hget; [| done].
    cbn [value store events py_truthy]. destruct fields as [| f fields]; [done |].
    cbn [py_setitem]. rewrite bind_lift_Ret.
    rewrite (bind_Ret (set_call_state rt self now call_id _) _ d
               (JObj (dict_set "updated_at" (JStr now)
                        (dict_set "status" (JStr status) (f :: fields)))));
      rewrite (set_call_state_run _ _ _ _ _ _ _ Hc); [| done].
    cbn [value store events ret].
    exists (dict_set "updated_at" (JStr now) (dict_set "status" (JStr status) (f :: fields))).
    split; [done |].
    rewrite (get_call_state_run _ _ _ _ _ Hc). cbn [value].
    unfold r_get. cbn [strs]. rewrite lookup_insert_eq. cbn [truthy loads].
    destruct Hrt as [Hne' Hrt].
    destruct (String.eqb_spec
                (json_dumps rt
                   (JObj (dict_set "updated_at" (JStr now)
                            (dict_set "status" (JStr status) (f :: fields))))) "");
      [done |].
    cbn [negb]. rewrite Hrt. split; [done |].
    split; [by rewrite dict_lookup_set_ne, dict_lookup_set_eq |].
    split; [apply dict_lookup_set_eq |].
    intros k Hk1 Hk2. by rewrite !dict_lookup_set_ne.
Qed.

Lemma update_call_status_keeps_the_rest_witness :
  update_call_status stamping_runtime connected_service
    "2026-01-01T00:00:00" "c1" "active" empty_redis
  = {| value := Ret tt; store := empty_redis; events := [] |}
  /\ exists updated,
       value (update_call_status status_runtime connected_service
                "2026-01-01T00:10:00" "c1" "completed" pending_redis) = Ret tt
       /\ value (get_call_state status_runtime connected_service "c1"
                   (store (update_call_status status_runtime connected_service
                             "2026-01-01T00:10:00" "c1" "completed" pending_redis)))
          = Ret (JObj updated)
       /\ dict_lookup "status" updated = Some (JStr "completed")
       /\ dict_lookup "updated_at" updated = Some (JStr "2026-01-01T00:10:00")
       /\ dict_lookup "participants" updated = Some (JArr []).
Proof.
  split.
  - apply (update_call_status_keeps_the_rest stamping_runtime connected_service
             {| scan := ScanLast []; hgetall := fun _ => HgetallData ∅ |}
             "2026-01-01T00:00:00" "c1" "active" empty_redis eq_refl).
    reflexivity.
  - destruct (proj2 (update_call_status_keeps_the_rest status_runtime connected_service
                       {| scan := ScanLast []; hgetall := fun _ => HgetallData ∅ |}
                       "2026-01-01T00:10:00" "c1" "completed" pending_redis eq_refl)
                "{pending}" pending_call)
      as (updated & Hvalue & Hget & Hstatus & Hstamp & Hrest).
    + reflexivity.
    + discriminate.
    + reflexivity.
    + discriminate.
    + split; [discriminate | reflexivity].
    + exists updated. repeat split; try assumption.
      rewrite Hrest; [reflexivity | discriminate | discriminate].
Defined.

(** ** redis_service.py: deleting a call *)

(** After [delete_call_state] the call reads as not stored; the states of
    the other calls read as before. *)
Theorem delete_call_state_forgets_one_call (rt : runtime) (self : RedisService)
    (c : redis_client) (call_id : string) (d : redis) :
  client self = Some c ->
  let d' := store (delete_call_state self call_id d) in
  value (get_call_state rt self call_id d') = Ret JNull
  /\ (forall other, other <> call_id ->
        value (get_call_state rt self other d')
        = value (get_call_state rt self other d)).
Proof.
  intros Hc d'. subst d'. unfold delete_call_state, _is_connected. rewrite Hc.
  cbn [client_delete write store]. rewrite !(get_call_state_run _ _ _ _ _ Hc).
  cbn [value]. unfold r_get. cbn [strs]. rewrite lookup_delete_eq. split; [done |].
  intros other Hother. rewrite !(get_call_state_run _ _ _ _ _ Hc). cbn [value].
  unfold r_get. cbn [strs]. rewrite lookup_delete_ne; [done |].
  intros Heq. by apply call_key_inj in Heq.
Qed.

Lemma delete_call_state_forgets_one_call_witness :
  value (get_call_state stamping_runtime connected_service "c1"
           (store (delete_call_state connected_service "c1"
                     (store (set_call_state stamping_runtime connected_service
                               "2026-01-01T00:00:00" "c1" (JObj pending_call)
                               empty_redis)))))
  = Ret JNull.
Proof.
  apply (delete_call_state_forgets_one_call stamping_runtime connected_service
           {| scan := ScanLast []; hgetall := fun _ => HgetallData ∅ |} "c1").
  reflexivity.
Defined.

(** ** redis_service.py: the log of interactions *)




(** * Properties of the search tool *)

Lemma vector_search_without_skills np py self query_embedding k :
  client self = None
  \/ (exists c, client self = Some c /\ scan_all (scan c) [] = None)
  \/ (exists c, client self = Some c /\ scan_all (scan c) [] = Some []) ->
  vector_search np py self query_embedding k = [].
Proof.
  unfold vector_search, _is_connected.
  intros [-> | [(c & -> & Hs) | (c & -> & Hs)]]; [done | |]; cbn [negb]; by rewrite Hs.
Qed.

Lemma prefix_append (a b : string) : String.prefix a (a +:+ b) = true.
Proof.
  induction a as [| ch a IH]; [by destruct b |].
  change (String ch a +:+ b) with (String ch (a +:+ b)). cbn [String.prefix].
  by destruct (Ascii.ascii_dec ch ch).
Qed.

Lemma append_empty_r (p : string) : p +:+ "" = p.
Proof.
  induction p as [| ch p IH]; [done |].
  change (String ch p +:+ "") with (String ch (p +:+ "")). by rewrite IH.
Qed.

Lemma concat_cons_append (sep p : string) (ps : list string) :
  exists tail, String.concat sep (p :: ps) = p +:+ tail.
Proof.
  destruct ps as [| p' ps]; cbn [String.concat].
  - exists "". by rewrite append_empty_r.
  - by eexists.
Qed.

(** [search_context] always answers with a text. When the embedding of
    the query fails the text reports the error; when there is no
    connection, when the scan fails or when no skill is stored, it is the
    sentence that says that nothing was found; otherwise it begins with
    the first result. *)
Theorem search_context_always_answers (np : numpy) (py : builtins)
    (fmt : formatting)
    (embed_query : string -> string + list pyfloat) (query : string) (k : Z)
    (self : RedisService) :
  let answer := search_context np py fmt embed_query query k self in
  (forall message, embed_query (replace_newlines query) = inl message ->
     answer = "Error performing search: " +:+ message)
  /\ (forall query_embedding,
        embed_query (replace_newlines query) = inr query_embedding ->
        (client self = None
         \/ (exists c, client self = Some c /\ scan_all (scan c) [] = None)
         \/ (exists c, client self = Some c /\ scan_all (scan c) [] = Some [])) ->
        answer = "No relevant context found.")
  /\ (forall query_embedding doc rest,
        embed_query (replace_newlines query) = inr query_embedding ->
        vector_search np py self query_embedding k = doc :: rest ->
        String.prefix (context_part fmt 1 doc) answer = true)
  /\ answer <> "".
Proof.
  intros answer. subst answer. unfold search_context.
  pose proof prefix_append as Hprefix.
  pose proof concat_cons_append as Hconcat.
  split; [by intros message -> |]. split; [| split].
  - intros query_embedding -> Hnone.
    by rewrite (vector_search_without_skills np py self query_embedding k Hnone).
  - intros query_embedding doc rest -> ->. cbn [imap].
    destruct (Hconcat (newline +:+ newline) (context_part fmt 1 doc)
                (imap (fun i d => context_part fmt (S (S i)) d) rest)) as [tail Htail].
    unfold compose. rewrite Htail. apply Hprefix.
  - destruct (embed_query (replace_newlines query)) as [message | query_embedding];
      [done |].
    destruct (vector_search np py self query_embedding k) as [| doc rest]; [done |].
    cbn [imap].
    destruct (Hconcat (newline +:+ newline) (context_part fmt 1 doc)
                (imap (fun i d => context_part fmt (S (S i)) d) rest)) as [tail Htail].
    unfold compose. rewrite Htail. done.
Qed.

(** * Properties of the presence handler *)

Lemma get_call_state_stored rt self c call_id fields d :
  client self = Some c ->
  stored_call rt call_id fields d ->
  get_call_state rt self call_id d
  = {| value := Ret (JObj fields); store := d; events := [] |}.
Proof.
  intros Hc (data & Hdata & Hne & Hloads & _).
  rewrite (get_call_state_run _ _ _ _ _ Hc), Hdata. cbn [truthy loads].
  destruct (String.eqb_spec data ""); [done |]. cbn [negb]. by rewrite Hloads.
Qed.

Lemma get_call_state_after_set rt self c now call_id fields d :
  client self = Some c ->
  round_trips rt (JObj (dict_set "updated_at" (JStr now) fields)) ->
  value (get_call_state rt self call_id
           (store (set_call_state rt self now call_id (JObj fields) d)))
  = Ret (JObj (dict_set "updated_at" (JStr now) fields)).
Proof.
  intros Hc [Hne Hrt].
  rewrite (set_call_state_run _ _ _ _ _ _ _ Hc). cbn [store].
  rewrite (get_call_state_run _ _ _ _ _ Hc). cbn [value].
  unfold r_get. cbn [strs]. rewrite lookup_insert_eq. cbn [truthy loads].
  destruct (String.eqb_spec
              (json_dumps rt (JObj (dict_set "updated_at" (JStr now) fields))) "");
    [done |].
  cbn [negb]. by rewrite Hrt.
Qed.

(** ** presence.py: the agent's own events *)

(** An event of the local participant (the bot itself) reads nothing and
    writes nothing, on joining as on leaving. *)
Theorem local_participant_is_ignored (rt : runtime) (self : PresenceHandler)
    (now : string) (fields : list (string * json)) (is_local : json) (d : redis) :
  participant_info (JObj fields) "isLocal" (JBool false) = Ret is_local ->
  py_truthy is_local = true ->
  on_participant_joined rt self now (JObj fields) d
  = {| value := Ret tt; store := d; events := [] |}
  /\ on_participant_left rt self now (JObj fields) d
     = {| value := Ret tt; store := d; events := [] |}.
Proof.
  intros Hlocal Htruthy. unfold on_participant_joined, on_participant_left.
  cbn [py_get]. rewrite !bind_lift_Ret.
  assert (Hname : exists n, participant_info (JObj fields) "userName" (JStr "unknown")
                            = Ret n).
  { unfold participant_info in *. cbn [py_get res_bind] in *.
    destruct (default (JObj []) (dict_lookup "info" fields)); try done.
    by eexists. }
  destruct Hname as [n ->]. rewrite !bind_lift_Ret, Hlocal, !bind_lift_Ret.
  by rewrite Htruthy.
Qed.

Lemma local_participant_is_ignored_witness :
  on_participant_joined stamping_runtime
    {| call_id := "c1"; redis_service := connected_service |}
    "2026-01-01T00:00:00"
    (JObj [("id", JStr "bot"); ("info", JObj [("isLocal", JBool true)])]) tuned_redis
  = {| value := Ret tt; store := tuned_redis; events := [] |}.
Proof.
  apply (local_participant_is_ignored stamping_runtime
           {| call_id := "c1"; redis_service := connected_service |}
           "2026-01-01T00:00:00"
           [("id", JStr "bot"); ("info", JObj [("isLocal", JBool true)])]
           (JBool true) tuned_redis);
    reflexivity.
Defined.

(** ** presence.py: a participant joins *)

Lemma participant_info_dict fields field dflt v :
  participant_info (JObj fields) "isLocal" (JBool false) = Ret v ->
  exists w, participant_info (JObj fields) field dflt = Ret w.
Proof.
  unfold participant_info. cbn [py_get res_bind].
  destruct (default (JObj []) (dict_lookup "info" fields)); try done.
  by eexists.
Qed.

Lemma py_truthy_fields (fields : list (string * json)) :
  fields <> [] -> py_truthy (JObj fields) = true.
Proof. by destruct fields. Qed.

(** The run of [on_participant_joined] for a remote participant on a
    stored call. *)
Lemma on_participant_joined_run rt self c now pf is_local fields items status d :
  client (redis_service self) = Some c ->
  participant_info (JObj pf) "isLocal" (JBool false) = Ret is_local ->
  py_truthy is_local = false ->
  stored_call rt (call_id self) fields d ->
  py_get (JObj fields) "participants" (JArr []) = Ret (JArr items) ->
  dict_lookup "status" fields = Some status ->
  on_participant_joined rt self now (JObj pf) d
  = {| value := Ret tt;
       store := store (set_call_state rt (redis_service self) now (call_id self)
                         (JObj (joined_fields (default (JStr "unknown")
                                                 (dict_lookup "id" pf))
                                  items status fields)) d);
       events := [] |}.
Proof.
  intros Hc Hlocal Hfalsy Hstored Hparts Hstatus.
  pose proof Hstored as (_ & _ & _ & _ & Hfields).
  unfold on_participant_joined. cbn [py_get]. rewrite bind_lift_Ret.
  destruct (participant_info_dict pf "userName" (JStr "unknown") _ Hlocal) as [n ->].
  rewrite bind_lift_Ret, Hlocal, bind_lift_Ret, Hfalsy.
  rewrite (bind_Ret (get_call_state rt (redis_service self) (call_id self)) _ d
             (JObj fields));
    rewrite (get_call_state_stored _ _ _ _ _ _ Hc Hstored); [| done].
  cbn [value store events]. rewrite (py_truthy_fields _ Hfields).
  rewrite Hparts, bind_lift_Ret. cbn [py_in]. rewrite bind_lift_Ret.
  unfold joined_fields.
  set (pid := default (JStr "unknown") (dict_lookup "id" pf)).
  set (fields1 := if existsb (py_eq pid) items then fields
                  else dict_set "participants" (JArr (items ++ [pid])) fields).
  assert (Hstatus1 : dict_lookup "status" fields1 = Some status).
  { subst fields1. destruct (existsb (py_eq pid) items); [done |].
    by rewrite dict_lookup_set_ne. }
  set (fields2 := if py_eq_str status "pending"
                  then dict_set "status" (JStr "active") fields1 else fields1).
  assert (Hupdated :
    (if existsb (py_eq pid) items
     then ret (JObj fields, JArr items)
     else (state <- lift (py_setitem (JObj fields) "participants"
                            (JArr (items ++ [pid])));;
           ret (state, JArr (items ++ [pid])))) d
    = {| value := Ret (JObj fields1,
                       JArr (if existsb (py_eq pid) items then items
                             else items ++ [pid]));
         store := d; events := [] |}).
  { subst fields1. destruct (existsb (py_eq pid) items); [done |].
    cbn [py_setitem]. by rewrite bind_lift_Ret. }
  rewrite (bind_Ret _ _ d _ (f_equal value Hupdated)), Hupdated.
  cbn [value store events py_get]. rewrite Hstatus1. cbn [default from_option id].
  rewrite bind_lift_Ret.
  assert (Hstate2 :
    (if py_eq_str status "pending"
     then lift (py_setitem (JObj fields1) "status" (JStr "active"))
     else ret (JObj fields1)) d
    = {| value := Ret (JObj fields2); store := d; events := [] |}).
  { subst fields2. by destruct (py_eq_str status "pending"). }
  rewrite (bind_Ret _ _ d _ (f_equal value Hstate2)), Hstate2.
  cbn [value store events].
  rewrite (bind_Ret (set_call_state rt (redis_service self) now (call_id self) _) _ d
             (JObj (dict_set "updated_at" (JStr now) fields2)));
    rewrite (set_call_state_run _ _ _ _ _ _ _ Hc); [| done].
  cbn [value store events]. cbn [py_len_is_zero]. rewrite bind_lift_Ret.
  cbn [py_subscript]. rewrite dict_lookup_set_ne; [| done].
  assert (Hstatus2 : is_Some (dict_lookup "status" fields2)).
  { subst fields2. destruct (py_eq_str status "pending");
      [rewrite dict_lookup_set_eq | rewrite Hstatus1]; by eexists. }
  destruct Hstatus2 as [s2 ->]. by rewrite bind_lift_Ret.
Qed.

(** When a remote participant joins a stored call, the stored state
    afterwards lists the participant, once: added at the end when absent,
    the list untouched when present. A pending call becomes active, every
    other status stays, and every other field is as it was. *)
Theorem participant_joins (rt : runtime) (self : PresenceHandler) (c : redis_client)
    (now : string) (pf : list (string * json)) (is_local : json)
    (fields : list (string * json)) (items : list json) (status : json) (d : redis) :
  client (redis_service self) = Some c ->
  participant_info (JObj pf) "isLocal" (JBool false) = Ret is_local ->
  py_truthy is_local = false ->
  stored_call rt (call_id self) fields d ->
  dict_lookup "participants" fields = Some (JArr items) ->
  dict_lookup "status" fields = Some status ->
  let participant_id := default (JStr "unknown") (dict_lookup "id" pf) in
  round_trips rt (JObj (dict_set "updated_at" (JStr now)
                          (joined_fields participant_id items status fields))) ->
  let r := on_participant_joined rt self now (JObj pf) d in
  exists updated,
    value r = Ret tt
    /\ value (get_call_state rt (redis_service self) (call_id self) (store r))
       = Ret (JObj updated)
    /\ dict_lookup "participants" updated
       = Some (JArr (if existsb (py_eq participant_id) items then items
                     else items ++ [participant_id]))
    /\ dict_lookup "status" updated
       = Some (if py_eq_str status "pending" then JStr "active" else status)
    /\ (forall k, k <> "participants" -> k <> "status" -> k <> "updated_at" ->
          dict_lookup k updated = dict_lookup k fields).
Proof.
  intros Hc Hlocal Hfalsy Hstored Hparts Hstatus participant_id Hrt r. subst r.
  assert (Hget : py_get (JObj fields) "participants" (JArr []) = Ret (JArr items))
    by (cbn [py_get]; by rewrite Hparts).
  rewrite (on_participant_joined_run _ _ _ _ _ _ _ _ _ _ Hc Hlocal Hfalsy Hstored
             Hget Hstatus).
  fold participant_id. cbn [value store].
  exists (dict_set "updated_at" (JStr now)
            (joined_fields participant_id items status fields)).
  split; [done |]. split; [by apply (get_call_state_after_set _ _ c) |].
  unfold joined_fields.
  destruct (existsb (py_eq participant_id) items), (py_eq_str status "pending");
    repeat split;
    try (intros k Hk1 Hk2 Hk3);
    rewrite ?dict_lookup_set_eq;
    repeat first [ rewrite dict_lookup_set_eq
                 | rewrite dict_lookup_set_ne; [| done] ];
    done.
Qed.

Lemma participant_joins_witness :
  exists updated,
    value (on_participant_joined presence_runtime sample_handler
             "2026-01-01T00:00:01" (JObj remote_participant) pending_redis) = Ret tt
    /\ dict_lookup "participants" updated = Some (JArr [JStr "p1"])
    /\ dict_lookup "status" updated = Some (JStr "active").
Proof.
  destruct (participant_joins presence_runtime sample_handler
              {| scan := ScanLast []; hgetall := fun _ => HgetallData ∅ |}
              "2026-01-01T00:00:01" remote_participant (JBool false)
              pending_call [] (JStr "pending") pending_redis
              eq_refl eq_refl eq_refl)
    as (updated & Hvalue & _ & Hparticipants & Hstatus & _).
  - exists "{pending}". repeat split; [discriminate | discriminate].
  - reflexivity.
  - reflexivity.
  - split; [discriminate | reflexivity].
  - exists updated. repeat split; assumption.
Defined.

(** ** presence.py: a participant leaves *)

(** The run of [on_participant_left] for a remote participant on a stored
    call. *)
Lemma on_participant_left_run rt self c now pf is_local fields items status d :
  client (redis_service self) = Some c ->
  participant_info (JObj pf) "isLocal" (JBool false) = Ret is_local ->
  py_truthy is_local = false ->
  stored_call rt (call_id self) fields d ->
  py_get (JObj fields) "participants" (JArr []) = Ret (JArr items) ->
  dict_lookup "status" fields = Some status ->
  on_participant_left rt self now (JObj pf) d
  = {| value := Ret tt;
       store := store (set_call_state rt (redis_service self) now (call_id self)
                         (JObj (left_fields (default (JStr "unknown")
                                               (dict_lookup "id" pf))
                                  items status fields)) d);
       events := [] |}.
Proof.
  intros Hc Hlocal Hfalsy Hstored Hparts Hstatus.
  pose proof Hstored as (_ & _ & _ & _ & Hfields).
  unfold on_participant_left. cbn [py_get]. rewrite bind_lift_Ret.
  destruct (participant_info_dict pf "userName" (JStr "unknown") _ Hlocal) as [n ->].
  rewrite bind_lift_Ret, Hlocal, bind_lift_Ret, Hfalsy.
  rewrite (bind_Ret (get_call_state rt (redis_service self) (call_id self)) _ d
             (JObj fields));
    rewrite (get_call_state_stored _ _ _ _ _ _ Hc Hstored); [| done].
  cbn [value store events]. rewrite (py_truthy_fields _ Hfields).
  rewrite Hparts, bind_lift_Ret. cbn [py_in]. rewrite bind_lift_Ret.
  unfold left_fields.
  set (pid := default (JStr "unknown") (dict_lookup "id" pf)).
  set (remaining := if existsb (py_eq pid) items then remove_first pid items
                    else items).
  set (fields1 := if existsb (py_eq pid) items
                  then dict_set "participants" (JArr remaining) fields else fields).
  assert (Hstatus1 : dict_lookup "status" fields1 = Some status).
  { subst fields1. destruct (existsb (py_eq pid) items); [| done].
    by rewrite dict_lookup_set_ne. }
  assert (Hupdated :
    (if existsb (py_eq pid) items
     then (state <- lift (py_setitem (JObj fields) "participants"
                            (JArr (remove_first pid items)));;
           ret (state, JArr (remove_first pid items)))
     else ret (JObj fields, JArr items)) d
    = {| value := Ret (JObj fields1, JArr remaining); store := d; events := [] |}).
  { subst fields1 remaining. destruct (existsb (py_eq pid) items); [| done].
    cbn [py_setitem]. by rewrite bind_lift_Ret. }
  rewrite (bind_Ret _ _ d _ (f_equal value Hupdated)), Hupdated.
  cbn [value store events py_len_is_zero]. rewrite bind_lift_Ret.
  set (fields2 := match remaining with
                  | [] => if py_eq_str status "active"
                          then dict_set "status" (JStr "waiting") fields1
                          else fields1
                  | _ :: _ => fields1
                  end).
  assert (Hstate2 :
    (if match remaining with [] => true | _ :: _ => false end
     then status <- lift (py_get (JObj fields1) "status" JNull);;
          if py_eq_str status "active"
          then lift (py_setitem (JObj fields1) "status" (JStr "waiting"))
          else ret (JObj fields1)
     else ret (JObj fields1)) d
    = {| value := Ret (JObj fields2); store := d; events := [] |}).
  { subst fields2. destruct remaining; [| done].
    cbn [py_get]. rewrite Hstatus1. cbn [default from_option id].
    rewrite bind_lift_Ret. by destruct (py_eq_str status "active"). }
  rewrite (bind_Ret _ _ d _ (f_equal value Hstate2)), Hstate2.
  cbn [value store events].
  rewrite (bind_Ret (set_call_state rt (redis_service self) now (call_id self) _) _ d
             (JObj (dict_set "updated_at" (JStr now) fields2)));
    rewrite (set_call_state_run _ _ _ _ _ _ _ Hc); done.
Qed.

(** When a remote participant leaves a stored call, the stored state
    afterwards lists the others: the first entry of the participant is
    taken off, a participant who was not listed changes nothing in the
    list. An active call with nobody left waits, every other status
    stays, and every other field is as it was. *)
Theorem participant_leaves (rt : runtime) (self : PresenceHandler) (c : redis_client)
    (now : string) (pf : list (string * json)) (is_local : json)
    (fields : list (string * json)) (items : list json) (status : json) (d : redis) :
  client (redis_service self) = Some c ->
  participant_info (JObj pf) "isLocal" (JBool false) = Ret is_local ->
  py_truthy is_local = false ->
  stored_call rt (call_id self) fields d ->
  dict_lookup "participants" fields = Some (JArr items) ->
  dict_lookup "status" fields = Some status ->
  let participant_id := default (JStr "unknown") (dict_lookup "id" pf) in
  round_trips rt (JObj (dict_set "updated_at" (JStr now)
                          (left_fields participant_id items status fields))) ->
  let r := on_participant_left rt self now (JObj pf) d in
  let remaining := if existsb (py_eq participant_id) items
                   then remove_first participant_id items else items in
  exists updated,
    value r = Ret tt
    /\ value (get_call_state rt (redis_service self) (call_id self) (store r))
       = Ret (JObj updated)
    /\ dict_lookup "participants" updated = Some (JArr remaining)
    /\ dict_lookup "status" updated
       = Some (match remaining with
               | [] => if py_eq_str status "active" then JStr "waiting" else status
               | _ :: _ => status
               end)
    /\ (forall k, k <> "participants" -> k <> "status" -> k <> "updated_at" ->
          dict_lookup k updated = dict_lookup k fields).
Proof.
  intros Hc Hlocal Hfalsy Hstored Hparts Hstatus participant_id Hrt r remaining.
  subst r.
  assert (Hget : py_get (JObj fields) "participants" (JArr []) = Ret (JArr items))
    by (cbn [py_get]; by rewrite Hparts).
  rewrite (on_participant_left_run _ _ _ _ _ _ _ _ _ _ Hc Hlocal Hfalsy Hstored
             Hget Hstatus).
  fold participant_id. cbn [value store].
  exists (dict_set "updated_at" (JStr now)
            (left_fields participant_id items status fields)).
  split; [done |]. split; [by apply (get_call_state_after_set _ _ c) |].
  unfold left_fields. fold remaining.
  assert (Hlisted : dict_lookup "participants"
                      (if existsb (py_eq participant_id) items
                       then dict_set "participants" (JArr remaining) fields
                       else fields) = Some (JArr remaining)).
  { subst remaining. destruct (existsb (py_eq participant_id) items); [| done].
    apply dict_lookup_set_eq. }
  assert (Hkept : forall k, k <> "participants" ->
            dict_lookup k (if existsb (py_eq participant_id) items
                           then dict_set "participants" (JArr remaining) fields
                           else fields) = dict_lookup k fields).
  { intros k Hk. destruct (existsb (py_eq participant_id) items); [| done].
    by apply dict_lookup_set_ne. }
  destruct remaining as [| item rest]; [destruct (py_eq_str status "active") |];
    repeat split;
    try (intros k Hk1 Hk2 Hk3);
    repeat first [ rewrite dict_lookup_set_eq
                 | rewrite dict_lookup_set_ne; [| done] ];
    rewrite ?Hkept by done; done.
Qed.

Lemma participant_leaves_witness :
  exists updated,
    value (on_participant_left presence_runtime sample_handler
             "2026-01-01T00:00:02" (JObj remote_participant) active_redis) = Ret tt
    /\ dict_lookup "participants" updated = Some (JArr [])
    /\ dict_lookup "status" updated = Some (JStr "waiting").
Proof.
  destruct (participant_leaves presence_runtime sample_handler
              {| scan := ScanLast []; hgetall := fun _ => HgetallData ∅ |}
              "2026-01-01T00:00:02" remote_participant (JBool false)
              active_call [JStr "p1"] (JStr "active") active_redis
              eq_refl eq_refl eq_refl)
    as (updated & Hvalue & _ & Hparticipants & Hstatus & _).
  - exists "{active}". repeat split; [discriminate | discriminate].
  - reflexivity.
  - reflexivity.
  - split; [discriminate | reflexivity].
  - exists updated. repeat split; assumption.
Defined.

(** ** presence.py: the end of a call *)

#[local] Instance keeps_calls_preorder : PreOrder keeps_calls.
Proof.
  split; [done |]. intros d1 d2 d3 [H1 H2] [H3 H4]. split; [congruence |].
  intros call_id. by rewrite H4.
Qed.

Lemma call_key_not_prompt call_id segment_key :
  segment_prompt_key segment_key <> call_key call_id.
Proof. done. Qed.

Lemma frames_swallow (R : redis -> redis -> Prop) (P : event -> Prop) (body : M unit) :
  frames R P body -> frames R P (swallow body).
Proof. intros Hbody d. exact (Hbody d). Qed.

Ltac keeps_step :=
  first
    [ apply frames_rpush; [exact I | by intros ?]
    | apply frames_set;
        [exact I
        | intros ?; split; [done |]; intros ?; cbn [strs];
          by rewrite lookup_insert_ne by apply call_key_not_prompt]
    | apply frames_emit; exact I
    | frames_step ].

(** The optimiser touches neither a skill nor the state of a call. *)
Lemma optimize_and_verify_keeps_calls rt gw segment_key transcript outcome :
  frames keeps_calls not_hset (optimize_and_verify rt gw segment_key transcript outcome).
Proof.
  unfold optimize_and_verify.
  apply frames_bind; [by apply frames_emit |]. intros _.
  apply frames_bind.
  - eapply frames_weaken; [| | apply generate_and_score_frames].
    + intros d d' [Hs Hh]. split; [done |]. intros call_id. by rewrite Hs.
    + by intros [].
  - intros [c avg]. repeat keeps_step.
Qed.

(** A call processed for the AI agent touches neither a skill nor the
    state of a call. *)
Lemma process_call_outcome_agent_keeps_calls rt gw transcript outcome country industry :
  frames keeps_calls not_hset
    (process_call_outcome rt gw transcript "AI_AGENT" outcome country industry).
Proof.
  unfold process_call_outcome, router.
  change (String.eqb "AI_AGENT" "HUMAN_MANAGER") with false.
  change (String.eqb "AI_AGENT" "AI_AGENT") with true.
  cbv zeta. cbn [andb].
  repeat first [apply optimize_and_verify_keeps_calls | keeps_step].
Qed.

Ltac skills_step :=
  first
    [ match goal with
      | |- frames _ _ (write _) => apply frames_write; by intros ?
      | |- frames _ _ (swallow _) => apply frames_swallow
      | |- frames _ _ (process_call_outcome _ _ _ _ _ _ _) =>
          eapply frames_weaken;
            [| | apply process_call_outcome_agent_keeps_calls];
            [by intros ? ? [? _] | done]
      end
    | frames_step ].

Lemma set_call_state_same_skills rt self now call_id state :
  frames same_skills not_hset (set_call_state rt self now call_id state).
Proof. unfold set_call_state, client_set. repeat skills_step. Qed.

Lemma get_call_state_same_skills rt self call_id :
  frames same_skills not_hset (get_call_state rt self call_id).
Proof. unfold get_call_state. repeat skills_step. Qed.

Lemma get_call_interactions_same_skills rt self call_id :
  frames same_skills not_hset (get_call_interactions rt self call_id).
Proof. unfold get_call_interactions. repeat skills_step. Qed.

(** The end of a call never teaches: whatever the call held and whatever
    the models answer, [on_call_ended] leaves every skill as it was and
    issues no [hset], since its learning pass speaks as the AI agent. *)
Theorem call_ended_never_teaches (rt : runtime) (gw : gateway) (fmt : formatting)
    (self : PresenceHandler) (now later : string) (d : redis) :
  let r := on_call_ended rt gw fmt self now later d in
  hashes (store r) = hashes d /\ Forall not_hset (events r).
Proof.
  assert (Hframes : frames same_skills not_hset
                      (on_call_ended rt gw fmt self now later)).
  { unfold on_call_ended, _process_call_for_learning.
    repeat first [ apply set_call_state_same_skills
                 | apply get_call_state_same_skills
                 | apply get_call_interactions_same_skills
                 | skills_step ]. }
  exact (Hframes d).
Qed.

Lemma get_call_state_store rt self call_id d :
  store (get_call_state rt self call_id d) = d.
Proof.
  unfold get_call_state. destruct (_is_connected self); [| done].
  rewrite bind_read. by destruct (truthy (r_get (call_key call_id) d)).
Qed.

Lemma set_call_state_lists rt self now call_id state d :
  lists (store (set_call_state rt self now call_id state d)) = lists d.
Proof.
  unfold set_call_state.
  destruct (py_setitem state "updated_at" (JStr now));
    [rewrite bind_lift_Ret | by rewrite bind_lift_Raise].
  by destruct (_is_connected self).
Qed.

(** [get_call_interactions] reads the lists and nothing else. *)
Lemma get_call_interactions_run rt self call_id d d' :
  lists d' = lists d ->
  get_call_interactions rt self call_id d'
  = {| value := value (get_call_interactions rt self call_id d);
       store := d'; events := [] |}.
Proof.
  intros Hlists. unfold get_call_interactions.
  destruct (_is_connected self); [| done].
  rewrite !bind_read. unfold r_lrange_all. rewrite Hlists.
  by destruct (loads_all rt _).
Qed.

Lemma _process_call_for_learning_without_speech rt gw fmt self later state d d' :
  lists d' = lists d ->
  (forall interactions parts,
     value (get_call_interactions rt (redis_service self) (call_id self) d)
     = Ret interactions ->
     transcript_parts fmt interactions = Ret parts -> parts = []) ->
  _process_call_for_learning rt gw fmt self later state d'
  = {| value := Ret tt; store := d'; events := [] |}.
Proof.
  intros Hlists Hquiet. unfold _process_call_for_learning, swallow.
  pose proof (get_call_interactions_run rt (redis_service self) (call_id self) d d'
                Hlists) as Hrun.
  destruct (value (get_call_interactions rt (redis_service self) (call_id self) d))
    as [interactions | e] eqn:Hvalue.
  - rewrite (bind_Ret _ _ d' interactions) by (by rewrite Hrun).
    rewrite Hrun. cbn [value store events].
    destruct interactions as [| interaction rest]; [done |].
    destruct (transcript_parts fmt (interaction :: rest)) as [parts | e] eqn:Hparts.
    + rewrite bind_lift_Ret. by rewrite (Hquiet _ parts eq_refl Hparts).
    + by rewrite bind_lift_Raise.
  - rewrite (bind_Raise _ _ d' e) by (by rewrite Hrun).
    by rewrite Hrun.
Qed.

(** When the log of a call holds no speech (no interaction at all, or
    none of a customer or of the agent), the end of the call is
    [update_call_status] with [completed] and nothing more: no transcript
    is built and no model is asked. *)
Theorem call_ended_without_speech (rt : runtime) (gw : gateway) (fmt : formatting)
    (self : PresenceHandler) (now later : string) (d : redis) :
  (forall interactions parts,
     value (get_call_interactions rt (redis_service self) (call_id self) d)
     = Ret interactions ->
     transcript_parts fmt interactions = Ret parts -> parts = []) ->
  on_call_ended rt gw fmt self now later d
  = update_call_status rt (redis_service self) now (call_id self) "completed" d.
Proof.
  intros Hquiet. unfold on_call_ended, update_call_status.
  apply bind_ext. intros state _. rewrite get_call_state_store.
  destruct (py_truthy state); [| done].
  destruct (py_setitem state "status" (JStr "completed")) as [state1 | e];
    [rewrite !bind_lift_Ret | by rewrite !bind_lift_Raise].
  apply bind_ext. intros state2 _.
  apply (_process_call_for_learning_without_speech rt gw fmt self later state2 d).
  - apply set_call_state_lists.
  - exact Hquiet.
Qed.

Lemma call_ended_without_speech_witness :
  on_call_ended presence_runtime sample_gateway sample_formatting sample_handler
    "2026-01-01T00:00:03" "2026-01-01T00:00:04" active_redis
  = update_call_status presence_runtime connected_service
      "2026-01-01T00:00:03" "c1" "completed" active_redis.
Proof.
  apply (call_ended_without_speech presence_runtime sample_gateway sample_formatting
           sample_handler "2026-01-01T00:00:03" "2026-01-01T00:00:04" active_redis).
  intros interactions parts [= <-] [= <-]. reflexivity.
Defined.




(** * Properties of the agent's system prompt *)

Lemma get_prompt_for_segment_strs country industry d d' :
  strs d' = strs d ->
  get_prompt_for_segment country industry d' = get_prompt_for_segment country industry d.
Proof. intros Hstrs. unfold get_prompt_for_segment, r_get. by rewrite Hstrs. Qed.

Lemma system_prompt_text_opens fmt instructions context person_name company_name :
  String.prefix instructions
    (system_prompt_text fmt instructions context person_name company_name) = true.
Proof.
  unfold system_prompt_text.
  match goal with
  | |- context [String.concat newline (instructions :: ?rest)] =>
      destruct (concat_cons_append newline instructions rest) as [tail ->]
  end.
  apply prefix_append.
Qed.

(** The loop closes. Once the optimiser has accepted a candidate for a
    segment (a candidate that is neither empty nor the literal default),
    the system prompt of the next agent of that segment is that candidate
    followed by the research block and the rules of the call; the text
    opens with the candidate. *)
Theorem accepted_candidate_opens_system_prompt (rt : runtime) (gw : gateway)
    (fmt : formatting) (transcript country industry : string) (outcome : json)
    (d : redis) (candidate : string) (mean : pyfloat)
    (research person_name company_name : json) :
  candidate_and_mean rt gw (country +:+ ":" +:+ industry) transcript outcome d
  = Ret (candidate, mean) ->
  fge mean float_0_5 = true ->
  candidate <> "" ->
  candidate <> "You are a helpful sales agent." ->
  let r := optimize_and_verify rt gw (country +:+ ":" +:+ industry) transcript outcome d in
  let prompt := get_system_prompt fmt (JStr country) (JStr industry) research
                  person_name company_name (store r) in
  prompt = res_bind (research_context fmt research person_name company_name)
             (fun context =>
                Ret (system_prompt_text fmt candidate context person_name company_name))
  /\ (forall text, prompt = Ret text -> String.prefix candidate text = true).
Proof.
  intros Hcm Hge Hne Hdefault r prompt.
  assert (Hserved : get_prompt_for_segment country industry (store r) = candidate).
  { subst r. rewrite optimize_and_verify_run. cbv zeta.
    unfold candidate_and_mean in Hcm.
    destruct (value (generate_and_score rt gw (country +:+ ":" +:+ industry)
                       transcript outcome d)) as [[c avg] | e]; [| done].
    destruct (as_number avg) as [m |]; [| done]. injection Hcm as -> ->.
    rewrite Hge. cbn [store].
    rewrite get_prompt_for_segment_chain. unfold resolve_by_precedence, stored, r_get.
    rewrite after_set_lookup. by destruct (String.eqb_spec candidate ""). }
  assert (Hprompt :
    prompt = res_bind (research_context fmt research person_name company_name)
               (fun context =>
                  Ret (system_prompt_text fmt candidate context
                         person_name company_name))).
  { subst prompt. unfold get_system_prompt. cbn [py_format]. rewrite Hserved.
    unfold sales_instructions.
    destruct (String.eqb_spec candidate ""); [done |].
    by destruct (String.eqb_spec candidate "You are a helpful sales agent."). }
  split; [exact Hprompt |].
  intros text. rewrite Hprompt.
  destruct (research_context fmt research person_name company_name) as [context | e];
    [| done].
  cbn [res_bind]. intros [= <-]. apply system_prompt_text_opens.
Qed.

Lemma accepted_candidate_opens_system_prompt_witness :
  get_system_prompt sample_formatting (JStr "US") (JStr "general") JNull JNull JNull
    (store (optimize_and_verify sample_runtime sample_gateway ("US" +:+ ":" +:+ "general")
              "Customer: It is too expensive." (JStr "LOST_DEAL") tuned_redis))
  = Ret (system_prompt_text sample_formatting "Answer price objections with ROI." ""
           JNull JNull).
Proof.
  apply (accepted_candidate_opens_system_prompt sample_runtime sample_gateway
           sample_formatting "Customer: It is too expensive." "US" "general"
           (JStr "LOST_DEAL") tuned_redis "Answer price objections with ROI."
           (Finite (1 # 2)) JNull JNull JNull);
    [reflexivity | reflexivity | discriminate | discriminate].
Defined.

(** A run of the optimiser that does not pass the gate (the candidate is
    rejected, or the run fails before the gate) changes the system prompt
    of no segment. *)
Theorem rejected_candidate_changes_no_system_prompt (rt : runtime) (gw : gateway)
    (fmt : formatting) (segment_key transcript : string) (outcome : json) (d : redis) :
  (forall candidate mean,
     candidate_and_mean rt gw segment_key transcript outcome d = Ret (candidate, mean) ->
     fge mean float_0_5 = false) ->
  let r := optimize_and_verify rt gw segment_key transcript outcome d in
  forall country industry research person_name company_name,
    get_system_prompt fmt country industry research person_name company_name (store r)
    = get_system_prompt fmt country industry research person_name company_name d.
Proof.
  intros Hrejected r country industry research person_name company_name.
  assert (Hstrs : strs (store r) = strs d).
  { subst r. rewrite optimize_and_verify_run. cbv zeta.
    destruct (generate_and_score_frames rt gw segment_key transcript outcome d)
      as [[Hstrs _] _].
    unfold candidate_and_mean in Hrejected.
    destruct (value (generate_and_score rt gw segment_key transcript outcome d))
      as [[c avg] | e]; [| done].
    destruct (as_number avg) as [m |]; [| done].
    by rewrite (Hrejected c m eq_refl). }
  unfold get_system_prompt.
  by rewrite (get_prompt_for_segment_strs _ _ d (store r) Hstrs).
Qed.

Lemma rejected_candidate_changes_no_system_prompt_witness :
  get_system_prompt sample_formatting (JStr "US") (JStr "general") JNull JNull JNull
    (store (optimize_and_verify sample_runtime strict_gateway "US:general"
              "Customer: It is too expensive." (JStr "LOST_DEAL") tuned_redis))
  = get_system_prompt sample_formatting (JStr "US") (JStr "general") JNull JNull JNull
      tuned_redis.
Proof.
  apply (rejected_candidate_changes_no_system_prompt sample_runtime strict_gateway
           sample_formatting "US:general" "Customer: It is too expensive."
           (JStr "LOST_DEAL") tuned_redis).
  intros candidate mean [= <- <-]. reflexivity.
Defined.

(** * Properties of the transcript logger *)

Lemma append_empty_l (p : string) : "" +:+ p = p.
Proof. done. Qed.

Lemma concat_empty_cons (w : string) (ws : list string) :
  String.concat "" (w :: ws) = w +:+ String.concat "" ws.
Proof.
  destruct ws as [| w' ws]; cbn [String.concat]; [by rewrite append_empty_r | done].
Qed.

Lemma append_eq_empty (a b : string) : a +:+ b = "" -> a = "" /\ b = "".
Proof. destruct a; [done |]. by change (String a a0 +:+ b) with (String a (a0 +:+ b)). Qed.

Lemma concat_empty_filter (ws : list string) :
  String.concat "" (List.filter (fun w => negb (String.eqb w "")) ws)
  = String.concat "" ws.
Proof.
  induction ws as [| w ws IH]; [done |]. cbn [List.filter].
  destruct (String.eqb_spec w "") as [-> | Hne]; cbn [negb].
  - by rewrite IH, concat_empty_cons.
  - by rewrite !concat_empty_cons, IH.
Qed.

Lemma concat_empty_nil (ws : list string) :
  List.filter (fun w => negb (String.eqb w "")) ws = [] <-> String.concat "" ws = "".
Proof.
  induction ws as [| w ws IH]; [done |]. cbn [List.filter]. rewrite concat_empty_cons.
  destruct (String.eqb_spec w "") as [-> | Hne]; cbn [negb].
  - by rewrite IH.
  - split; [done |]. intros H. by apply append_eq_empty in H as [? _].
Qed.

Lemma log_call_interaction_run rt self c now call_id kind text d :
  client self = Some c ->
  log_call_interaction rt self now call_id (JObj [("type", JStr kind); ("text", JStr text)]) d
  = {| value := Ret (utterance kind text now);
       store := {| strs := strs d; hashes := hashes d;
                   lists := <[interactions_key call_id :=
                                r_lrange_all (interactions_key call_id) d
                                ++ [json_dumps rt (utterance kind text now)]]> (lists d) |};
       events := [] |}.
Proof.
  intros Hc. unfold log_call_interaction, _is_connected. rewrite Hc.
  cbn [py_setitem]. by rewrite bind_lift_Ret.
Qed.

(** Text frames only lengthen the buffer of the agent's logger. *)
Lemma process_frames_words rt self timed_words rest d :
  TranscriptLogger.role self = "assistant" ->
  process_frames rt self (map (fun tw => (tw.1, TextFrame tw.2)) timed_words ++ rest) d
  = process_frames rt
      (TranscriptLogger.with_buffer self
         (TranscriptLogger.assistant_buffer self
          ++ List.filter (fun w => negb (String.eqb w "")) timed_words.*2))
      rest d.
Proof.
  revert self. induction timed_words as [| [now w] timed_words IH]; intros self Hrole.
  - cbn [map app fmap list_fmap List.filter]. rewrite app_nil_r. by destruct self.
  - cbn [map app fmap list_fmap List.filter process_frames fst snd].
    unfold TranscriptLogger.process_frame at 1. rewrite Hrole.
    change (String.eqb "assistant" "assistant") with true. cbv iota.
    destruct (String.eqb_spec w "") as [-> | Hne]; cbn [negb].
    + rewrite (bind_Ret (ret self) _ d self eq_refl). cbn [ret value store events app].
      rewrite (IH self Hrole). by rewrite run_eta.
    + rewrite (bind_Ret (ret _) _ d _ eq_refl). cbn [ret value store events app].
      rewrite IH by done. cbn [TranscriptLogger.with_buffer
                                 TranscriptLogger.assistant_buffer
                                 TranscriptLogger.role TranscriptLogger.call_id
                                 TranscriptLogger.redis_service].
      rewrite <- app_assoc. cbn [app]. by rewrite run_eta.
Qed.

(** The words of the agent are logged as one utterance. Text frames that
    reach the agent's logger with an empty buffer, followed by the end of
    the response, log the words joined and stripped, once, after what the
    log held, and leave the buffer empty; words that join or strip to
    nothing log nothing. *)
Theorem assistant_words_are_logged_as_one (rt : runtime) (self : TranscriptLogger.t)
    (c : redis_client) (timed_words : list (string * string)) (now : string)
    (d : redis) :
  TranscriptLogger.role self = "assistant" ->
  TranscriptLogger.assistant_buffer self = [] ->
  client (TranscriptLogger.redis_service self) = Some c ->
  let response := String.concat "" timed_words.*2 in
  let spoken := str_strip rt response in
  let key := interactions_key (TranscriptLogger.call_id self) in
  let r := process_frames rt self
             (map (fun tw => (tw.1, TextFrame tw.2)) timed_words
              ++ [(now, LLMFullResponseEndFrame)]) d in
  (exists self', value r = Ret self' /\ TranscriptLogger.assistant_buffer self' = [])
  /\ r_lrange_all key (store r)
     = r_lrange_all key d
       ++ (if negb (String.eqb response "") && negb (String.eqb spoken "")
           then [json_dumps rt (utterance "assistant_speech" spoken now)]
           else []).
Proof.
  intros Hrole Hbuffer Hc response spoken key r. subst r.
  rewrite (process_frames_words rt self timed_words _ d Hrole), Hbuffer.
  cbn [app process_frames].
  unfold TranscriptLogger.process_frame.
  cbn [TranscriptLogger.with_buffer TranscriptLogger.assistant_buffer
         TranscriptLogger.role TranscriptLogger.call_id TranscriptLogger.redis_service].
  rewrite Hrole. change (String.eqb "assistant" "assistant") with true. cbv iota.
  pose proof (concat_empty_nil timed_words.*2) as Hnil.
  pose proof (concat_empty_filter timed_words.*2) as Hconcat. fold response in Hnil, Hconcat.
  destruct (List.filter (fun w => negb (String.eqb w "")) timed_words.*2)
    as [| w ws] eqn:Hfilter.
  - rewrite (proj1 Hnil eq_refl). cbn [String.eqb negb andb].
    rewrite (bind_Ret (ret _) _ d _ eq_refl). cbn [ret value store events].
    rewrite app_nil_r. split; [by eexists |]. done.
  - destruct (String.eqb_spec response "") as [Hempty | Hfull];
      [by apply Hnil in Hempty |].
    cbn [negb andb]. rewrite Hconcat. fold spoken.
    destruct (String.eqb_spec spoken "") as [Hsilent | Hspoken]; cbn [negb].
    + unfold bind, ret. cbn [value store events].
      rewrite app_nil_r. split; [by eexists |]. done.
    + match goal with
      | |- context [log_call_interaction rt ?svc now ?id ?interaction] =>
          pose proof (log_call_interaction_run rt svc c now id "assistant_speech"
                        spoken d Hc) as Hlog
      end.
      unfold bind, ret. rewrite Hlog. cbn [value store events].
      split; [by eexists |].
      unfold r_lrange_all at 1. cbn [lists]. by rewrite lookup_insert_eq.
Qed.

Lemma assistant_words_are_logged_as_one_witness :
  r_lrange_all "call:c1:interactions"
    (store (process_frames logging_runtime assistant_logger
              [("2026-01-01T00:00:04", TextFrame "It is ");
               ("2026-01-01T00:00:04", TextFrame "worth it.");
               ("2026-01-01T00:00:05", LLMFullResponseEndFrame)] empty_redis))
  = [] ++ ["{speech}"].
Proof.
  apply (assistant_words_are_logged_as_one logging_runtime assistant_logger
           {| scan := ScanLast []; hgetall := fun _ => HgetallData ∅ |}
           [("2026-01-01T00:00:04", "It is "); ("2026-01-01T00:00:04", "worth it.")]
           "2026-01-01T00:00:05" empty_redis);
    reflexivity.
Defined.



